(** * Filename and column-header classifiers of [aimm_adapters/aimm_ingest.py]

    A shallow embedding of the classifier functions of the ingestion script
    and the properties of its specification that concern them.

    Conventions of the embedding.
    - A Python [str] is a [string]; a character stands for its code point, so
      the model ranges over the strings whose code points are below 256.  On
      that range the decimal digits matched by the regular expression class
      [\d] are ['0'..'9'], and the white space [str.split()] separates on is
      9..13, 28..32, 133 and 160.
    - A Python [int] is a [Z], a Python [float] is a binary64 [float].
    - A [dict] is an association list in insertion order, a later binding of
      a key replacing the earlier value in place.
    - A raised exception is the [Raise] case of [result]; the exception class
      and its argument are kept. *)

From Stdlib Require Import ZArith List Bool Ascii String Lia.
From Stdlib Require Import PrimFloat Uint63.
Import ListNotations.

Open Scope string_scope.
Open Scope bool_scope.

(* Decimal float literals are rounded to the nearest binary64 value, as the
   Python literals are. *)
Set Warnings "-inexact-float".

(** ** Python values, dictionaries, exceptions *)

Inductive pyval : Type :=
| PInt (z : Z)
| PFloat (f : float)
| PStr (s : string).

Inductive exn : Type :=
| KeyError (arg : string)
| TypeError (msg : string)
| IndexError (msg : string).

Inductive result (A : Type) : Type :=
| Ok (a : A)
| Raise (e : exn).

Arguments Ok {A} a.
Arguments Raise {A} e.

Definition bind {A B : Type} (r : result A) (k : A -> result B) : result B :=
  match r with
  | Ok a => k a
  | Raise e => Raise e
  end.

Notation "x <- r ;; k" := (bind r (fun x => k))
  (at level 61, r at next level, right associativity).

Section Dict.
Context {V : Type}.

Definition pydict : Type := list (string * V).

(** [d[k] = v] *)
Fixpoint dict_set (d : pydict) (k : string) (v : V) : pydict :=
  match d with
  | [] => [(k, v)]
  | (k', v') :: d' =>
      if String.eqb k' k then (k', v) :: d' else (k', v') :: dict_set d' k v
  end.

(** [dict(pairs)], and a dict display [{k1: v1, ...}] *)
Definition py_dict (pairs : list (string * V)) : pydict :=
  fold_left (fun d kv => dict_set d (fst kv) (snd kv)) pairs [].

Fixpoint dict_get (d : pydict) (k : string) : option V :=
  match d with
  | [] => None
  | (k', v) :: d' => if String.eqb k' k then Some v else dict_get d' k
  end.

(** [d[k]] *)
Definition dict_subscript (d : pydict) (k : string) : result V :=
  match dict_get d k with
  | Some v => Ok v
  | None => Raise (KeyError k)
  end.

Definition dict_keys (d : pydict) : list string := map fst d.
End Dict.

Arguments pydict V : clear implicits.

Definition dict : Type := pydict pyval.

(** [zip(xs, ys)] *)
Definition py_zip {A B : Type} (xs : list A) (ys : list B) : list (A * B) :=
  combine xs ys.

(** [l[0]] *)
Definition subscript0 {A : Type} (l : list A) : result A :=
  match l with
  | x :: _ => Ok x
  | [] => Raise (IndexError "list index out of range")
  end.

(** ** String primitives *)


(** [pat in s] *)
Fixpoint str_in (pat s : string) : bool :=
  if prefix pat s then true
  else match s with
       | EmptyString => false
       | String _ s' => str_in pat s'
       end.

Definition is_digit (c : ascii) : bool :=
  (48 <=? nat_of_ascii c)%nat && (nat_of_ascii c <=? 57)%nat.

(** The pattern of line 62 (a group of zero or more [\d], then [V]) anchored
    at the head of [s]: the greedy digit run followed by ['V'].  The digit
    class and ['V'] are disjoint, so backtracking into the run never yields a match the greedy run misses. *)
Fixpoint match_digits_V (s : string) : option string :=
  match s with
  | EmptyString => None
  | String c s' =>
      if Ascii.eqb c "V" then Some "V"
      else if is_digit c then
             match match_digits_V s' with
             | Some m => Some (String c m)
             | None => None
             end
           else None
  end.

(** [re.search] with that pattern, reduced to group 0 of the match: the match
    at the leftmost position where one exists. *)
Fixpoint re_search_digits_V (s : string) : option string :=
  match match_digits_V s with
  | Some m => Some m
  | None => match s with
            | EmptyString => None
            | String _ s' => re_search_digits_V s'
            end
  end.

(** ** [parse_filename] *)

Definition charge_tuple : Type := (Z * float * string)%type.

Definition charge_keys : list string := ["cycle"; "voltage"; "state"].

Definition tuple_values (t : charge_tuple) : list pyval :=
  let '(cycle, voltage, state) := t in [PInt cycle; PFloat voltage; PStr state].

(** The closing block of the charge-resolving functions:
    [if charge: charge = dict(zip(keys, charge))].  [None] is falsy, a
    3-tuple is truthy. *)
Definition charge_to_dict (charge : option charge_tuple) : option dict :=
  match charge with
  | Some t => Some (py_dict (py_zip charge_keys (tuple_values t)))
  | None => None
  end.

(** Lines 35-46. *)
Definition parse_filename_sample (name : string) : result string :=
  if str_in "622" name then Ok "BM_NCM622"
  else if str_in "NCMA" name then Ok "BM_NCMA"
  else if str_in "712_Al_free" name then Ok "BM_NCM712"
  else if str_in "712" name then Ok "BM_NCM712-Al"
  else if str_in "811" name then Ok "BM_NCM811"
  else Raise (KeyError ("unable to parse sample from " ++ name)).

(** Lines 53-60. *)
Definition parse_filename_cycle (name : string) : result Z :=
  if str_in "1st" name then Ok 1%Z
  else if str_in "2nd" name then Ok 2%Z
  else if str_in "10th" name then Ok 10%Z
  else Raise (KeyError ("unable to parse cycle from " ++ name)).

(** Lines 62-73.  Subscripting the [None] of a failed search raises
    [TypeError]. *)
Definition parse_filename_voltage (name : string) : result (float * string) :=
  match re_search_digits_V name with
  | None => Raise (TypeError "'NoneType' object is not subscriptable")
  | Some voltage_str =>
      if String.eqb voltage_str "43V" then Ok (4.3%float, "C")
      else if String.eqb voltage_str "48V" then Ok (4.8%float, "C")
      else if String.eqb voltage_str "3V" then Ok (3.0%float, "DC")
      else Raise (KeyError ("unable to parse voltage from " ++ voltage_str))
  end.

Definition parse_filename (name : string) : result (string * option dict) :=
  sample <- parse_filename_sample name ;;
  charge <- (if String.eqb sample "Ni_metal" then Ok None
             else if str_in "Pristine" name then Ok (Some (0%Z, 0.0%float, "DC"))
             else
               cycle <- parse_filename_cycle name ;;
               vs <- parse_filename_voltage name ;;
               Ok (Some (cycle, fst vs, snd vs))) ;;
  Ok (sample, charge_to_dict charge).

(** ** [parse_filename_gihyeok] *)

(** Lines 101-112. *)
Definition parse_filename_gihyeok_sample (name : string) : result string :=
  if str_in "622" name then Ok "BM_NCM622"
  else if str_in "NCMA" name then Ok "BM_NCMA"
  else if str_in "712_Al-doped" name then Ok "BM_NCM712-Al"
  else if str_in "712" name then Ok "BM_NCM712"
  else if str_in "811" name then Ok "BM_NCM811"
  else Raise (KeyError ("unable to parse sample from " ++ name)).

(** Lines 114-123. *)
Definition parse_filename_gihyeok_symbol (name : string) : result string :=
  if str_in "Co" name then Ok "Co"
  else if str_in "Mn" name then Ok "Mn"
  else if str_in "Ni" name then Ok "Ni"
  else if str_in "O" name then Ok "O"
  else Raise (KeyError ("unable to parse symbol from " ++ name)).

Definition parse_filename_gihyeok (name : string) : result (string * string) :=
  sample <- parse_filename_gihyeok_sample name ;;
  symbol <- parse_filename_gihyeok_symbol name ;;
  Ok (sample, symbol).

(** ** [parse_filename_nslsii] *)

(** Lines 146-155. *)
Definition parse_filename_nslsii_sample (name : string) : result string :=
  if str_in "622" name then Ok "BM_NCM622"
  else if str_in "NCMA" name || str_in "NMCA" name then Ok "BM_NCMA"
  else if str_in "712" name || str_in "721" name then Ok "BM_NCM712-Al"
  else if str_in "811" name then Ok "BM_NCM811"
  else Raise (KeyError ("unable to parse sample from " ++ name)).

(** Lines 160-169: no marker is cycle 1, the raise is commented out. *)
Definition parse_filename_nslsii_cycle (name : string) : Z :=
  if str_in "1st" name then 1%Z
  else if str_in "2nd" name then 2%Z
  else if str_in "10th" name then 10%Z
  else 1%Z.

(** Lines 171-181. *)
Definition parse_filename_nslsii_voltage (name : string)
  : result (float * string) :=
  if str_in "4_3" name || str_in "43C" name then Ok (4.3%float, "C")
  else if str_in "4_8" name || str_in "48C" name then Ok (4.8%float, "C")
  else if str_in "3V" name || str_in "3_0" name || str_in "30DC" name
       then Ok (3.0%float, "DC")
  else Raise (KeyError ("unable to parse voltage from " ++ name)).

Definition parse_filename_nslsii (name : string)
  : result (string * option dict) :=
  sample <- parse_filename_nslsii_sample name ;;
  charge <- (if str_in "pristine" name || str_in "Pristine" name
             then Ok (Some (0%Z, 0.0%float, "DC"))
             else
               let cycle := parse_filename_nslsii_cycle name in
               vs <- parse_filename_nslsii_voltage name ;;
               Ok (Some (cycle, fst vs, snd vs))) ;;
  Ok (sample, charge_to_dict charge).

(** ** [get_experiment_params] *)

Definition is_space (c : ascii) : bool :=
  let n := nat_of_ascii c in
  ((9 <=? n) && (n <=? 13) || (28 <=? n) && (n <=? 32)
   || (n =? 133) || (n =? 160))%nat.

(** [s.split()]: the maximal runs of non-space characters; [tok] is the run
    being read. *)
Fixpoint py_split_from (tok s : string) : list string :=
  match s with
  | EmptyString => if String.eqb tok "" then [] else [tok]
  | String c s' =>
      if is_space c
      then (if String.eqb tok "" then py_split_from "" s'
            else tok :: py_split_from "" s')
      else py_split_from (tok ++ String c "") s'
  end.

Definition py_split (s : string) : list string := py_split_from "" s.

Record experiment_params : Type := mk_params {
  sample : string;
  charge : dict
}.

(** The display [{"cycle": c, "voltage": v, "state": s}]. *)
Definition charge_display (c : Z) (v : float) (s : string) : dict :=
  py_dict [("cycle", PInt c); ("voltage", PFloat v); ("state", PStr s)].

(** Lines 211-340. *)
Definition experiment_to_params_map : pydict experiment_params :=
  py_dict [
    ("1-1", mk_params "BM_NCMA" (charge_display 1 3.0 "DC"));
    ("1-2", mk_params "BM_NCMA" (charge_display 10 4.8 "C"));
    ("1-3", mk_params "BM_NCM712-Al" (charge_display 1 3.0 "DC"));
    ("1-4", mk_params "BM_NCM712-Al" (charge_display 10 3.0 "DC"));
    ("2-1", mk_params "BM_NCMA" (charge_display 2 4.8 "C"));
    ("2-2", mk_params "BM_NCM712-Al" (charge_display 1 4.8 "C"));
    ("2-3", mk_params "BM_NCM712-Al" (charge_display 10 4.8 "C"));
    ("2-4", mk_params "BM_NCM811" (charge_display 1 3.0 "DC"));
    ("3-1", mk_params "BM_NCM712-Al" (charge_display 0 0.0 "DC"));
    ("3-2", mk_params "BM_NCM712-Al" (charge_display 2 4.8 "C"));
    ("3-3", mk_params "BM_NCM622" (charge_display 2 4.8 "C"));
    ("3-4", mk_params "BM_NCM811" (charge_display 2 4.8 "C"));
    ("4-1", mk_params "BM_NCM811" (charge_display 2 4.3 "C"));
    ("4-2", mk_params "BM_NCM622" (charge_display 1 4.8 "C"));
    ("4-3", mk_params "BM_NCM811" (charge_display 10 3.0 "DC"));
    ("4-4", mk_params "BM_NCMA" (charge_display 1 4.8 "C"));
    ("5-1", mk_params "BM_NCM712-Al" (charge_display 1 4.3 "C"));
    ("5-2", mk_params "BM_NCM622" (charge_display 2 4.3 "C"));
    ("5-3", mk_params "BM_NCM811" (charge_display 1 4.8 "C"));
    ("5-4", mk_params "BM_NCM622" (charge_display 10 3.0 "DC"));
    ("6-1", mk_params "BM_NCM622" (charge_display 1 3.0 "DC"));
    ("6-2", mk_params "BM_NCM712-Al" (charge_display 2 4.8 "C"));
    ("6-3", mk_params "BM_NCM811" (charge_display 10 4.8 "C"));
    ("6-4", mk_params "BM_NCMA" (charge_display 0 0.0 "DC"));
    ("7-1", mk_params "BM_NCMA" (charge_display 2 4.3 "C"));
    ("7-2", mk_params "BM_NCM622" (charge_display 1 4.3 "C"));
    ("7-3", mk_params "BM_NCM811" (charge_display 0 0.0 "DC"));
    ("7-4", mk_params "BM_NCMA" (charge_display 1 4.3 "C"));
    ("8-1", mk_params "BM_NCM622" (charge_display 0 0.0 "DC"));
    ("8-2", mk_params "BM_NCM811" (charge_display 1 4.3 "C"));
    ("8-3", mk_params "BM_NCMA" (charge_display 10 4.8 "C"));
    ("8-4", mk_params "BM_NCM622" (charge_display 10 4.8 "C"))
  ].

(** Lines 342-346. *)
Definition get_experiment_params (name : string) : result (string * dict) :=
  let split_name := py_split name in
  experiment_number <- subscript0 split_name ;;
  experiment_params <- dict_subscript experiment_to_params_map experiment_number ;;
  Ok (sample experiment_params, charge experiment_params).

(** ** Per-column charge resolution *)

(** Lines 640-664, the charge of one data column in
    [ingest_aimm_ncm_gihyeok]. *)
Definition ingest_aimm_ncm_gihyeok_charge (column : string) : result dict :=
  charge <- (if str_in "Pristine" column then Ok (0%Z, 0.0%float, "DC")
             else
               cycle <- (if str_in "1st" column then Ok 1%Z
                         else if str_in "2nd" column then Ok 2%Z
                         else if str_in "10th" column then Ok 10%Z
                         else Raise (KeyError ("unable to parse cycle from "
                                               ++ column))) ;;
               vs <- (if str_in "3.0" column then Ok (3.0%float, "DC")
                      else if str_in "4.8" column then Ok (4.8%float, "C")
                      else Raise (KeyError ("unable to parse voltage from "
                                            ++ column))) ;;
               Ok (cycle, fst vs, snd vs)) ;;
  Ok (py_dict (py_zip charge_keys (tuple_values charge))).

(** Lines 930-957, the charge of one data column in
    [ingest_aimm_ncm_gihyeok_oxygen]. *)
Definition ingest_aimm_ncm_gihyeok_oxygen_charge (column : string)
  : result dict :=
  charge <- (if str_in "Pristine" column then Ok (0%Z, 0.0%float, "DC")
             else
               cycle <- (if str_in "1st" column then Ok 1%Z
                         else if str_in "2nd" column then Ok 2%Z
                         else if str_in "10th" column then Ok 10%Z
                         else Raise (KeyError ("unable to parse cycle from "
                                               ++ column))) ;;
               vs <- (if str_in "3.0" column then Ok (3.0%float, "DC")
                      else if str_in "4.3" column then Ok (4.3%float, "C")
                      else if str_in "4.8" column then Ok (4.8%float, "C")
                      else Raise (KeyError ("unable to parse voltage from "
                                            ++ column))) ;;
               Ok (cycle, fst vs, snd vs)) ;;
  Ok (py_dict (py_zip charge_keys (tuple_values charge))).

(** ** [get_sample_charge] *)

(** [s.split(sep)] for a one-character separator. *)
Fixpoint py_split_char (sep : ascii) (s : string) : list string :=
  match s with
  | EmptyString => [""]
  | String c s' =>
      if Ascii.eqb c sep then "" :: py_split_char sep s'
      else match py_split_char sep s' with
           | p :: ps => String c p :: ps
           | [] => [String c ""]
           end
  end.

Definition ascii_upper (c : ascii) : ascii :=
  let n := nat_of_ascii c in
  if ((97 <=? n) && (n <=? 122))%nat then ascii_of_nat (n - 32) else c.

Definition ascii_lower (c : ascii) : ascii :=
  let n := nat_of_ascii c in
  if ((65 <=? n) && (n <=? 90))%nat then ascii_of_nat (n + 32) else c.

Fixpoint str_map (f : ascii -> ascii) (s : string) : string :=
  match s with
  | EmptyString => EmptyString
  | String c s' => String (f c) (str_map f s')
  end.

(** [s.capitalize()] on ASCII letters.  The case mappings of the code points
    128..255 are not modelled, those characters are kept: their images are
    not ASCII, or (for 223) put a second upper-case or lower-case s behind
    the first character, so neither Python's result nor this one equals an
    entry of the tables below, the only use [get_sample_charge] makes of
    it. *)
Definition capitalize (s : string) : string :=
  match s with
  | EmptyString => EmptyString
  | String c s' => String (ascii_upper c) (str_map ascii_lower s')
  end.

(** [x in l] for a list of strings. *)
Definition list_in (x : string) (l : list string) : bool :=
  existsb (String.eqb x) l.

(** Lines 688-738. *)
Definition file_to_sample_map : pydict (list string) :=
  py_dict [
    ("BM_NCM622", ["Sigscan71987"; "Sigscan71991"; "Sigscan71996"; "Sigscan72001"; "Sigscan72005"; "Sigscan72009"; "Sigscan71970"; "Sigscan71974"]);
    ("BM_NCMA", ["Sigscan71986"; "Sigscan71990"; "Sigscan71995"; "Sigscan71999"; "Sigscan72004"; "Sigscan72008"; "Sigscan71969"; "Sigscan71973"]);
    ("BM_NCM811", []);
    ("BM_NCM712-Al", ["Sigscan71983"; "Sigscan71988"; "Sigscan71993"; "Sigscan71997"; "Sigscan72002"; "Sigscan72006"; "Sigscan72010"; "Sigscan71971"]);
    ("BM_NCM712", ["Sigscan71294"; "Sigscan71295"; "Sigscan71296"; "Sigscan71297"; "Sigscan71312"; "Sigscan71313"; "Sigscan71314"; "Sigscan71315"; "Sigscan71985"; "Sigscan71989"; "Sigscan71994"; "Sigscan71998"; "Sigscan72003"; "Sigscan72007"; "Sigscan71968"; "Sigscan71972"])
  ].

(** Lines 740-797. *)
Definition file_to_charge_map : pydict (list string) :=
  py_dict [
    ("Pristine", ["Sigscan71294"; "Sigscan72001"; "Sigscan72002"; "Sigscan72003"; "Sigscan72004"]);
    ("1st_43V", ["Sigscan71295"; "Sigscan72005"; "Sigscan72006"; "Sigscan72007"; "Sigscan72008"]);
    ("1st_48V", ["Sigscan71296"; "Sigscan72009"; "Sigscan72010"; "Sigscan71968"; "Sigscan71969"]);
    ("1st_3V", ["Sigscan71297"; "Sigscan71970"; "Sigscan71971"; "Sigscan71972"; "Sigscan71973"]);
    ("2nd_43V", ["Sigscan71312"; "Sigscan71983"; "Sigscan71985"; "Sigscan71986"; "Sigscan71974"]);
    ("2nd_48V", ["Sigscan71313"; "Sigscan71987"; "Sigscan71988"; "Sigscan71989"; "Sigscan71990"]);
    ("10th_48V", ["Sigscan71314"; "Sigscan71991"; "Sigscan71993"; "Sigscan71994"; "Sigscan71995"]);
    ("10th_3V", ["Sigscan71315"; "Sigscan71996"; "Sigscan71997"; "Sigscan71998"; "Sigscan71999"])
  ].

(** The loops of lines 804-812: the first key, in insertion order, whose list
    holds [fname]; [None] when the loop ends without a [break]. *)
Fixpoint first_key_with (fname : string) (items : pydict (list string))
  : option string :=
  match items with
  | [] => None
  | (key, value) :: items' =>
      if list_in fname value then Some key else first_key_with fname items'
  end.

(** Lines 799-815.  The function ends without a [return] when either lookup
    found nothing, so the call evaluates to [None]. *)
Definition get_sample_charge (name : string) : result (option string) :=
  first <- subscript0 (py_split_char "-" name) ;;
  let fname := capitalize first in
  let str_sample := first_key_with fname file_to_sample_map in
  let str_charge := first_key_with fname file_to_charge_map in
  match str_sample, str_charge with
  | Some a, Some b => Ok (Some (a ++ "_" ++ b))
  | _, _ => Ok None
  end.

(** ** Predicates of the statements *)

(** A sample token of [parse_filename] occurs in [name]; a name that holds
    ["712_Al_free"] holds ["712"]. *)
Definition has_sample_token (name : string) : bool :=
  str_in "622" name || str_in "NCMA" name || str_in "712" name
  || str_in "811" name.

Definition has_cycle_marker (name : string) : bool :=
  str_in "1st" name || str_in "2nd" name || str_in "10th" name.

(** The call gets as far as line 62. *)
Definition reaches_voltage_resolution (name : string) : bool :=
  has_sample_token name && negb (str_in "Pristine" name)
  && has_cycle_marker name.

Definition sample_tags : list string :=
  ["BM_NCM622"; "BM_NCMA"; "BM_NCM712"; "BM_NCM712-Al"; "BM_NCM811"].

(** The last character of [s] is a digit. *)
Fixpoint ends_with_digit (s : string) : bool :=
  match s with
  | EmptyString => false
  | String c EmptyString => is_digit c
  | String _ s' => ends_with_digit s'
  end.

Fixpoint all_digits (s : string) : bool :=
  match s with
  | EmptyString => true
  | String c s' => is_digit c && all_digits s'
  end.

(** The rule table the specification describes for sample resolution: an
    ordered list of (token, tag) rules, the first rule whose token occurs in
    the name gives the tag. *)
Fixpoint spec_first_match (rules : list (string * string)) (name : string)
  : option string :=
  match rules with
  | [] => None
  | (token, tag) :: rules' =>
      if str_in token name then Some tag else spec_first_match rules' name
  end.

Definition spec_resolve_sample (rules : list (string * string)) (name : string)
  : result string :=
  match spec_first_match rules name with
  | Some tag => Ok tag
  | None => Raise (KeyError ("unable to parse sample from " ++ name))
  end.

Definition spec_parse_filename_rules : list (string * string) :=
  [("622", "BM_NCM622"); ("NCMA", "BM_NCMA"); ("712_Al_free", "BM_NCM712");
   ("712", "BM_NCM712-Al"); ("811", "BM_NCM811")].

Definition spec_parse_filename_gihyeok_rules : list (string * string) :=
  [("622", "BM_NCM622"); ("NCMA", "BM_NCMA"); ("712_Al-doped", "BM_NCM712-Al");
   ("712", "BM_NCM712"); ("811", "BM_NCM811")].

Definition no_space (s : string) : bool :=
  negb (existsb is_space (list_ascii_of_string s)).

Definition has_symbol (name : string) : bool :=
  str_in "Co" name || str_in "Mn" name || str_in "Ni" name || str_in "O" name.

Definition nslsii_has_sample_token (name : string) : bool :=
  str_in "622" name || str_in "NCMA" name || str_in "NMCA" name
  || str_in "712" name || str_in "721" name || str_in "811" name.

Definition nslsii_has_voltage_marker (name : string) : bool :=
  str_in "4_3" name || str_in "43C" name || str_in "4_8" name
  || str_in "48C" name || str_in "3V" name || str_in "3_0" name
  || str_in "30DC" name.

(** The search of line 62 returns one of the three known markers. *)
Definition voltage_marker_found (name : string) : bool :=
  match re_search_digits_V name with
  | Some m => String.eqb m "43V" || String.eqb m "48V" || String.eqb m "3V"
  | None => false
  end.

(** Every stage of [parse_filename] finds a token. *)
Definition parse_filename_matched (name : string) : bool :=
  has_sample_token name
  && (str_in "Pristine" name
      || has_cycle_marker name && voltage_marker_found name).

Definition column_matched (markers : list string) (column : string) : bool :=
  str_in "Pristine" column
  || has_cycle_marker column && existsb (fun m => str_in m column) markers.

(** ** The classification step of [ingest_aimm_ncm_gihyeok_sigscan] *)

(** Lines 845-852: the stem of the file goes through [get_sample_charge] and
    the result, a string or [None], through [parse_filename], whose first
    test [in] raises [TypeError] on [None].  Only the second call is inside
    the [try]; the first one never raises (lemma
    [get_sample_charge_returns]). *)
Definition ingest_aimm_ncm_gihyeok_sigscan_params (stem : string)
  : result (string * option dict) :=
  file_params <- get_sample_charge stem ;;
  match file_params with
  | Some name => parse_filename name
  | None => Raise (TypeError "argument of type 'NoneType' is not iterable")
  end.

(** What a loop body does with the result of a call wrapped in
    [try: ... except KeyError: ...; continue]. *)
Inductive guarded (A : Type) : Type :=
| Proceed (a : A)
| Skip
| Abort (e : exn).

Arguments Proceed {A} a.
Arguments Skip {A}.
Arguments Abort {A} e.

Definition except_KeyError_continue {A : Type} (r : result A) : guarded A :=
  match r with
  | Ok a => Proceed a
  | Raise (KeyError _) => Skip
  | Raise e => Abort e
  end.

(** ** The energy offset of [ingest_aimm_ncm_gihyeok_811] *)

(** [v == n] for an integer literal [n] (of at most 53 bits, which converts
    to a float without rounding). *)
Definition py_eq_int (v : pyval) (n : Z) : bool :=
  match v with
  | PInt z => Z.eqb z n
  | PFloat f => PrimFloat.eqb f (PrimFloat.of_uint63 (Uint63.of_Z n))
  | PStr _ => false
  end.

(** Lines 1244-1247: the value of [metadata["energy_offset"]], [None] when
    the key is not set.  [charge] is what [parse_filename_nslsii] returned;
    subscripting [None] raises [TypeError]. *)
Definition ingest_aimm_ncm_gihyeok_811_energy_offset (charge : option dict)
  : result (option float) :=
  match charge with
  | None => Raise (TypeError "'NoneType' object is not subscriptable")
  | Some d =>
      c1 <- dict_subscript d "cycle" ;;
      if py_eq_int c1 1 then Ok (Some 0.176%float)
      else
        c2 <- dict_subscript d "cycle" ;;
        if py_eq_int c2 10 then Ok (Some 0.176%float)
        else
          c3 <- dict_subscript d "cycle" ;;
          if py_eq_int c3 2 then Ok (Some (-0.055)%float)
          else Ok None
  end.

(** ** [read_header] *)

(** [s.rstrip()]: [s] without its trailing white space. *)
Fixpoint rstrip (s : string) : string :=
  match s with
  | EmptyString => EmptyString
  | String c s' =>
      match rstrip s' with
      | EmptyString => if is_space c then EmptyString else String c EmptyString
      | r => String c r
      end
  end.

Definition TAB : ascii := ascii_of_nat 9.

(** Lines 365-370.  [f] is iterated line by line; the second component is
    what the iteration has not consumed when the function returns.  The
    function returns [None] when the loop ends: the initial value of
    [header] is never returned. *)
Fixpoint read_header (f : list string) : option (list string) * list string :=
  match f with
  | [] => (None, [])
  | line :: f' =>
      if prefix "Time (s)" line
      then (Some (py_split_char TAB (rstrip line)), f')
      else read_header f'
  end.

(** ** [read_eli_txt] *)

(** [s.lower()] on the code points below 256: the letters A-Z and the
    letters 192-222 other than the multiplication sign 215. *)
Definition py_lower_char (c : ascii) : ascii :=
  let n := nat_of_ascii c in
  if ((65 <=? n) && (n <=? 90)
      || (192 <=? n) && (n <=? 222) && negb (n =? 215))%nat
  then ascii_of_nat (n + 32) else c.

Definition py_lower (s : string) : string := str_map py_lower_char s.

(** [s[0]] *)
Definition str_subscript0 (s : string) : result ascii :=
  match s with
  | String c _ => Ok c
  | EmptyString => Raise (IndexError "string index out of range")
  end.

(** [s[n:]] *)
Fixpoint str_drop (n : nat) (s : string) : string :=
  match n, s with
  | S n', String _ s' => str_drop n' s'
  | _, _ => s
  end.

(** [s.split(sep, 1)] for a separator that is not empty: [s] cut at the
    first occurrence of [sep]. *)
Fixpoint py_split_once (sep s : string) : list string :=
  if prefix sep s then [""; str_drop (String.length sep) s]
  else match s with
       | EmptyString => [""]
       | String c s' =>
           match py_split_once sep s' with
           | p :: ps => String c p :: ps
           | [] => [String c ""]
           end
       end.

(** [l[1]] *)
Definition subscript1 {A : Type} (l : list A) : result A :=
  match l with
  | _ :: x :: _ => Ok x
  | _ => Raise (IndexError "list index out of range")
  end.

(** [k in d] *)
Definition dict_mem {V : Type} (d : pydict V) (k : string) : bool :=
  match dict_get d k with
  | Some _ => true
  | None => false
  end.

(** Lines 428-446, the loop over the lines from [metadata] on.  The right
    side of the assignment of line 444 is evaluated before its target. *)
Fixpoint read_eli_txt_loop (lines : list string)
  (metadata : pydict (pydict string)) : result (pydict (pydict string)) :=
  match lines with
  | [] => Ok metadata
  | line :: lines' =>
      let line := rstrip line in
      c <- str_subscript0 line ;;
      if Ascii.eqb c "#" then
        let meta_raw := str_drop 2 line in
        if str_in "Column" meta_raw then Ok metadata
        else if str_in ": " meta_raw then
          let meta_split := py_split_once ": " meta_raw in
          m0 <- subscript0 meta_split ;;
          let keys := py_split_char "." m0 in
          k0 <- subscript0 keys ;;
          let metadata :=
            if negb (dict_mem metadata (py_lower k0))
            then dict_set metadata (py_lower k0) []
            else metadata in
          m1 <- subscript1 meta_split ;;
          group <- dict_subscript metadata (py_lower k0) ;;
          k1 <- subscript1 keys ;;
          read_eli_txt_loop lines'
            (dict_set metadata (py_lower k0) (dict_set group (py_lower k1) m1))
        else read_eli_txt_loop lines' metadata
      else read_eli_txt_loop lines' metadata
  end.

(** Lines 424-446; [lines] is [f.readlines()]. *)
Definition read_eli_txt (lines : list string)
  : result (pydict (pydict string)) :=
  read_eli_txt_loop lines [].

(** ** Well-formed charges *)

(** The voltage levels and the state each one goes with. *)
Definition charge_levels : list (float * string) :=
  [(0.0%float, "DC"); (3.0%float, "DC"); (4.3%float, "C"); (4.8%float, "C")].

(** A charge dict with the three keys in order, a known cycle, a known
    voltage level with its state, and cycle 0 exactly at voltage 0.0. *)
Definition well_formed_charge (d : dict) : Prop :=
  exists cycle v st,
    d = [("cycle", PInt cycle); ("voltage", PFloat v); ("state", PStr st)]
    /\ In cycle [0%Z; 1%Z; 2%Z; 10%Z]
    /\ In (v, st) charge_levels
    /\ (cycle = 0%Z <-> v = 0.0%float).

(** ** Predicates on lines and dictionaries *)

(** The last character of [s]. *)
Fixpoint str_last (s : string) : option ascii :=
  match s with
  | EmptyString => None
  | String c EmptyString => Some c
  | String _ s' => str_last s'
  end.

(** [line] stops the loop of [read_eli_txt]: stripped, it starts with ['#']
    and holds ["Column"] from its third character on. *)
Definition is_column_line (line : string) : bool :=
  match rstrip line with
  | String c _ => Ascii.eqb c "#" && str_in "Column" (str_drop 2 (rstrip line))
  | EmptyString => false
  end.

(** Every key of [d] is its own lower-case form. *)
Definition lower_case_keys {V : Type} (d : pydict V) : Prop :=
  Forall (fun k => py_lower k = k) (dict_keys d).

(** A header line and a data line of a file of Wanli's, for the examples. *)
Definition header_line : string :=
  String.concat (String TAB "") ["Time (s)"; "Mono Energy"; "Counter 0"; " "].

Definition data_line : string :=
  String.concat (String TAB "") ["1"; "2"; "3"].

(** What one round of the loop of [read_eli_txt] does with [line]: raise,
    leave the loop ([None]), or go on with the updated dictionary.  The body
    is that of [read_eli_txt_loop]; lemma [read_eli_txt_loop_step] relates
    the two. *)
Definition read_eli_txt_step (line : string) (metadata : pydict (pydict string))
  : result (option (pydict (pydict string))) :=
  let line := rstrip line in
  c <- str_subscript0 line ;;
  if Ascii.eqb c "#" then
    let meta_raw := str_drop 2 line in
    if str_in "Column" meta_raw then Ok None
    else if str_in ": " meta_raw then
      let meta_split := py_split_once ": " meta_raw in
      m0 <- subscript0 meta_split ;;
      let keys := py_split_char "." m0 in
      k0 <- subscript0 keys ;;
      let metadata :=
        if negb (dict_mem metadata (py_lower k0))
        then dict_set metadata (py_lower k0) []
        else metadata in
      m1 <- subscript1 meta_split ;;
      group <- dict_subscript metadata (py_lower k0) ;;
      k1 <- subscript1 keys ;;
      Ok (Some (dict_set metadata (py_lower k0)
                  (dict_set group (py_lower k1) m1)))
    else Ok (Some metadata)
  else Ok (Some metadata).

(** [metadata[group][field]], [None] when either key is missing. *)
Definition meta_get (metadata : pydict (pydict string)) (group field : string)
  : option string :=
  match dict_get metadata group with
  | Some g => dict_get g field
  | None => None
  end.

(** The text of a metadata line: ["# group.field: value"]. *)
Definition eli_entry (group field value : string) : string :=
  "# " ++ group ++ "." ++ field ++ ": " ++ value.

(** A key without ['.'] and [':']. *)
Definition plain_key (k : string) : bool :=
  negb (str_in "." k) && negb (str_in ":" k).

(** ** The metadata of [ingest_aimm_ncm_eli] *)

(** Lines 566-568: the dictionary read from the text file, with the name of
    the beamline and of the sample overwritten.  Each assignment subscripts
    the group first, which raises [KeyError] when the file has no entry of
    that group. *)
Definition ingest_aimm_ncm_eli_meta (lines : list string) (sample_name : string)
  : result (pydict (pydict string)) :=
  meta <- read_eli_txt lines ;;
  beamline <- dict_subscript meta "beamline" ;;
  let meta := dict_set meta "beamline" (dict_set beamline "name" "ISS") in
  sample_group <- dict_subscript meta "sample" ;;
  Ok (dict_set meta "sample" (dict_set sample_group "name" sample_name)).

(** ** [read_aimm_ncm_vasp] *)

(** Metadata values: strings and nested dictionaries. *)
#[warnings="-register-all"]
Inductive meta_val : Type :=
| MStr (s : string)
| MDict (d : list (string * meta_val)).

(** Lines 998-1003, the metadata of one key. *)
Definition vasp_meta (fname : string) : pydict meta_val :=
  py_dict [("dataset", MStr "sim_nmc");
           ("fname", MStr fname);
           ("facility", MDict (py_dict [("name", MStr "CNM")]));
           ("beamline", MDict (py_dict [("name", MStr "Simulation")]))].

Section Vasp.
Context {V : Type}.

(** [d1.keys() == d2.keys()]: the key views are compared as sets, by their
    sizes and by membership of every key of the first in the second. *)
Definition keys_view_eq (d1 d2 : pydict V) : bool :=
  Nat.eqb (List.length d1) (List.length d2)
  && forallb (fun k => dict_mem d2 k) (dict_keys d1).

(** Lines 992-1003: the loop over [file_data["energy"].items()]. *)
Fixpoint read_aimm_ncm_vasp_loop (items : list (string * V))
  (intensity : pydict V) (fname : string)
  (data : pydict (pydict V)) (meta : pydict (pydict meta_val))
  : result (pydict (pydict V) * pydict (pydict meta_val)) :=
  match items with
  | [] => Ok (data, meta)
  | (key, values) :: items' =>
      mutrans <- dict_subscript intensity key ;;
      read_aimm_ncm_vasp_loop items' intensity fname
        (dict_set data key (py_dict [("energy", values); ("mutrans", mutrans)]))
        (dict_set meta key (vasp_meta fname))
  end.

(** Lines 989-1004, from the loaded [file_data] on; [fname] is the name of
    the file. *)
Definition read_aimm_ncm_vasp (fname : string) (file_data : pydict (pydict V))
  : result (pydict (pydict V) * pydict (pydict meta_val)) :=
  energy <- dict_subscript file_data "energy" ;;
  intensity <- dict_subscript file_data "intensity" ;;
  if keys_view_eq energy intensity
  then read_aimm_ncm_vasp_loop energy intensity fname [] []
  else Ok ([], []).
End Vasp.

(** * Properties *)

(** ** Containment *)

Lemma prefix_nil (s : string) : prefix "" s = true.
Proof. now destruct s. Qed.

Lemma prefix_split (p u : string) :
  prefix p u = true -> exists b, u = p ++ b.
Proof.
  revert u; induction p as [|c p IH]; intros u H.
  - now exists u.
  - destruct u as [|d u]; [discriminate|]. simpl in H.
    destruct (ascii_dec c d) as [->|]; [|discriminate].
    destruct (IH _ H) as [b ->]. now exists b.
Qed.

Lemma prefix_self_app (p t : string) : prefix p (p ++ t) = true.
Proof.
  induction p as [|c p IH]; simpl; [now destruct t|].
  destruct (ascii_dec c c); [exact IH | congruence].
Qed.

Lemma str_in_cons (p : string) (c : ascii) (s : string) :
  str_in p (String c s) = prefix p (String c s) || str_in p s.
Proof. reflexivity. Qed.

Lemma str_in_spec (p s : string) :
  str_in p s = true <-> exists a b, s = a ++ p ++ b.
Proof.
  split.
  - induction s as [|c s IH]; intros H.
    + simpl in H. destruct p; [|discriminate]. now exists "", "".
    + rewrite str_in_cons in H. apply orb_true_iff in H as [H|H].
      * destruct (prefix_split _ _ H) as [b E]. now exists "", b.
      * destruct (IH H) as (a & b & ->). now exists (String c a), b.
  - intros (a & b & ->). induction a as [|c a IH].
    + simpl. destruct (p ++ b) eqn:E.
      * destruct p; [reflexivity | discriminate].
      * rewrite str_in_cons, <- E, prefix_self_app. reflexivity.
    + simpl append. rewrite str_in_cons, IH. apply orb_true_r.
Qed.

Lemma append_assoc (a b c : string) : (a ++ b) ++ c = a ++ b ++ c.
Proof. induction a; simpl; congruence. Qed.

(** Containment is transitive: a string that holds [q] holds every
    substring of [q]. *)
Lemma str_in_trans (p q s : string) :
  str_in p q = true -> str_in q s = true -> str_in p s = true.
Proof.
  intros Hp Hq. apply str_in_spec in Hp as (a & b & ->).
  apply str_in_spec in Hq as (a' & b' & ->).
  apply str_in_spec. exists (a' ++ a), (b ++ b').
  now rewrite !append_assoc.
Qed.

Ltac case_str_in :=
  repeat match goal with
    | |- context [str_in ?p ?s] =>
        let E := fresh "E" in destruct (str_in p s) eqn:E; simpl
    | H : context [if str_in ?p ?s then _ else _] |- _ =>
        let E := fresh "E" in destruct (str_in p s) eqn:E; simpl in H
    end.

Lemma str_in_712_Al_free (name : string) :
  str_in "712_Al_free" name = true -> str_in "712" name = true.
Proof. apply str_in_trans. reflexivity. Qed.

Lemma parse_filename_sample_tag (name s : string) :
  parse_filename_sample name = Ok s -> In s sample_tags.
Proof.
  unfold parse_filename_sample. intros H. case_str_in;
    inversion H; subst; simpl; tauto.
Qed.

Lemma sample_tags_not_Ni_metal (s : string) :
  In s sample_tags -> String.eqb s "Ni_metal" = false.
Proof.
  simpl. intros [<-|[<-|[<-|[<-|[<-|[]]]]]]; reflexivity.
Qed.

Lemma parse_filename_sample_ok (name : string) :
  has_sample_token name = true -> exists s, parse_filename_sample name = Ok s.
Proof.
  unfold has_sample_token, parse_filename_sample. intros H.
  destruct (str_in "622" name); [eauto|].
  destruct (str_in "NCMA" name); [eauto|].
  destruct (str_in "712_Al_free" name); [eauto|].
  destruct (str_in "712" name); [eauto|].
  destruct (str_in "811" name); [eauto|discriminate].
Qed.

Lemma parse_filename_sample_raise (name : string) :
  has_sample_token name = false ->
  parse_filename_sample name
  = Raise (KeyError ("unable to parse sample from " ++ name)).
Proof.
  unfold has_sample_token, parse_filename_sample. intros H.
  destruct (str_in "712_Al_free" name) eqn:E.
  - apply str_in_712_Al_free in E. rewrite E in H.
    now rewrite !orb_true_r in H.
  - now case_str_in.
Qed.

(** ** The search of line 62 *)

Lemma match_digits_V_has_V (s m : string) :
  match_digits_V s = Some m -> str_in "V" s = true.
Proof.
  revert m; induction s as [|c s IH]; intros m H; [discriminate|].
  simpl in H. rewrite str_in_cons.
  destruct (Ascii.eqb c "V") eqn:E.
  - apply Ascii.eqb_eq in E as ->. simpl. now rewrite prefix_nil.
  - destruct (is_digit c); [|discriminate].
    destruct (match_digits_V s) eqn:M; [|discriminate].
    rewrite (IH _ eq_refl). apply orb_true_r.
Qed.

Lemma re_search_no_V (s : string) :
  str_in "V" s = false -> re_search_digits_V s = None.
Proof.
  induction s as [|c s IH]; intros H; [reflexivity|].
  simpl re_search_digits_V.
  change (match_digits_V (String c s)) with
    (if Ascii.eqb c "V" then Some "V"
     else if is_digit c
          then match match_digits_V s with
               | Some m => Some (String c m)
               | None => None
               end
          else None).
  rewrite str_in_cons in H. apply orb_false_iff in H as [H1 H2].
  destruct (Ascii.eqb c "V") eqn:E.
  - apply Ascii.eqb_eq in E as ->. simpl in H1.
    rewrite prefix_nil in H1. discriminate.
  - destruct (match_digits_V s) eqn:M.
    + apply match_digits_V_has_V in M. congruence.
    + destruct (is_digit c); auto.
Qed.

(** A call that reaches line 62 on a name without ['V'] raises [TypeError],
    which no caller catches. *)
Lemma parse_filename_no_V (name : string) :
  reaches_voltage_resolution name = true ->
  str_in "V" name = false ->
  parse_filename name = Raise (TypeError "'NoneType' object is not subscriptable").
Proof.
  unfold reaches_voltage_resolution. intros R HV.
  apply andb_true_iff in R as [R HC]. apply andb_true_iff in R as [HS HP].
  apply negb_true_iff in HP.
  destruct (parse_filename_sample_ok _ HS) as [s Hs].
  unfold parse_filename. rewrite Hs. simpl.
  rewrite (sample_tags_not_Ni_metal _ (parse_filename_sample_tag _ _ Hs)), HP.
  unfold parse_filename_voltage. rewrite (re_search_no_V _ HV).
  unfold parse_filename_cycle, has_cycle_marker in *.
  destruct (str_in "1st" name); [reflexivity|].
  destruct (str_in "2nd" name); [reflexivity|].
  destruct (str_in "10th" name); [reflexivity|discriminate].
Qed.

(** C1.  A name that reaches voltage resolution and holds no ['V'] at all:
    sample and cycle are recognised, the search of line 62 finds nothing and
    the call raises [TypeError], not the [KeyError] the claim names. *)
Theorem parse_filename_no_V_raises_TypeError :
  reaches_voltage_resolution "BM_622_1st_scan.txt" = true
  /\ str_in "V" "BM_622_1st_scan.txt" = false
  /\ parse_filename "BM_622_1st_scan.txt"
     = Raise (TypeError "'NoneType' object is not subscriptable")
  /\ (forall arg, parse_filename "BM_622_1st_scan.txt" <> Raise (KeyError arg)).
Proof.
  repeat split; try reflexivity. intros arg H.
  vm_compute in H. discriminate.
Qed.

(** ** The charge dict *)

Lemma charge_dict_eq (c : Z) (v : float) (s : string) :
  py_dict (py_zip charge_keys (tuple_values (c, v, s)))
  = [("cycle", PInt c); ("voltage", PFloat v); ("state", PStr s)].
Proof. reflexivity. Qed.

Lemma charge_display_eq (c : Z) (v : float) (s : string) :
  charge_display c v s
  = [("cycle", PInt c); ("voltage", PFloat v); ("state", PStr s)].
Proof. reflexivity. Qed.

Lemma charge_to_dict_Some (c : Z) (v : float) (s : string) :
  charge_to_dict (Some (c, v, s)) = Some (charge_display c v s).
Proof. reflexivity. Qed.

(** What [parse_filename] does once the sample is known. *)
Lemma parse_filename_after_sample (name s : string) :
  parse_filename_sample name = Ok s ->
  parse_filename name
  = if str_in "Pristine" name then Ok (s, Some (charge_display 0 0.0 "DC"))
    else
      cycle <- parse_filename_cycle name ;;
      vs <- parse_filename_voltage name ;;
      Ok (s, Some (charge_display cycle (fst vs) (snd vs))).
Proof.
  intros Hs. unfold parse_filename. rewrite Hs. simpl.
  rewrite (sample_tags_not_Ni_metal _ (parse_filename_sample_tag _ _ Hs)).
  destruct (str_in "Pristine" name); [reflexivity|].
  destruct (parse_filename_cycle name); [|reflexivity]. simpl.
  destruct (parse_filename_voltage name) as [[v st]|]; reflexivity.
Qed.

(** C9.  Whenever [parse_filename] returns, the sample is one of the five
    [BM_*] tags, so the test [sample == "Ni_metal"] of line 48 is false, and
    the charge is not [None] but a dict whose keys are exactly cycle, voltage
    and state, in that order. *)
Theorem parse_filename_charge_never_None (name s : string) (c : option dict) :
  parse_filename name = Ok (s, c) ->
  In s sample_tags
  /\ String.eqb s "Ni_metal" = false
  /\ exists d, c = Some d /\ dict_keys d = ["cycle"; "voltage"; "state"].
Proof.
  intros H.
  destruct (parse_filename_sample name) as [s0|e] eqn:Hs.
  - rewrite (parse_filename_after_sample _ _ Hs) in H.
    pose proof (parse_filename_sample_tag _ _ Hs) as Htag.
    assert (s0 = s /\ exists d, c = Some d
                                /\ dict_keys d = ["cycle"; "voltage"; "state"])
      as [<- Hd].
    { destruct (str_in "Pristine" name).
      - inversion H; subst. split; [reflexivity|]. eexists; split; reflexivity.
      - destruct (parse_filename_cycle name) as [cy|]; [|discriminate].
        destruct (parse_filename_voltage name) as [[v st]|]; [|discriminate].
        simpl in H. inversion H; subst.
        split; [reflexivity|]. eexists; split; reflexivity. }
    auto using sample_tags_not_Ni_metal.
  - unfold parse_filename in H. rewrite Hs in H. discriminate.
Qed.

Lemma parse_filename_charge_never_None_witness :
  In "BM_NCM622" sample_tags
  /\ String.eqb "BM_NCM622" "Ni_metal" = false
  /\ exists d, Some (charge_display 1 4.3 "C") = Some d
               /\ dict_keys d = ["cycle"; "voltage"; "state"].
Proof.
  apply (parse_filename_charge_never_None "BM_622_1st_43V_scan.txt").
  reflexivity.
Defined.

(** ** [parse_filename_nslsii] *)

Lemma parse_filename_nslsii_after_sample (name s : string) :
  parse_filename_nslsii_sample name = Ok s ->
  parse_filename_nslsii name
  = if str_in "pristine" name || str_in "Pristine" name
    then Ok (s, Some (charge_display 0 0.0 "DC"))
    else
      vs <- parse_filename_nslsii_voltage name ;;
      Ok (s, Some (charge_display (parse_filename_nslsii_cycle name)
                     (fst vs) (snd vs))).
Proof.
  intros Hs. unfold parse_filename_nslsii. rewrite Hs. simpl.
  destruct (str_in "pristine" name || str_in "Pristine" name); [reflexivity|].
  destruct (parse_filename_nslsii_voltage name) as [[v st]|]; reflexivity.
Qed.

(** C8.  A name that holds the pristine marker (["Pristine"] for
    [parse_filename]; ["pristine"] or ["Pristine"] for
    [parse_filename_nslsii]) and whose sample resolves to [s] is classified
    as [s] with charge cycle 0, voltage 0.0, state DC, whatever cycle or
    voltage tokens it also holds; the file name of the end-to-end scenario is
    one such name. *)
Theorem pristine_charge :
  (forall name s,
      str_in "Pristine" name = true ->
      parse_filename_sample name = Ok s ->
      parse_filename name = Ok (s, Some (charge_display 0 0.0 "DC")))
  /\ (forall name s,
         str_in "pristine" name || str_in "Pristine" name = true ->
         parse_filename_nslsii_sample name = Ok s ->
         parse_filename_nslsii name = Ok (s, Some (charge_display 0 0.0 "DC")))
  /\ parse_filename "NCMA_Pristine_scan.txt"
     = Ok ("BM_NCMA",
           Some [("cycle", PInt 0); ("voltage", PFloat 0.0); ("state", PStr "DC")]).
Proof.
  split; [|split].
  - intros name s HP Hs.
    now rewrite (parse_filename_after_sample _ _ Hs), HP.
  - intros name s HP Hs.
    now rewrite (parse_filename_nslsii_after_sample _ _ Hs), HP.
  - reflexivity.
Qed.

Lemma pristine_charge_witness :
  parse_filename "622_Pristine_2nd_48V.txt"
  = Ok ("BM_NCM622", Some (charge_display 0 0.0 "DC"))
  /\ parse_filename_nslsii "811_pristine_10th_4_3.txt"
     = Ok ("BM_NCM811", Some (charge_display 0 0.0 "DC")).
Proof.
  destruct pristine_charge as (H1 & H2 & _). split.
  - apply H1; reflexivity.
  - apply H2; reflexivity.
Defined.

(** ** Voltage resolution of [parse_filename] *)

Lemma match_digits_V_cons (c : ascii) (s : string) :
  match_digits_V (String c s)
  = if Ascii.eqb c "V" then Some "V"
    else if is_digit c
         then match match_digits_V s with
              | Some m => Some (String c m)
              | None => None
              end
         else None.
Proof. reflexivity. Qed.

Lemma is_digit_not_V (c : ascii) : is_digit c = true -> Ascii.eqb c "V" = false.
Proof.
  intros H. destruct (Ascii.eqb c "V") eqn:E; [|reflexivity].
  apply Ascii.eqb_eq in E as ->. discriminate.
Qed.

(** At the head of a digit run that ends in ['V'] the pattern matches the
    run and the ['V']. *)
Lemma match_digits_V_run (d rest : string) :
  all_digits d = true ->
  match_digits_V (d ++ "V" ++ rest) = Some (d ++ "V").
Proof.
  induction d as [|c d IH]; intros H; [reflexivity|].
  simpl in H. apply andb_true_iff in H as [Hc Hd].
  change (String c d ++ "V" ++ rest) with (String c (d ++ "V" ++ rest)).
  rewrite match_digits_V_cons, (is_digit_not_V _ Hc), Hc.
  now rewrite (IH Hd).
Qed.

(** Inside a prefix without ['V'] whose last character is not a digit, the
    pattern matches nowhere. *)
Lemma match_digits_V_blocked (pre rest : string) :
  pre <> "" ->
  str_in "V" pre = false ->
  ends_with_digit pre = false ->
  match_digits_V (pre ++ rest) = None.
Proof.
  induction pre as [|c pre IH]; intros Hne HV Hd; [congruence|].
  simpl append. rewrite match_digits_V_cons.
  rewrite str_in_cons in HV. apply orb_false_iff in HV as [HV1 HV2].
  assert (Ascii.eqb c "V" = false) as ->.
  { destruct (Ascii.eqb c "V") eqn:E; [|reflexivity].
    apply Ascii.eqb_eq in E as ->. simpl in HV1.
    now rewrite prefix_nil in HV1. }
  destruct (is_digit c) eqn:Dc; [|reflexivity].
  destruct pre as [|c' pre'].
  - simpl in Hd. congruence.
  - rewrite IH; [reflexivity|discriminate|exact HV2|exact Hd].
Qed.

Lemma re_search_digits_V_cons (c : ascii) (s : string) :
  re_search_digits_V (String c s)
  = match match_digits_V (String c s) with
    | Some m => Some m
    | None => re_search_digits_V s
    end.
Proof. reflexivity. Qed.

Lemma re_search_at_head (s m : string) :
  match_digits_V s = Some m -> re_search_digits_V s = Some m.
Proof.
  destruct s as [|c s]; intros H; [discriminate|].
  now rewrite re_search_digits_V_cons, H.
Qed.

(** The search returns the maximal digit run in front of the first ['V'],
    with that ['V']. *)
Lemma re_search_first_V (pre d rest : string) :
  str_in "V" pre = false ->
  ends_with_digit pre = false ->
  all_digits d = true ->
  re_search_digits_V (pre ++ d ++ "V" ++ rest) = Some (d ++ "V").
Proof.
  intros HV Hd Hdig. induction pre as [|c pre IH].
  - change ("" ++ d ++ "V" ++ rest) with (d ++ "V" ++ rest).
    apply re_search_at_head, match_digits_V_run, Hdig.
  - change (String c pre ++ d ++ "V" ++ rest)
      with (String c (pre ++ d ++ "V" ++ rest)).
    rewrite re_search_digits_V_cons.
    change (String c (pre ++ d ++ "V" ++ rest))
      with (String c pre ++ d ++ "V" ++ rest).
    rewrite (match_digits_V_blocked (String c pre)); [|discriminate|exact HV|exact Hd].
    apply IH.
    + rewrite str_in_cons in HV. now apply orb_false_iff in HV.
    + destruct pre; [reflexivity|exact Hd].
Qed.

Lemma parse_filename_voltage_first_V (pre d rest : string) :
  str_in "V" pre = false ->
  ends_with_digit pre = false ->
  all_digits d = true ->
  parse_filename_voltage (pre ++ d ++ "V" ++ rest)
  = if String.eqb (d ++ "V") "43V" then Ok (4.3%float, "C")
    else if String.eqb (d ++ "V") "48V" then Ok (4.8%float, "C")
    else if String.eqb (d ++ "V") "3V" then Ok (3.0%float, "DC")
    else Raise (KeyError ("unable to parse voltage from " ++ d ++ "V")).
Proof.
  intros HV Hd Hdig. unfold parse_filename_voltage.
  now rewrite (re_search_first_V _ _ _ HV Hd Hdig).
Qed.

Lemma reaches_voltage_resolution_parse (name : string) :
  reaches_voltage_resolution name = true ->
  exists s cycle,
    parse_filename_sample name = Ok s
    /\ parse_filename_cycle name = Ok cycle
    /\ parse_filename name
       = vs <- parse_filename_voltage name ;;
         Ok (s, Some (charge_display cycle (fst vs) (snd vs))).
Proof.
  unfold reaches_voltage_resolution. intros R.
  apply andb_true_iff in R as [R HC]. apply andb_true_iff in R as [HS HP].
  apply negb_true_iff in HP.
  destruct (parse_filename_sample_ok _ HS) as [s Hs].
  assert (exists cycle, parse_filename_cycle name = Ok cycle) as [cycle Hc].
  { unfold parse_filename_cycle, has_cycle_marker in *.
    destruct (str_in "1st" name); [eauto|].
    destruct (str_in "2nd" name); [eauto|].
    destruct (str_in "10th" name); [eauto|discriminate]. }
  exists s, cycle. repeat split; auto.
  now rewrite (parse_filename_after_sample _ _ Hs), HP, Hc.
Qed.

(** C4 as stated fails.  ["BM_622_1st_43V_scan.txt"] reaches voltage
    resolution and holds ["3V"] (inside ["43V"]), yet its charge is 4.3 / C,
    not 3.0 / DC; ["BM_622_1st_143V_scan.txt"] holds ["43V"], but the search
    returns ["143V"] and the call raises. *)
Lemma parse_filename_marker_containment_counterexample :
  reaches_voltage_resolution "BM_622_1st_43V_scan.txt" = true
  /\ str_in "3V" "BM_622_1st_43V_scan.txt" = true
  /\ parse_filename "BM_622_1st_43V_scan.txt"
     = Ok ("BM_NCM622", Some (charge_display 1 4.3 "C"))
  /\ dict_get (charge_display 1 4.3 "C") "state" <> Some (PStr "DC")
  /\ reaches_voltage_resolution "BM_622_1st_143V_scan.txt" = true
  /\ str_in "43V" "BM_622_1st_143V_scan.txt" = true
  /\ parse_filename "BM_622_1st_143V_scan.txt"
     = Raise (KeyError "unable to parse voltage from 143V").
Proof.
  repeat split; try reflexivity. discriminate.
Qed.

(** C4, amended.  Let [name] reach voltage resolution and let its first
    ['V'] be preceded by exactly the digit run [d]: [name] is
    [pre ++ d ++ "V" ++ rest] where [pre] holds no ['V'] and does not end in
    a digit.  Then the marker ["43V"] gives voltage 4.3 and state C, ["48V"]
    gives 4.8 and C, ["3V"] gives 3.0 and DC, with the sample and cycle the
    earlier stages resolved.  In particular the file name of the end-to-end
    scenario is classified as the specification says. *)
Theorem parse_filename_voltage_marker (pre rest : string) :
  str_in "V" pre = false ->
  ends_with_digit pre = false ->
  (reaches_voltage_resolution (pre ++ "43V" ++ rest) = true ->
   exists s cycle,
     parse_filename (pre ++ "43V" ++ rest)
     = Ok (s, Some [("cycle", PInt cycle); ("voltage", PFloat 4.3);
                    ("state", PStr "C")]))
  /\ (reaches_voltage_resolution (pre ++ "48V" ++ rest) = true ->
      exists s cycle,
        parse_filename (pre ++ "48V" ++ rest)
        = Ok (s, Some [("cycle", PInt cycle); ("voltage", PFloat 4.8);
                       ("state", PStr "C")]))
  /\ (reaches_voltage_resolution (pre ++ "3V" ++ rest) = true ->
      exists s cycle,
        parse_filename (pre ++ "3V" ++ rest)
        = Ok (s, Some [("cycle", PInt cycle); ("voltage", PFloat 3.0);
                       ("state", PStr "DC")]))
  /\ parse_filename "BM_622_1st_43V_scan.txt"
     = Ok ("BM_NCM622",
           Some [("cycle", PInt 1); ("voltage", PFloat 4.3); ("state", PStr "C")]).
Proof.
  intros HV Hd.
  pose proof (parse_filename_voltage_first_V pre "43" rest HV Hd eq_refl) as V43.
  pose proof (parse_filename_voltage_first_V pre "48" rest HV Hd eq_refl) as V48.
  pose proof (parse_filename_voltage_first_V pre "3" rest HV Hd eq_refl) as V3.
  simpl in V43, V48, V3.
  repeat split; try reflexivity; intros R;
    destruct (reaches_voltage_resolution_parse _ R) as (s & cycle & _ & _ & E);
    exists s, cycle; rewrite E.
  - cbn [append]. now rewrite V43.
  - cbn [append]. now rewrite V48.
  - cbn [append]. now rewrite V3.
Qed.

Lemma parse_filename_voltage_marker_witness :
  (exists s cycle,
      parse_filename ("NCMA_2nd_" ++ "43V" ++ "_3V.txt")
      = Ok (s, Some [("cycle", PInt cycle); ("voltage", PFloat 4.3);
                     ("state", PStr "C")]))
  /\ (exists s cycle,
         parse_filename ("NCMA_2nd_" ++ "48V" ++ "_3V.txt")
         = Ok (s, Some [("cycle", PInt cycle); ("voltage", PFloat 4.8);
                        ("state", PStr "C")]))
  /\ (exists s cycle,
         parse_filename ("NCMA_2nd_" ++ "3V" ++ "_3V.txt")
         = Ok (s, Some [("cycle", PInt cycle); ("voltage", PFloat 3.0);
                        ("state", PStr "DC")])).
Proof.
  destruct (parse_filename_voltage_marker "NCMA_2nd_" "_3V.txt" eq_refl eq_refl)
    as (H1 & H2 & H3 & _).
  split; [|split].
  - apply H1. reflexivity.
  - apply H2. reflexivity.
  - apply H3. reflexivity.
Defined.

(** ** Sample resolution: priority order *)

Lemma parse_filename_sample_rules (name : string) :
  parse_filename_sample name = spec_resolve_sample spec_parse_filename_rules name.
Proof.
  unfold parse_filename_sample, spec_resolve_sample. simpl.
  now case_str_in.
Qed.

Lemma parse_filename_gihyeok_sample_rules (name : string) :
  parse_filename_gihyeok_sample name
  = spec_resolve_sample spec_parse_filename_gihyeok_rules name.
Proof.
  unfold parse_filename_gihyeok_sample, spec_resolve_sample. simpl.
  now case_str_in.
Qed.

(** C6 as stated fails: ["622_712_Al_free_1st_43V.txt"] holds both
    ["712_Al_free"] and ["712"], and resolves to neither token's tag but to
    the tag of the earlier token ["622"]. *)
Lemma tie_break_earlier_token_counterexample :
  str_in "712_Al_free" "622_712_Al_free_1st_43V.txt" = true
  /\ str_in "712" "622_712_Al_free_1st_43V.txt" = true
  /\ parse_filename "622_712_Al_free_1st_43V.txt"
     = Ok ("BM_NCM622", Some (charge_display 1 4.3 "C"))
  /\ parse_filename_sample "622_712_Al_free_1st_43V.txt" <> Ok "BM_NCM712".
Proof.
  repeat split; try reflexivity. discriminate.
Qed.

(** C6, amended.  Sample tokens are tested in a fixed order, the first token
    found decides: [parse_filename] tests 622, NCMA, 712_Al_free, 712, 811 and
    [parse_filename_gihyeok] tests 622, NCMA, 712_Al-doped, 712, 811, the
    specific 712 token before the general one.  So a name that holds the
    specific token (and with it the general token ["712"]) never resolves to
    the general token's tag, and resolves to the specific token's tag unless
    it holds one of the earlier tokens ["622"] and ["NCMA"], whose tag it
    then gets. *)
Theorem sample_tie_break (name : string) :
  parse_filename_sample name
  = spec_resolve_sample spec_parse_filename_rules name
  /\ parse_filename_gihyeok_sample name
     = spec_resolve_sample spec_parse_filename_gihyeok_rules name
  /\ (str_in "712_Al_free" name = true ->
      str_in "712" name = true
      /\ parse_filename_sample name <> Ok "BM_NCM712-Al"
      /\ parse_filename_sample name
         = if str_in "622" name then Ok "BM_NCM622"
           else if str_in "NCMA" name then Ok "BM_NCMA"
           else Ok "BM_NCM712")
  /\ (str_in "712_Al-doped" name = true ->
      str_in "712" name = true
      /\ parse_filename_gihyeok_sample name <> Ok "BM_NCM712"
      /\ parse_filename_gihyeok_sample name
         = if str_in "622" name then Ok "BM_NCM622"
           else if str_in "NCMA" name then Ok "BM_NCMA"
           else Ok "BM_NCM712-Al").
Proof.
  split; [apply parse_filename_sample_rules|].
  split; [apply parse_filename_gihyeok_sample_rules|].
  split; intros H.
  - split; [revert H; apply str_in_trans; reflexivity|].
    unfold parse_filename_sample. rewrite H.
    split; [|reflexivity].
    destruct (str_in "622" name); [discriminate|].
    destruct (str_in "NCMA" name); discriminate.
  - split; [revert H; apply str_in_trans; reflexivity|].
    unfold parse_filename_gihyeok_sample. rewrite H.
    split; [|reflexivity].
    destruct (str_in "622" name); [discriminate|].
    destruct (str_in "NCMA" name); discriminate.
Qed.

Lemma sample_tie_break_witness :
  parse_filename_sample "BM_712_Al_free_2nd_48V.txt" = Ok "BM_NCM712"
  /\ parse_filename_gihyeok_sample "712_Al-doped_Ni.txt" = Ok "BM_NCM712-Al".
Proof.
  split.
  - destruct (sample_tie_break "BM_712_Al_free_2nd_48V.txt")
      as (_ & _ & H & _).
    destruct (H eq_refl) as (_ & _ & ->). reflexivity.
  - destruct (sample_tie_break "712_Al-doped_Ni.txt") as (_ & _ & _ & H).
    destruct (H eq_refl) as (_ & _ & ->). reflexivity.
Defined.

(** ** Sample resolution of [parse_filename_nslsii] *)

Lemma parse_filename_nslsii_Ok_sample (name s : string) (c : option dict) :
  parse_filename_nslsii name = Ok (s, c) ->
  parse_filename_nslsii_sample name = Ok s.
Proof.
  intros H. destruct (parse_filename_nslsii_sample name) as [s0|e] eqn:Hs.
  - rewrite (parse_filename_nslsii_after_sample _ _ Hs) in H.
    destruct (str_in "pristine" name || str_in "Pristine" name);
      [now inversion H|].
    destruct (parse_filename_nslsii_voltage name) as [[v st]|];
      [now inversion H|discriminate].
  - unfold parse_filename_nslsii in H. rewrite Hs in H. discriminate.
Qed.

(** C10 as stated fails: ["622_NMCA_1st_4_3.txt"] holds ["NMCA"] and
    resolves to BM_NCM622, the tag of the earlier token ["622"]. *)
Lemma nslsii_NMCA_after_622_counterexample :
  str_in "NMCA" "622_NMCA_1st_4_3.txt" = true
  /\ parse_filename_nslsii_sample "622_NMCA_1st_4_3.txt" = Ok "BM_NCM622"
  /\ parse_filename_nslsii "622_NMCA_1st_4_3.txt"
     = Ok ("BM_NCM622", Some (charge_display 1 4.3 "C")).
Proof. repeat split; reflexivity. Qed.

(** C10, amended.  [parse_filename_nslsii] takes the misspelt tokens with the
    correctly spelt ones: a name that holds ["NMCA"] or ["NCMA"] and not the
    earlier token ["622"] resolves to BM_NCMA, and a name that holds ["721"]
    or ["712"] and none of the earlier tokens ["622"], ["NCMA"], ["NMCA"]
    resolves to BM_NCM712-Al; whenever the call returns, it returns that
    sample.  The other variants do not know the misspelt tokens. *)
Theorem nslsii_misspelled_tokens (name : string) :
  (str_in "622" name = false ->
   str_in "NMCA" name = true \/ str_in "NCMA" name = true ->
   parse_filename_nslsii_sample name = Ok "BM_NCMA")
  /\ (str_in "622" name = false ->
      str_in "NCMA" name = false ->
      str_in "NMCA" name = false ->
      str_in "721" name = true \/ str_in "712" name = true ->
      parse_filename_nslsii_sample name = Ok "BM_NCM712-Al")
  /\ (forall s c,
         parse_filename_nslsii name = Ok (s, c) ->
         parse_filename_nslsii_sample name = Ok s)
  /\ parse_filename_sample "NMCA_721_1st_43V.txt"
     = Raise (KeyError "unable to parse sample from NMCA_721_1st_43V.txt").
Proof.
  unfold parse_filename_nslsii_sample. repeat split.
  - intros -> [->| ->]; simpl; [now rewrite orb_true_r | reflexivity].
  - intros -> -> -> [->| ->]; simpl; [now rewrite orb_true_r | reflexivity].
  - apply parse_filename_nslsii_Ok_sample.
Qed.

Lemma nslsii_misspelled_tokens_witness :
  parse_filename_nslsii_sample "NMCA_1st_4_3.txt" = Ok "BM_NCMA"
  /\ parse_filename_nslsii_sample "BM_721_2nd_48C.txt" = Ok "BM_NCM712-Al"
  /\ parse_filename_nslsii_sample "NMCA_1st_4_3.txt" = Ok "BM_NCMA".
Proof.
  split; [|split].
  - destruct (nslsii_misspelled_tokens "NMCA_1st_4_3.txt") as (H & _).
    apply H; [reflexivity | left; reflexivity].
  - destruct (nslsii_misspelled_tokens "BM_721_2nd_48C.txt") as (_ & H & _).
    apply H; [reflexivity | reflexivity | reflexivity | left; reflexivity].
  - destruct (nslsii_misspelled_tokens "NMCA_1st_4_3.txt") as (_ & _ & H & _).
    apply (H _ (Some (charge_display 1 4.3 "C"))). reflexivity.
Defined.

(** ** Cycle resolution *)

Lemma parse_filename_cycle_raise (name : string) :
  has_cycle_marker name = false ->
  parse_filename_cycle name
  = Raise (KeyError ("unable to parse cycle from " ++ name)).
Proof.
  unfold has_cycle_marker, parse_filename_cycle. intros H.
  apply orb_false_iff in H as [H ->]. apply orb_false_iff in H as [-> ->].
  reflexivity.
Qed.

Lemma parse_filename_Ok_cycle (name s : string) (d : dict) :
  str_in "Pristine" name = false ->
  parse_filename name = Ok (s, Some d) ->
  exists cycle,
    parse_filename_cycle name = Ok cycle
    /\ dict_get d "cycle" = Some (PInt cycle).
Proof.
  intros HP H. destruct (parse_filename_sample name) as [s0|e] eqn:Hs.
  - rewrite (parse_filename_after_sample _ _ Hs), HP in H.
    destruct (parse_filename_cycle name) as [cy|]; [|discriminate].
    destruct (parse_filename_voltage name) as [[v st]|]; [|discriminate].
    simpl in H. inversion H; subst. exists cy. split; reflexivity.
  - unfold parse_filename in H. rewrite Hs in H. discriminate.
Qed.

Lemma parse_filename_nslsii_Ok_cycle (name s : string) (d : dict) :
  str_in "pristine" name || str_in "Pristine" name = false ->
  parse_filename_nslsii name = Ok (s, Some d) ->
  dict_get d "cycle" = Some (PInt (parse_filename_nslsii_cycle name)).
Proof.
  intros HP H. destruct (parse_filename_nslsii_sample name) as [s0|e] eqn:Hs.
  - rewrite (parse_filename_nslsii_after_sample _ _ Hs), HP in H.
    destruct (parse_filename_nslsii_voltage name) as [[v st]|]; [|discriminate].
    simpl in H. inversion H; subst. reflexivity.
  - unfold parse_filename_nslsii in H. rewrite Hs in H. discriminate.
Qed.

(** The per-column resolutions run the cycle tests of [parse_filename]. *)
Lemma column_charge_Ok_cycle (column : string) (d : dict) :
  str_in "Pristine" column = false ->
  ingest_aimm_ncm_gihyeok_charge column = Ok d
  \/ ingest_aimm_ncm_gihyeok_oxygen_charge column = Ok d ->
  exists cycle,
    parse_filename_cycle column = Ok cycle
    /\ dict_get d "cycle" = Some (PInt cycle).
Proof.
  unfold ingest_aimm_ncm_gihyeok_charge, ingest_aimm_ncm_gihyeok_oxygen_charge,
    parse_filename_cycle.
  intros -> [H|H];
    destruct (str_in "1st" column);
    [| destruct (str_in "2nd" column);
       [| destruct (str_in "10th" column); [|discriminate] ]
     |
     | destruct (str_in "2nd" column);
       [| destruct (str_in "10th" column); [|discriminate] ] ];
    simpl in H; case_str_in; try discriminate;
    inversion H; subst; eexists; split; reflexivity.
Qed.

Lemma column_charge_no_cycle (column : string) :
  str_in "Pristine" column = false ->
  has_cycle_marker column = false ->
  ingest_aimm_ncm_gihyeok_charge column
  = Raise (KeyError ("unable to parse cycle from " ++ column))
  /\ ingest_aimm_ncm_gihyeok_oxygen_charge column
     = Raise (KeyError ("unable to parse cycle from " ++ column)).
Proof.
  unfold has_cycle_marker, ingest_aimm_ncm_gihyeok_charge,
    ingest_aimm_ncm_gihyeok_oxygen_charge.
  intros -> H.
  apply orb_false_iff in H as [H ->]. apply orb_false_iff in H as [-> ->].
  split; reflexivity.
Qed.

(** C7 as stated fails.  ["NCMA_Pristine_scan.txt"] holds none of the three
    markers and [parse_filename] returns, with cycle 0;
    ["BM_622_1st_2nd_43V.txt"] holds ["2nd"] and its cycle is 1, the marker
    ["1st"] being tested first. *)
Lemma cycle_marker_counterexample :
  has_cycle_marker "NCMA_Pristine_scan.txt" = false
  /\ parse_filename "NCMA_Pristine_scan.txt"
     = Ok ("BM_NCMA", Some (charge_display 0 0.0 "DC"))
  /\ str_in "2nd" "BM_622_1st_2nd_43V.txt" = true
  /\ parse_filename "BM_622_1st_2nd_43V.txt"
     = Ok ("BM_NCM622", Some (charge_display 1 4.3 "C"))
  /\ parse_filename_nslsii "BM_622_1st_2nd_4_3.txt"
     = Ok ("BM_NCM622", Some (charge_display 1 4.3 "C")).
Proof. repeat split; reflexivity. Qed.

(** C7, amended.  On a name without the pristine marker every
    charge-resolving variant tests the ordinal markers in the order 1st, 2nd,
    10th and the first one found decides: ["1st"] gives cycle 1, ["2nd"]
    without ["1st"] gives 2, ["10th"] without the other two gives 10, and the
    charge a call returns carries that cycle.  With none of the three
    markers, [parse_filename] on a name with a sample token raises the
    [KeyError] naming the cycle stage and the name, as both per-column
    resolutions do, while [parse_filename_nslsii] resolves the cycle to 1. *)
Theorem cycle_resolution (name : string) :
  (str_in "1st" name = true ->
   parse_filename_cycle name = Ok 1%Z /\ parse_filename_nslsii_cycle name = 1%Z)
  /\ (str_in "1st" name = false -> str_in "2nd" name = true ->
      parse_filename_cycle name = Ok 2%Z
      /\ parse_filename_nslsii_cycle name = 2%Z)
  /\ (str_in "1st" name = false -> str_in "2nd" name = false ->
      str_in "10th" name = true ->
      parse_filename_cycle name = Ok 10%Z
      /\ parse_filename_nslsii_cycle name = 10%Z)
  /\ (str_in "Pristine" name = false ->
      forall s d,
        parse_filename name = Ok (s, Some d)
        \/ ingest_aimm_ncm_gihyeok_charge name = Ok d
        \/ ingest_aimm_ncm_gihyeok_oxygen_charge name = Ok d ->
        exists cycle,
          parse_filename_cycle name = Ok cycle
          /\ dict_get d "cycle" = Some (PInt cycle))
  /\ (str_in "pristine" name || str_in "Pristine" name = false ->
      forall s d,
        parse_filename_nslsii name = Ok (s, Some d) ->
        dict_get d "cycle" = Some (PInt (parse_filename_nslsii_cycle name)))
  /\ (has_cycle_marker name = false ->
      parse_filename_nslsii_cycle name = 1%Z
      /\ (str_in "Pristine" name = false ->
          (has_sample_token name = true ->
           parse_filename name
           = Raise (KeyError ("unable to parse cycle from " ++ name)))
          /\ ingest_aimm_ncm_gihyeok_charge name
             = Raise (KeyError ("unable to parse cycle from " ++ name))
          /\ ingest_aimm_ncm_gihyeok_oxygen_charge name
             = Raise (KeyError ("unable to parse cycle from " ++ name)))).
Proof.
  unfold parse_filename_cycle, parse_filename_nslsii_cycle.
  split; [now intros ->|]. split; [now intros -> ->|].
  split; [now intros -> -> ->|].
  split; [|split].
  - intros HP s d [H|H].
    + apply (parse_filename_Ok_cycle _ _ _ HP H).
    + apply (column_charge_Ok_cycle _ _ HP H).
  - intros HP s d H. apply (parse_filename_nslsii_Ok_cycle _ _ _ HP H).
  - intros HC. split.
    + unfold has_cycle_marker in HC.
      apply orb_false_iff in HC as [HC ->].
      now apply orb_false_iff in HC as [-> ->].
    + intros HP. split; [|apply (column_charge_no_cycle _ HP HC)].
      intros HS. destruct (parse_filename_sample_ok _ HS) as [s Hs].
      now rewrite (parse_filename_after_sample _ _ Hs), HP,
        (parse_filename_cycle_raise _ HC).
Qed.

Lemma cycle_resolution_witness :
  (parse_filename_cycle "BM_811_10th_3V.txt" = Ok 10%Z
   /\ parse_filename_nslsii_cycle "BM_811_10th_3V.txt" = 10%Z)
  /\ (exists cycle,
         parse_filename_cycle "BM_811_10th_3V.txt" = Ok cycle
         /\ dict_get (charge_display 10 3.0 "DC") "cycle" = Some (PInt cycle))
  /\ parse_filename_nslsii_cycle "BM_811_3V.txt" = 1%Z
  /\ parse_filename "BM_811_3V.txt"
     = Raise (KeyError "unable to parse cycle from BM_811_3V.txt").
Proof.
  destruct (cycle_resolution "BM_811_10th_3V.txt") as (_ & _ & H10 & HOk & _).
  destruct (cycle_resolution "BM_811_3V.txt") as (_ & _ & _ & _ & _ & Hno).
  split; [apply H10; reflexivity|].
  split; [apply (HOk eq_refl "BM_NCM811"); left; reflexivity|].
  destruct (Hno eq_refl) as (H1 & H2). split; [exact H1|].
  destruct (H2 eq_refl) as (H3 & _). apply H3. reflexivity.
Defined.

(** ** The experiment-key table *)

Section DictFacts.
Context {V : Type}.

Lemma dict_get_In (d : pydict V) (k : string) :
  In k (dict_keys d) -> exists v, dict_get d k = Some v /\ In (k, v) d.
Proof.
  induction d as [|[k' v'] d IH]; simpl; [easy|].
  destruct (String.eqb_spec k' k) as [->|Hne].
  - intros _. exists v'. auto.
  - intros [E|H]; [easy|]. destruct (IH H) as (v & Hv & Hin). eauto.
Qed.

Lemma dict_get_not_In (d : pydict V) (k : string) :
  ~ In k (dict_keys d) -> dict_get d k = None.
Proof.
  induction d as [|[k' v'] d IH]; simpl; [easy|].
  intros H. destruct (String.eqb_spec k' k) as [->|Hne]; [tauto|].
  apply IH. tauto.
Qed.
End DictFacts.

Lemma py_split_from_token (k : string) :
  forall tok c rest,
    no_space k = true -> is_space c = true -> tok ++ k <> "" ->
    py_split_from tok (k ++ String c rest) = (tok ++ k) :: py_split_from "" rest.
Proof.
  induction k as [|a k IH]; intros tok c rest Hk Hc Hne.
  - simpl. rewrite Hc.
    assert (tok ++ "" = tok) as E by (clear; induction tok; simpl; congruence).
    rewrite E in *. now destruct (String.eqb_spec tok "").
  - unfold no_space in Hk. simpl in Hk. apply negb_true_iff in Hk.
    apply orb_false_iff in Hk as [Ha Hk].
    simpl. rewrite Ha.
    assert (tok ++ String a k = (tok ++ String a "") ++ k) as E
        by (clear; induction tok; simpl; congruence).
    rewrite E. apply IH.
    + unfold no_space. now rewrite Hk.
    + exact Hc.
    + destruct tok; discriminate.
Qed.

Lemma py_split_from_last (k : string) :
  forall tok, no_space k = true -> tok ++ k <> "" ->
              py_split_from tok k = [tok ++ k].
Proof.
  induction k as [|a k IH]; intros tok Hk Hne.
  - simpl.
    assert (tok ++ "" = tok) as E by (clear; induction tok; simpl; congruence).
    rewrite E in *. now destruct (String.eqb_spec tok "").
  - unfold no_space in Hk. simpl in Hk. apply negb_true_iff in Hk.
    apply orb_false_iff in Hk as [Ha Hk].
    simpl. rewrite Ha.
    assert (tok ++ String a k = (tok ++ String a "") ++ k) as E
        by (clear; induction tok; simpl; congruence).
    rewrite E. apply IH.
    + unfold no_space. now rewrite Hk.
    + destruct tok; discriminate.
Qed.

(** The first element of [name.split()] is the first run of non-space
    characters of [name]. *)
Lemma py_split_first (k rest : string) (c : ascii) :
  k <> "" -> no_space k = true -> is_space c = true ->
  py_split k = [k] /\ py_split (k ++ String c rest) = k :: py_split rest.
Proof.
  intros Hne Hk Hc. unfold py_split. split.
  - now rewrite py_split_from_last.
  - now rewrite py_split_from_token.
Qed.

Lemma py_split_leading_space (c : ascii) (s : string) :
  is_space c = true -> py_split (String c s) = py_split s.
Proof. unfold py_split. simpl. now intros ->. Qed.

Lemma experiment_keys_are_tokens :
  forallb (fun k => negb (String.eqb k "") && no_space k)
    (dict_keys experiment_to_params_map) = true.
Proof. vm_compute. reflexivity. Qed.

(** C2 as stated fails on the size of the table: it has 32 entries, the keys
    ["1-1"] to ["8-4"], not 40. *)
Lemma experiment_table_size_counterexample :
  List.length experiment_to_params_map = 32
  /\ List.length experiment_to_params_map <> 40.
Proof. split; [reflexivity | discriminate]. Qed.

(** C2, amended.  [get_experiment_params] splits its input on white space
    and looks the first token up in a static table of exactly 32 entries with
    pairwise distinct keys.  It is total on those keys: a name whose first
    token is a key of the table returns the sample and charge of that entry.
    ["1-1"] gives BM_NCMA with cycle 1, voltage 3.0, state DC.  A name whose
    first token is not a key, such as ["9-9"], raises the [KeyError] naming
    that token. *)
Theorem get_experiment_params_lookup :
  List.length experiment_to_params_map = 32
  /\ NoDup (dict_keys experiment_to_params_map)
  /\ (forall k, In k (dict_keys experiment_to_params_map) ->
                py_split k = [k])
  /\ (forall name k rest,
         py_split name = k :: rest ->
         In k (dict_keys experiment_to_params_map) ->
         exists p, In (k, p) experiment_to_params_map
                   /\ get_experiment_params name = Ok (sample p, charge p))
  /\ (forall name k rest,
         py_split name = k :: rest ->
         ~ In k (dict_keys experiment_to_params_map) ->
         get_experiment_params name = Raise (KeyError k))
  /\ get_experiment_params "1-1"
     = Ok ("BM_NCMA",
           [("cycle", PInt 1); ("voltage", PFloat 3.0); ("state", PStr "DC")])
  /\ get_experiment_params "9-9" = Raise (KeyError "9-9").
Proof.
  split; [reflexivity|]. split.
  { vm_compute. repeat constructor; simpl; intuition discriminate. }
  split.
  { intros k Hk.
    pose proof experiment_keys_are_tokens as F.
    rewrite forallb_forall in F. specialize (F _ Hk).
    apply andb_true_iff in F as [F1 F2]. apply negb_true_iff in F1.
    unfold py_split. rewrite py_split_from_last; [reflexivity|exact F2|].
    simpl. intros ->. discriminate. }
  split; [|split; [|split; reflexivity]].
  - intros name k rest Hs Hk. unfold get_experiment_params. rewrite Hs. simpl.
    destruct (dict_get_In _ _ Hk) as (p & Hp & Hin).
    exists p. split; [exact Hin|].
    unfold dict_subscript. now rewrite Hp.
  - intros name k rest Hs Hk. unfold get_experiment_params. rewrite Hs. simpl.
    unfold dict_subscript. now rewrite (dict_get_not_In _ _ Hk).
Qed.

Lemma get_experiment_params_lookup_witness :
  py_split "4-1" = ["4-1"]
  /\ (exists p, In ("4-1", p) experiment_to_params_map
                /\ get_experiment_params "  4-1 NCM811 scan"
                   = Ok (sample p, charge p))
  /\ get_experiment_params "9-9 scan" = Raise (KeyError "9-9").
Proof.
  destruct get_experiment_params_lookup as (_ & _ & H1 & H2 & H3 & _).
  split; [|split].
  - apply H1. vm_compute. tauto.
  - apply (H2 _ "4-1" ["NCM811"; "scan"]); [reflexivity|].
    vm_compute. tauto.
  - apply (H3 _ "9-9" ["scan"]); [reflexivity|].
    vm_compute. intuition discriminate.
Defined.

Remark get_experiment_params_no_token :
  get_experiment_params "" = Raise (IndexError "list index out of range")
  /\ get_experiment_params "   " = Raise (IndexError "list index out of range").
Proof. split; reflexivity. Qed.

(** ** Per-column voltage markers *)

(** C5.  The column header ["Ni_2nd_4.8"] resolves to cycle 2, voltage 4.8,
    state C in both per-column variants, and ["3.0"] is known to both.  The
    marker ["4.3"] is known to the resolution of
    [ingest_aimm_ncm_gihyeok_oxygen] only: on ["Ni_1st_4.3"] the resolution of
    [ingest_aimm_ncm_gihyeok] raises [KeyError]. *)
Theorem column_charge_marker_4_3 :
  ingest_aimm_ncm_gihyeok_charge "Ni_1st_4.3"
  = Raise (KeyError "unable to parse voltage from Ni_1st_4.3")
  /\ ingest_aimm_ncm_gihyeok_oxygen_charge "Ni_1st_4.3"
     = Ok [("cycle", PInt 1); ("voltage", PFloat 4.3); ("state", PStr "C")]
  /\ ingest_aimm_ncm_gihyeok_charge "Ni_2nd_4.8"
     = Ok [("cycle", PInt 2); ("voltage", PFloat 4.8); ("state", PStr "C")]
  /\ ingest_aimm_ncm_gihyeok_oxygen_charge "Ni_2nd_4.8"
     = Ok [("cycle", PInt 2); ("voltage", PFloat 4.8); ("state", PStr "C")]
  /\ ingest_aimm_ncm_gihyeok_charge "Ni_10th_3.0"
     = Ok [("cycle", PInt 10); ("voltage", PFloat 3.0); ("state", PStr "DC")]
  /\ ingest_aimm_ncm_gihyeok_oxygen_charge "Ni_10th_3.0"
     = Ok [("cycle", PInt 10); ("voltage", PFloat 3.0); ("state", PStr "DC")].
Proof. repeat split; reflexivity. Qed.

(** ** Unmatched inputs *)

Lemma parse_filename_unmatched (name : string) :
  parse_filename_matched name = false -> exists e, parse_filename name = Raise e.
Proof.
  unfold parse_filename_matched. intros H.
  destruct (has_sample_token name) eqn:HS.
  - destruct (parse_filename_sample_ok _ HS) as [s Hs].
    rewrite (parse_filename_after_sample _ _ Hs).
    simpl in H. apply orb_false_iff in H as [-> H].
    destruct (has_cycle_marker name) eqn:HC.
    + simpl in H. unfold voltage_marker_found in H.
      destruct (parse_filename_cycle name) as [cy|e]; [|simpl; eauto]. simpl.
      unfold parse_filename_voltage.
      destruct (re_search_digits_V name) as [m|]; [|simpl; eauto].
      apply orb_false_iff in H as [H ->]. apply orb_false_iff in H as [-> ->].
      simpl. eauto.
    + rewrite (parse_filename_cycle_raise _ HC). simpl. eauto.
  - unfold parse_filename. rewrite (parse_filename_sample_raise _ HS).
    simpl. eauto.
Qed.

Lemma parse_filename_gihyeok_unmatched (name : string) :
  has_sample_token name && has_symbol name = false ->
  exists arg, parse_filename_gihyeok name = Raise (KeyError arg).
Proof.
  unfold has_sample_token, has_symbol, parse_filename_gihyeok,
    parse_filename_gihyeok_sample, parse_filename_gihyeok_symbol.
  intros H.
  destruct (str_in "712_Al-doped" name) eqn:E.
  - assert (str_in "712" name = true) as E'
        by (revert E; apply str_in_trans; reflexivity).
    rewrite E' in *.
    destruct (str_in "622" name), (str_in "NCMA" name); simpl in *;
      case_str_in; try discriminate; eauto.
  - case_str_in; try discriminate; simpl; eauto.
Qed.

Lemma column_charge_unmatched (column : string) :
  (column_matched ["3.0"; "4.8"] column = false ->
   exists arg, ingest_aimm_ncm_gihyeok_charge column = Raise (KeyError arg))
  /\ (column_matched ["3.0"; "4.3"; "4.8"] column = false ->
      exists arg,
        ingest_aimm_ncm_gihyeok_oxygen_charge column = Raise (KeyError arg)).
Proof.
  unfold column_matched, has_cycle_marker, ingest_aimm_ncm_gihyeok_charge,
    ingest_aimm_ncm_gihyeok_oxygen_charge.
  split; intros H; simpl in H;
    case_str_in; try discriminate; simpl; eauto.
Qed.

Lemma parse_filename_nslsii_sample_raise (name : string) :
  nslsii_has_sample_token name = false ->
  parse_filename_nslsii name
  = Raise (KeyError ("unable to parse sample from " ++ name)).
Proof.
  unfold nslsii_has_sample_token, parse_filename_nslsii,
    parse_filename_nslsii_sample.
  intros H. case_str_in; try discriminate. reflexivity.
Qed.

Lemma parse_filename_nslsii_sample_ok (name : string) :
  nslsii_has_sample_token name = true ->
  exists s, parse_filename_nslsii_sample name = Ok s.
Proof.
  unfold nslsii_has_sample_token, parse_filename_nslsii_sample.
  intros H. case_str_in; try discriminate; eauto.
Qed.

Lemma parse_filename_nslsii_voltage_raise (name : string) :
  nslsii_has_voltage_marker name = false ->
  parse_filename_nslsii_voltage name
  = Raise (KeyError ("unable to parse voltage from " ++ name)).
Proof.
  unfold nslsii_has_voltage_marker, parse_filename_nslsii_voltage.
  intros H. case_str_in; try discriminate. reflexivity.
Qed.

Lemma parse_filename_nslsii_voltage_ok (name : string) :
  nslsii_has_voltage_marker name = true ->
  exists v st, parse_filename_nslsii_voltage name = Ok (v, st).
Proof.
  unfold nslsii_has_voltage_marker, parse_filename_nslsii_voltage.
  intros H. case_str_in; try discriminate; eauto.
Qed.

Lemma parse_filename_nslsii_cycle_default (name : string) :
  has_cycle_marker name = false -> parse_filename_nslsii_cycle name = 1%Z.
Proof.
  unfold has_cycle_marker, parse_filename_nslsii_cycle. intros H.
  apply orb_false_iff in H as [H ->]. now apply orb_false_iff in H as [-> ->].
Qed.

(** The default of [parse_filename_nslsii]: ["BM_622_4_3_scan.txt"] holds no
    ordinal marker and is classified with cycle 1. *)
Example nslsii_default_cycle_example :
  has_cycle_marker "BM_622_4_3_scan.txt" = false
  /\ parse_filename_nslsii "BM_622_4_3_scan.txt"
     = Ok ("BM_NCM622",
           Some [("cycle", PInt 1); ("voltage", PFloat 4.3); ("state", PStr "C")]).
Proof. split; reflexivity. Qed.

(** The voltage stage of the parsers and of the per-column resolutions
    raises the [KeyError] that names the stage: with the text the search of
    line 62 returned in [parse_filename], with the whole input in the
    others. *)
Lemma unmatched_voltage_KeyError (name : string) :
  (forall m,
      reaches_voltage_resolution name = true ->
      re_search_digits_V name = Some m ->
      voltage_marker_found name = false ->
      parse_filename name
      = Raise (KeyError ("unable to parse voltage from " ++ m)))
  /\ (str_in "Pristine" name = false ->
      has_cycle_marker name = true ->
      (str_in "3.0" name || str_in "4.8" name = false ->
       ingest_aimm_ncm_gihyeok_charge name
       = Raise (KeyError ("unable to parse voltage from " ++ name)))
      /\ (str_in "3.0" name || str_in "4.3" name || str_in "4.8" name = false ->
          ingest_aimm_ncm_gihyeok_oxygen_charge name
          = Raise (KeyError ("unable to parse voltage from " ++ name))))
  /\ (nslsii_has_sample_token name = true ->
      str_in "pristine" name || str_in "Pristine" name = false ->
      nslsii_has_voltage_marker name = false ->
      parse_filename_nslsii name
      = Raise (KeyError ("unable to parse voltage from " ++ name))).
Proof.
  split; [|split].
  - intros m R Hm HV.
    destruct (reaches_voltage_resolution_parse _ R) as (s & cy & _ & _ & ->).
    unfold parse_filename_voltage, voltage_marker_found in *. rewrite Hm in *.
    apply orb_false_iff in HV as [HV ->]. apply orb_false_iff in HV as [-> ->].
    reflexivity.
  - unfold has_cycle_marker, ingest_aimm_ncm_gihyeok_charge,
      ingest_aimm_ncm_gihyeok_oxygen_charge.
    intros -> HC. split; intros HV.
    + apply orb_false_iff in HV as [-> ->].
      destruct (str_in "1st" name); [reflexivity|].
      destruct (str_in "2nd" name); [reflexivity|].
      destruct (str_in "10th" name); [reflexivity | discriminate].
    + apply orb_false_iff in HV as [HV ->].
      apply orb_false_iff in HV as [-> ->].
      destruct (str_in "1st" name); [reflexivity|].
      destruct (str_in "2nd" name); [reflexivity|].
      destruct (str_in "10th" name); [reflexivity | discriminate].
  - intros HS HP HV. destruct (parse_filename_nslsii_sample_ok _ HS) as [s Hs].
    now rewrite (parse_filename_nslsii_after_sample _ _ Hs), HP,
      (parse_filename_nslsii_voltage_raise _ HV).
Qed.

(** ** [get_sample_charge] *)

(** [get_sample_charge] never raises: it returns the joined tags when both
    tables hold the capitalised first token, and [None] otherwise. *)
Lemma get_sample_charge_returns (name : string) :
  exists first,
    subscript0 (py_split_char "-" name) = Ok first
    /\ get_sample_charge name
       = Ok (match first_key_with (capitalize first) file_to_sample_map,
                   first_key_with (capitalize first) file_to_charge_map with
             | Some a, Some b => Some (a ++ "_" ++ b)
             | _, _ => None
             end).
Proof.
  unfold get_sample_charge.
  assert (exists p ps, py_split_char "-" name = p :: ps) as (p & ps & E).
  { induction name as [|c s (p & ps & IH)]; simpl; [eauto|].
    destruct (Ascii.eqb c "-"); [eauto|]. rewrite IH. eauto. }
  rewrite E. cbn [subscript0 bind]. exists p. split; [reflexivity|].
  destruct (first_key_with (capitalize p) file_to_sample_map),
    (first_key_with (capitalize p) file_to_charge_map); reflexivity.
Qed.

(** C3.  [get_sample_charge] on a name whose first token is in neither
    table: both lookups end without a [break], the function falls off its
    end and the call evaluates to [None]; it raises nothing.  Its caller
    hands the [None] to [parse_filename], where it raises a [TypeError] that
    the guard [except KeyError] does not catch. *)
Theorem get_sample_charge_unmatched_returns_None :
  first_key_with (capitalize "Sigscan70000") file_to_sample_map = None
  /\ first_key_with (capitalize "Sigscan70000") file_to_charge_map = None
  /\ get_sample_charge "Sigscan70000-0001" = Ok None
  /\ (forall e, get_sample_charge "Sigscan70000-0001" <> Raise e)
  /\ ingest_aimm_ncm_gihyeok_sigscan_params "Sigscan70000-0001"
     = Raise (TypeError "argument of type 'NoneType' is not iterable")
  /\ except_KeyError_continue
       (ingest_aimm_ncm_gihyeok_sigscan_params "Sigscan70000-0001")
     = Abort (TypeError "argument of type 'NoneType' is not iterable").
Proof.
  repeat split; try reflexivity. intros e H. vm_compute in H. discriminate.
Qed.

Example get_sample_charge_matched :
  get_sample_charge "sigscan71987-0001" = Ok (Some "BM_NCM622_2nd_48V").
Proof. reflexivity. Qed.

(** A stem outside the tables, and the empty name: the call returns [None]
    without raising. *)
Example get_sample_charge_unmatched :
  get_sample_charge "Sigscan70000-0001" = Ok None
  /\ get_sample_charge "" = Ok None.
Proof. split; reflexivity. Qed.

(** * Further properties of the classifiers *)

(** ** Outcomes of [parse_filename] *)

Lemma re_search_has_V (s : string) :
  str_in "V" s = true -> exists m, re_search_digits_V s = Some m.
Proof.
  induction s as [|c s IH]; intros H; [discriminate|].
  rewrite re_search_digits_V_cons.
  destruct (match_digits_V (String c s)) as [m|] eqn:M; [eauto|].
  rewrite str_in_cons in H. apply orb_true_iff in H as [H|H]; [|auto].
  apply prefix_split in H as [b E]. injection E as -> _. discriminate M.
Qed.

Lemma parse_filename_matched_Ok (name : string) :
  parse_filename_matched name = true -> exists r, parse_filename name = Ok r.
Proof.
  unfold parse_filename_matched. intros H.
  apply andb_true_iff in H as [HS H].
  destruct (parse_filename_sample_ok _ HS) as [s Hs].
  rewrite (parse_filename_after_sample _ _ Hs).
  destruct (str_in "Pristine" name); [eauto|].
  simpl in H. apply andb_true_iff in H as [HC HV].
  assert (exists cy, parse_filename_cycle name = Ok cy) as [cy ->].
  { unfold parse_filename_cycle, has_cycle_marker in *.
    destruct (str_in "1st" name); [eauto|].
    destruct (str_in "2nd" name); [eauto|].
    destruct (str_in "10th" name); [eauto|discriminate]. }
  simpl. unfold parse_filename_voltage, voltage_marker_found in *.
  destruct (re_search_digits_V name) as [m|]; [|discriminate].
  destruct (String.eqb m "43V"); [simpl; eauto|].
  destruct (String.eqb m "48V"); [simpl; eauto|].
  destruct (String.eqb m "3V"); [simpl; eauto|discriminate].
Qed.

Lemma parse_filename_TypeError (name msg : string) :
  parse_filename name = Raise (TypeError msg) ->
  reaches_voltage_resolution name = true /\ str_in "V" name = false.
Proof.
  intros H. unfold reaches_voltage_resolution.
  destruct (has_sample_token name) eqn:HS.
  - destruct (parse_filename_sample_ok _ HS) as [s Hs].
    rewrite (parse_filename_after_sample _ _ Hs) in H.
    destruct (str_in "Pristine" name); [discriminate|].
    destruct (has_cycle_marker name) eqn:HC.
    + split; [reflexivity|].
      destruct (str_in "V" name) eqn:HV; [|reflexivity].
      destruct (re_search_has_V _ HV) as [m Hm].
      unfold parse_filename_cycle, parse_filename_voltage in H.
      rewrite Hm in H.
      destruct (str_in "1st" name);
        [|destruct (str_in "2nd" name);
          [|destruct (str_in "10th" name); [|discriminate]]];
        simpl in H;
        (destruct (String.eqb m "43V"); [discriminate|]);
        (destruct (String.eqb m "48V"); [discriminate|]);
        (destruct (String.eqb m "3V"); discriminate).
    + rewrite (parse_filename_cycle_raise _ HC) in H. discriminate.
  - unfold parse_filename in H.
    rewrite (parse_filename_sample_raise _ HS) in H. discriminate.
Qed.

(** X1.  The three outcomes of [parse_filename].  It returns exactly on the
    names on which every stage finds its token.  It raises [TypeError]
    exactly on the names that reach voltage resolution without any ['V'],
    and those are the only names on which the guard
    [except KeyError: continue] of its callers does not skip the file but
    lets the exception out of the loop.  It never raises [IndexError]. *)
Theorem parse_filename_outcomes (name : string) :
  ((exists r, parse_filename name = Ok r) <-> parse_filename_matched name = true)
  /\ ((exists msg, parse_filename name = Raise (TypeError msg))
      <-> reaches_voltage_resolution name = true /\ str_in "V" name = false)
  /\ ((exists e, except_KeyError_continue (parse_filename name) = Abort e)
      <-> reaches_voltage_resolution name = true /\ str_in "V" name = false)
  /\ (forall msg, parse_filename name <> Raise (IndexError msg)).
Proof.
  assert (forall msg, parse_filename name <> Raise (IndexError msg)) as NoIdx.
  { intros msg H.
    destruct (parse_filename_matched name) eqn:M.
    - destruct (parse_filename_matched_Ok _ M) as [r Hr]. congruence.
    - unfold parse_filename_matched in M.
      destruct (has_sample_token name) eqn:HS.
      + destruct (parse_filename_sample_ok _ HS) as [s Hs].
        rewrite (parse_filename_after_sample _ _ Hs) in H.
        destruct (str_in "Pristine" name); [discriminate|].
        unfold parse_filename_cycle, parse_filename_voltage in H.
        destruct (str_in "1st" name);
          [|destruct (str_in "2nd" name);
            [|destruct (str_in "10th" name); [|discriminate]]];
          simpl in H;
          (destruct (re_search_digits_V name) as [m|]; [|discriminate]);
          (destruct (String.eqb m "43V"); [discriminate|]);
          (destruct (String.eqb m "48V"); [discriminate|]);
          (destruct (String.eqb m "3V"); discriminate).
      + unfold parse_filename in H.
        rewrite (parse_filename_sample_raise _ HS) in H. discriminate. }
  split; [|split; [|split; [|exact NoIdx]]].
  - split; [|apply parse_filename_matched_Ok].
    intros [r Hr]. destruct (parse_filename_matched name) eqn:M; [reflexivity|].
    destruct (parse_filename_unmatched _ M) as [e He]. congruence.
  - split.
    + intros [msg H]. apply (parse_filename_TypeError _ _ H).
    + intros [R V]. rewrite (parse_filename_no_V _ R V). eauto.
  - split.
    + intros [e H]. destruct (parse_filename name) as [r|[arg|msg|msg]] eqn:P;
        try discriminate.
      * apply (parse_filename_TypeError _ _ P).
      * exfalso. now apply (NoIdx msg).
    + intros [R V]. rewrite (parse_filename_no_V _ R V). simpl. eauto.
Qed.

Lemma parse_filename_outcomes_witness :
  (exists r, parse_filename "BM_811_10th_3V.txt" = Ok r)
  /\ (exists e,
         except_KeyError_continue (parse_filename "NCMA_2nd_4.8.txt") = Abort e)
  /\ reaches_voltage_resolution "NCMA_2nd_48V.txt" = true
     /\ str_in "V" "NCMA_2nd_48V.txt" = true.
Proof.
  split; [|split].
  - destruct (parse_filename_outcomes "BM_811_10th_3V.txt") as ([_ H] & _).
    apply H. reflexivity.
  - destruct (parse_filename_outcomes "NCMA_2nd_4.8.txt") as (_ & _ & [_ H] & _).
    apply H. split; reflexivity.
  - split; reflexivity.
Defined.

(** ** Well-formed charges *)

Lemma float_3_0_neq_0 : 3.0%float <> 0.0%float.
Proof.
  intros H. apply (f_equal (fun x => PrimFloat.eqb x 0.0)) in H.
  vm_compute in H. discriminate.
Qed.

Lemma float_4_3_neq_0 : 4.3%float <> 0.0%float.
Proof.
  intros H. apply (f_equal (fun x => PrimFloat.eqb x 0.0)) in H.
  vm_compute in H. discriminate.
Qed.

Lemma float_4_8_neq_0 : 4.8%float <> 0.0%float.
Proof.
  intros H. apply (f_equal (fun x => PrimFloat.eqb x 0.0)) in H.
  vm_compute in H. discriminate.
Qed.

Lemma well_formed_pristine : well_formed_charge (charge_display 0 0.0 "DC").
Proof.
  exists 0%Z, 0.0%float, "DC". simpl. intuition.
Qed.

Lemma well_formed_cycled (cycle : Z) (v : float) (st : string) :
  In cycle [1%Z; 2%Z; 10%Z] ->
  In (v, st) [(3.0%float, "DC"); (4.3%float, "C"); (4.8%float, "C")] ->
  well_formed_charge (charge_display cycle v st).
Proof.
  intros Hc Hv. exists cycle, v, st. split; [reflexivity|].
  split; [simpl in *; tauto|]. split; [simpl in *; tauto|].
  split.
  - intros ->. simpl in Hc. destruct Hc as [H|[H|[H|[]]]]; discriminate.
  - intros ->. simpl in Hv.
    destruct Hv as [H|[H|[H|[]]]]; inversion H as [[Hf Hs]]; exfalso;
      auto using float_3_0_neq_0, float_4_3_neq_0, float_4_8_neq_0.
Qed.

Lemma parse_filename_cycle_values (name : string) (cycle : Z) :
  parse_filename_cycle name = Ok cycle -> In cycle [1%Z; 2%Z; 10%Z].
Proof.
  unfold parse_filename_cycle. intros H.
  case_str_in; inversion H; subst; simpl; tauto.
Qed.

Lemma parse_filename_nslsii_cycle_values (name : string) :
  In (parse_filename_nslsii_cycle name) [1%Z; 2%Z; 10%Z].
Proof.
  unfold parse_filename_nslsii_cycle. case_str_in; tauto.
Qed.

Lemma parse_filename_voltage_values (name : string) (v : float) (st : string) :
  parse_filename_voltage name = Ok (v, st) ->
  In (v, st) [(3.0%float, "DC"); (4.3%float, "C"); (4.8%float, "C")].
Proof.
  unfold parse_filename_voltage. intros H.
  destruct (re_search_digits_V name) as [m|]; [|discriminate].
  destruct (String.eqb m "43V"); [inversion H; simpl; tauto|].
  destruct (String.eqb m "48V"); [inversion H; simpl; tauto|].
  destruct (String.eqb m "3V"); [inversion H; simpl; tauto|discriminate].
Qed.

Lemma parse_filename_nslsii_voltage_values (name : string) (v : float)
  (st : string) :
  parse_filename_nslsii_voltage name = Ok (v, st) ->
  In (v, st) [(3.0%float, "DC"); (4.3%float, "C"); (4.8%float, "C")].
Proof.
  unfold parse_filename_nslsii_voltage. intros H.
  destruct (str_in "4_3" name || str_in "43C" name);
    [inversion H; simpl; tauto|].
  destruct (str_in "4_8" name || str_in "48C" name);
    [inversion H; simpl; tauto|].
  destruct (str_in "3V" name || str_in "3_0" name || str_in "30DC" name);
    [inversion H; simpl; tauto|discriminate].
Qed.

(** X2.  Every charge [parse_filename] or [parse_filename_nslsii] returns is
    well formed: the keys cycle, voltage, state in this order, the cycle one
    of 0, 1, 2, 10, the voltage and state one of 0.0/DC, 3.0/DC, 4.3/C,
    4.8/C, and cycle 0 exactly with voltage 0.0.  The cycle is 0 exactly on
    the names that hold the function's pristine marker. *)
Theorem parsed_charge_well_formed (name s : string) (c : option dict) :
  (parse_filename name = Ok (s, c) ->
   exists d, c = Some d /\ well_formed_charge d
             /\ (dict_get d "cycle" = Some (PInt 0)
                 <-> str_in "Pristine" name = true))
  /\ (parse_filename_nslsii name = Ok (s, c) ->
      exists d, c = Some d /\ well_formed_charge d
                /\ (dict_get d "cycle" = Some (PInt 0)
                    <-> str_in "pristine" name || str_in "Pristine" name
                        = true)).
Proof.
  split; intros H.
  - destruct (parse_filename_sample name) as [s0|e] eqn:Hs;
      [|unfold parse_filename in H; rewrite Hs in H; discriminate].
    rewrite (parse_filename_after_sample _ _ Hs) in H.
    destruct (str_in "Pristine" name).
    + inversion H; subst. eexists. split; [reflexivity|].
      split; [apply well_formed_pristine|]. split; reflexivity.
    + destruct (parse_filename_cycle name) as [cy|] eqn:Hc; [|discriminate].
      destruct (parse_filename_voltage name) as [[v st]|] eqn:Hv;
        [|discriminate].
      simpl in H. inversion H; subst. eexists. split; [reflexivity|].
      pose proof (parse_filename_cycle_values _ _ Hc) as Hcy.
      split; [apply (well_formed_cycled _ _ _ Hcy),
               (parse_filename_voltage_values _ _ _ Hv)|].
      split; [|discriminate]. simpl. intros E. inversion E; subst.
      simpl in Hcy. destruct Hcy as [?|[?|[?|[]]]]; discriminate.
  - destruct (parse_filename_nslsii_sample name) as [s0|e] eqn:Hs;
      [|unfold parse_filename_nslsii in H; rewrite Hs in H; discriminate].
    rewrite (parse_filename_nslsii_after_sample _ _ Hs) in H.
    destruct (str_in "pristine" name || str_in "Pristine" name).
    + inversion H; subst. eexists. split; [reflexivity|].
      split; [apply well_formed_pristine|]. split; reflexivity.
    + destruct (parse_filename_nslsii_voltage name) as [[v st]|] eqn:Hv;
        [|discriminate].
      simpl in H. inversion H; subst. eexists. split; [reflexivity|].
      pose proof (parse_filename_nslsii_cycle_values name) as Hcy.
      split; [apply (well_formed_cycled _ _ _ Hcy),
               (parse_filename_nslsii_voltage_values _ _ _ Hv)|].
      split; [|discriminate]. simpl. intros E. inversion E as [E'].
      rewrite E' in Hcy.
      simpl in Hcy. destruct Hcy as [?|[?|[?|[]]]]; discriminate.
Qed.

Lemma parsed_charge_well_formed_witness :
  (exists d, Some (charge_display 2 4.8 "C") = Some d /\ well_formed_charge d
             /\ (dict_get d "cycle" = Some (PInt 0)
                 <-> str_in "Pristine" "BM_712_2nd_48V.txt" = true))
  /\ (exists d, Some (charge_display 0 0.0 "DC") = Some d
                /\ well_formed_charge d
                /\ (dict_get d "cycle" = Some (PInt 0)
                    <-> str_in "pristine" "811_pristine.txt"
                        || str_in "Pristine" "811_pristine.txt" = true)).
Proof.
  split.
  - destruct (parsed_charge_well_formed "BM_712_2nd_48V.txt" "BM_NCM712-Al"
                (Some (charge_display 2 4.8 "C"))) as [H _].
    apply H. reflexivity.
  - destruct (parsed_charge_well_formed "811_pristine.txt" "BM_NCM811"
                (Some (charge_display 0 0.0 "DC"))) as [_ H].
    apply H. reflexivity.
Defined.

(** ** Outcomes of [parse_filename_gihyeok] *)

Lemma parse_filename_gihyeok_sample_tag (name s : string) :
  parse_filename_gihyeok_sample name = Ok s -> In s sample_tags.
Proof.
  unfold parse_filename_gihyeok_sample. intros H. case_str_in;
    inversion H; subst; simpl; tauto.
Qed.

Lemma parse_filename_gihyeok_sample_ok (name : string) :
  has_sample_token name = true ->
  exists s, parse_filename_gihyeok_sample name = Ok s.
Proof.
  unfold has_sample_token, parse_filename_gihyeok_sample. intros H.
  destruct (str_in "622" name); [eauto|].
  destruct (str_in "NCMA" name); [eauto|].
  destruct (str_in "712_Al-doped" name); [eauto|].
  destruct (str_in "712" name); [eauto|].
  destruct (str_in "811" name); [eauto|discriminate].
Qed.

Lemma parse_filename_gihyeok_sample_raise (name : string) :
  has_sample_token name = false ->
  parse_filename_gihyeok_sample name
  = Raise (KeyError ("unable to parse sample from " ++ name)).
Proof.
  unfold has_sample_token, parse_filename_gihyeok_sample. intros H.
  destruct (str_in "712_Al-doped" name) eqn:E.
  - assert (str_in "712" name = true) as E'
        by (revert E; apply str_in_trans; reflexivity).
    rewrite E' in H. now rewrite !orb_true_r in H.
  - now case_str_in.
Qed.

(** X3.  [parse_filename_gihyeok] returns exactly on the names that hold a
    sample token and an element symbol.  The sample it returns is one of the
    five tags, the tag of the first rule of the table 622, NCMA,
    712_Al-doped, 712, 811 whose token occurs in the name; the symbol is the
    first of Co, Mn, Ni, O that occurs in the name, so a name that holds
    ["Co"] is a cobalt file whatever else it holds, Mn goes before Ni, and O
    is only the answer when none of the other three occurs.  A missing
    sample token is reported before a missing symbol. *)
Theorem parse_filename_gihyeok_outcomes (name : string) :
  (forall s symbol,
      parse_filename_gihyeok name = Ok (s, symbol) ->
      In s sample_tags
      /\ In symbol ["Co"; "Mn"; "Ni"; "O"]
      /\ str_in symbol name = true
      /\ (str_in "Co" name = true -> symbol = "Co")
      /\ (symbol = "O" ->
          str_in "Co" name = false /\ str_in "Mn" name = false
          /\ str_in "Ni" name = false)
      /\ symbol = (if str_in "Co" name then "Co"
                   else if str_in "Mn" name then "Mn"
                   else if str_in "Ni" name then "Ni"
                   else "O")
      /\ spec_first_match spec_parse_filename_gihyeok_rules name = Some s)
  /\ ((exists r, parse_filename_gihyeok name = Ok r)
      <-> has_sample_token name && has_symbol name = true)
  /\ (has_sample_token name = false ->
      parse_filename_gihyeok name
      = Raise (KeyError ("unable to parse sample from " ++ name)))
  /\ (has_sample_token name = true -> has_symbol name = false ->
      parse_filename_gihyeok name
      = Raise (KeyError ("unable to parse symbol from " ++ name))).
Proof.
  split; [|split; [|split]].
  - intros s symbol H. unfold parse_filename_gihyeok in H.
    destruct (parse_filename_gihyeok_sample name) as [s0|] eqn:Hs;
      [|discriminate].
    simpl in H.
    assert (s0 = s) as ->.
    { destruct (parse_filename_gihyeok_symbol name); [|discriminate].
      now inversion H. }
    assert (spec_first_match spec_parse_filename_gihyeok_rules name = Some s)
      as Hrule.
    { rewrite parse_filename_gihyeok_sample_rules in Hs.
      unfold spec_resolve_sample in Hs.
      destruct (spec_first_match spec_parse_filename_gihyeok_rules name);
        [now inversion Hs | discriminate]. }
    split; [apply (parse_filename_gihyeok_sample_tag name), Hs|].
    unfold parse_filename_gihyeok_symbol in H.
    destruct (str_in "Co" name) eqn:ECo.
    { inversion H; subst. simpl. intuition discriminate. }
    destruct (str_in "Mn" name) eqn:EMn.
    { inversion H; subst. simpl. intuition discriminate. }
    destruct (str_in "Ni" name) eqn:ENi.
    { inversion H; subst. simpl. intuition discriminate. }
    destruct (str_in "O" name) eqn:EO; [|discriminate].
    inversion H; subst. simpl. intuition discriminate.
  - split.
    + intros [r H]. destruct (has_sample_token name && has_symbol name) eqn:E;
        [reflexivity|].
      destruct (parse_filename_gihyeok_unmatched _ E) as [arg Ha]. congruence.
    + intros H. apply andb_true_iff in H as [HS HY].
      destruct (parse_filename_gihyeok_sample_ok _ HS) as [s Hs].
      unfold parse_filename_gihyeok. rewrite Hs. simpl.
      unfold has_symbol, parse_filename_gihyeok_symbol in *.
      destruct (str_in "Co" name); [simpl; eauto|].
      destruct (str_in "Mn" name); [simpl; eauto|].
      destruct (str_in "Ni" name); [simpl; eauto|].
      destruct (str_in "O" name); [simpl; eauto|discriminate].
  - intros HS. unfold parse_filename_gihyeok.
    now rewrite (parse_filename_gihyeok_sample_raise _ HS).
  - intros HS HY. destruct (parse_filename_gihyeok_sample_ok _ HS) as [s Hs].
    unfold parse_filename_gihyeok. rewrite Hs. simpl.
    unfold has_symbol, parse_filename_gihyeok_symbol in *.
    apply orb_false_iff in HY as [HY ->]. apply orb_false_iff in HY as [HY ->].
    apply orb_false_iff in HY as [-> ->]. reflexivity.
Qed.

Lemma parse_filename_gihyeok_outcomes_witness :
  (In "BM_NCM811" sample_tags
   /\ In "Co" ["Co"; "Mn"; "Ni"; "O"]
   /\ str_in "Co" "811_Ni_Co_O.txt" = true
   /\ (str_in "Co" "811_Ni_Co_O.txt" = true -> "Co" = "Co")
   /\ ("Co" = "O" ->
       str_in "Co" "811_Ni_Co_O.txt" = false
       /\ str_in "Mn" "811_Ni_Co_O.txt" = false
       /\ str_in "Ni" "811_Ni_Co_O.txt" = false)
   /\ "Co" = (if str_in "Co" "811_Ni_Co_O.txt" then "Co"
              else if str_in "Mn" "811_Ni_Co_O.txt" then "Mn"
              else if str_in "Ni" "811_Ni_Co_O.txt" then "Ni"
              else "O")
   /\ spec_first_match spec_parse_filename_gihyeok_rules "811_Ni_Co_O.txt"
      = Some "BM_NCM811")
  /\ parse_filename_gihyeok "Ni_Mn_Co.txt"
     = Raise (KeyError "unable to parse sample from Ni_Mn_Co.txt")
  /\ parse_filename_gihyeok "BM_811_Fe.txt"
     = Raise (KeyError "unable to parse symbol from BM_811_Fe.txt").
Proof.
  split; [|split].
  - destruct (parse_filename_gihyeok_outcomes "811_Ni_Co_O.txt") as (H & _).
    apply H. reflexivity.
  - destruct (parse_filename_gihyeok_outcomes "Ni_Mn_Co.txt") as (_ & _ & H & _).
    apply H. reflexivity.
  - destruct (parse_filename_gihyeok_outcomes "BM_811_Fe.txt")
      as (_ & _ & _ & H).
    apply H; reflexivity.
Defined.

(** ** Outcomes of [parse_filename_nslsii] *)

(** X4.  [parse_filename_nslsii] returns exactly on the names that hold a
    sample token and either a pristine marker or a voltage marker.  Every
    exception it raises is a [KeyError], so the guard
    [except KeyError: continue] of its caller skips every file it cannot
    classify and no name makes it stop the loop.  The sample it returns is
    one of four tags: it never returns BM_NCM712. *)
Theorem parse_filename_nslsii_outcomes (name : string) :
  ((exists r, parse_filename_nslsii name = Ok r)
   <-> nslsii_has_sample_token name
       && (str_in "pristine" name || str_in "Pristine" name
           || nslsii_has_voltage_marker name) = true)
  /\ (forall e, parse_filename_nslsii name = Raise e -> exists arg, e = KeyError arg)
  /\ (forall e, except_KeyError_continue (parse_filename_nslsii name) <> Abort e)
  /\ (forall s c,
         parse_filename_nslsii name = Ok (s, c) ->
         In s ["BM_NCM622"; "BM_NCMA"; "BM_NCM712-Al"; "BM_NCM811"]).
Proof.
  assert (forall e, parse_filename_nslsii name = Raise e ->
                    exists arg, e = KeyError arg) as OnlyKey.
  { intros e H. destruct (nslsii_has_sample_token name) eqn:HS.
    - destruct (parse_filename_nslsii_sample_ok _ HS) as [s Hs].
      rewrite (parse_filename_nslsii_after_sample _ _ Hs) in H.
      destruct (str_in "pristine" name || str_in "Pristine" name);
        [discriminate|].
      destruct (nslsii_has_voltage_marker name) eqn:HV.
      + destruct (parse_filename_nslsii_voltage_ok _ HV) as (v & st & E).
        rewrite E in H. discriminate.
      + rewrite (parse_filename_nslsii_voltage_raise _ HV) in H.
        inversion H. eauto.
    - rewrite (parse_filename_nslsii_sample_raise _ HS) in H.
      inversion H. eauto. }
  split; [|split; [exact OnlyKey|split]].
  - split.
    + intros [r H]. destruct (nslsii_has_sample_token name) eqn:HS.
      * destruct (parse_filename_nslsii_sample_ok _ HS) as [s Hs].
        rewrite (parse_filename_nslsii_after_sample _ _ Hs) in H.
        destruct (str_in "pristine" name || str_in "Pristine" name);
          [reflexivity|].
        destruct (nslsii_has_voltage_marker name) eqn:HV; [reflexivity|].
        rewrite (parse_filename_nslsii_voltage_raise _ HV) in H. discriminate.
      * rewrite (parse_filename_nslsii_sample_raise _ HS) in H. discriminate.
    + intros H. apply andb_true_iff in H as [HS H].
      destruct (parse_filename_nslsii_sample_ok _ HS) as [s Hs].
      rewrite (parse_filename_nslsii_after_sample _ _ Hs).
      destruct (str_in "pristine" name || str_in "Pristine" name); [eauto|].
      simpl in H.
      destruct (parse_filename_nslsii_voltage_ok _ H) as (v & st & ->).
      simpl. eauto.
  - intros e H. destruct (parse_filename_nslsii name) as [r|e'] eqn:P;
      [discriminate|].
    destruct (OnlyKey _ eq_refl) as [arg ->]. discriminate.
  - intros s c H. apply parse_filename_nslsii_Ok_sample in H.
    unfold parse_filename_nslsii_sample in H.
    destruct (str_in "622" name); [inversion H; simpl; tauto|].
    destruct (str_in "NCMA" name || str_in "NMCA" name);
      [inversion H; simpl; tauto|].
    destruct (str_in "712" name || str_in "721" name);
      [inversion H; simpl; tauto|].
    destruct (str_in "811" name); [inversion H; simpl; tauto|discriminate].
Qed.

Lemma parse_filename_nslsii_outcomes_witness :
  (exists r, parse_filename_nslsii "712_Al_free_30DC.txt" = Ok r)
  /\ (exists arg, KeyError "unable to parse voltage from 811_2nd.txt"
                  = KeyError arg)
  /\ In "BM_NCM712-Al" ["BM_NCM622"; "BM_NCMA"; "BM_NCM712-Al"; "BM_NCM811"].
Proof.
  split; [|split].
  - destruct (parse_filename_nslsii_outcomes "712_Al_free_30DC.txt")
      as ([_ H] & _).
    apply H. reflexivity.
  - destruct (parse_filename_nslsii_outcomes "811_2nd.txt") as (_ & H & _).
    apply H. reflexivity.
  - destruct (parse_filename_nslsii_outcomes "712_Al_free_30DC.txt")
      as (_ & _ & _ & H).
    apply (H _ (Some (charge_display 1 3.0 "DC"))). reflexivity.
Defined.

(** ** The 712 samples across the variants *)

(** X5.  The three file-name parsers do not agree on the 712 samples.  On a
    name that holds ["712"] and none of ["622"], ["NCMA"], ["NMCA"]:
    [parse_filename_nslsii] always answers BM_NCM712-Al; [parse_filename]
    answers BM_NCM712 when the name holds ["712_Al_free"] and BM_NCM712-Al
    otherwise; [parse_filename_gihyeok] answers BM_NCM712-Al when the name
    holds ["712_Al-doped"] and BM_NCM712 otherwise.  So on a name with a bare
    ["712"] the first and the last give different samples. *)
Theorem sample_712_across_variants (name : string) :
  str_in "712" name = true ->
  str_in "622" name = false ->
  str_in "NCMA" name = false ->
  str_in "NMCA" name = false ->
  parse_filename_nslsii_sample name = Ok "BM_NCM712-Al"
  /\ parse_filename_sample name
     = Ok (if str_in "712_Al_free" name then "BM_NCM712" else "BM_NCM712-Al")
  /\ parse_filename_gihyeok_sample name
     = Ok (if str_in "712_Al-doped" name then "BM_NCM712-Al" else "BM_NCM712")
  /\ (str_in "712_Al_free" name = false ->
      str_in "712_Al-doped" name = false ->
      parse_filename_sample name <> parse_filename_gihyeok_sample name).
Proof.
  intros H712 H622 HNCMA HNMCA.
  unfold parse_filename_nslsii_sample, parse_filename_sample,
    parse_filename_gihyeok_sample.
  rewrite H712, H622, HNCMA, HNMCA. simpl.
  split; [reflexivity|].
  split; [now destruct (str_in "712_Al_free" name)|].
  split; [now destruct (str_in "712_Al-doped" name)|].
  intros -> ->. discriminate.
Qed.

Lemma sample_712_across_variants_witness :
  parse_filename_nslsii_sample "BM_712_Ni_1st_43V.txt" = Ok "BM_NCM712-Al"
  /\ parse_filename_sample "BM_712_Ni_1st_43V.txt" = Ok "BM_NCM712-Al"
  /\ parse_filename_gihyeok_sample "BM_712_Ni_1st_43V.txt" = Ok "BM_NCM712"
  /\ parse_filename_sample "BM_712_Ni_1st_43V.txt"
     <> parse_filename_gihyeok_sample "BM_712_Ni_1st_43V.txt".
Proof.
  destruct (sample_712_across_variants "BM_712_Ni_1st_43V.txt"
              eq_refl eq_refl eq_refl eq_refl) as (H1 & H2 & H3 & H4).
  split; [exact H1|]. split; [exact H2|]. split; [exact H3|].
  apply H4; reflexivity.
Defined.

(** ** Outcomes of the per-column resolutions *)

Ltac solve_well_formed :=
  first [ apply well_formed_pristine
        | apply well_formed_cycled; simpl; tauto ].

Lemma column_charge_well_formed (column : string) (d : dict) :
  ingest_aimm_ncm_gihyeok_charge column = Ok d
  \/ ingest_aimm_ncm_gihyeok_oxygen_charge column = Ok d ->
  well_formed_charge d.
Proof.
  unfold ingest_aimm_ncm_gihyeok_charge, ingest_aimm_ncm_gihyeok_oxygen_charge.
  intros [H|H]; case_str_in; try discriminate;
    inversion H; subst; solve_well_formed.
Qed.

(** X6.  Each per-column resolution returns exactly on the headers that hold
    ["Pristine"], or an ordinal marker together with one of its voltage
    markers; every charge it returns is well formed; and the resolution of
    [ingest_aimm_ncm_gihyeok_oxygen] accepts every header the resolution of
    [ingest_aimm_ncm_gihyeok] accepts.  Without ["Pristine"], a header that
    holds ["3.0"] is read as 3.0 V whatever other voltage marker it holds. *)
Theorem column_charge_outcomes (column : string) :
  ((exists d, ingest_aimm_ncm_gihyeok_charge column = Ok d)
   <-> column_matched ["3.0"; "4.8"] column = true)
  /\ ((exists d, ingest_aimm_ncm_gihyeok_oxygen_charge column = Ok d)
      <-> column_matched ["3.0"; "4.3"; "4.8"] column = true)
  /\ (forall d,
         ingest_aimm_ncm_gihyeok_charge column = Ok d
         \/ ingest_aimm_ncm_gihyeok_oxygen_charge column = Ok d ->
         well_formed_charge d)
  /\ ((exists d, ingest_aimm_ncm_gihyeok_charge column = Ok d) ->
      exists d, ingest_aimm_ncm_gihyeok_oxygen_charge column = Ok d)
  /\ (str_in "Pristine" column = false ->
      str_in "3.0" column = true ->
      forall d,
        ingest_aimm_ncm_gihyeok_charge column = Ok d
        \/ ingest_aimm_ncm_gihyeok_oxygen_charge column = Ok d ->
        dict_get d "voltage" = Some (PFloat 3.0)).
Proof.
  split; [|split; [|split; [|split]]].
  - split.
    + intros [d H]. destruct (column_matched ["3.0"; "4.8"] column) eqn:E;
        [reflexivity|].
      destruct (column_charge_unmatched column) as [U _].
      destruct (U E) as [arg Ha]. congruence.
    + unfold column_matched, has_cycle_marker, ingest_aimm_ncm_gihyeok_charge.
      simpl. intros H. case_str_in; try discriminate; eauto.
  - split.
    + intros [d H].
      destruct (column_matched ["3.0"; "4.3"; "4.8"] column) eqn:E;
        [reflexivity|].
      destruct (column_charge_unmatched column) as [_ U].
      destruct (U E) as [arg Ha]. congruence.
    + unfold column_matched, has_cycle_marker,
        ingest_aimm_ncm_gihyeok_oxygen_charge.
      simpl. intros H. case_str_in; try discriminate; eauto.
  - apply column_charge_well_formed.
  - unfold ingest_aimm_ncm_gihyeok_charge,
      ingest_aimm_ncm_gihyeok_oxygen_charge.
    intros [d H]. case_str_in; try discriminate; eauto.
  - unfold ingest_aimm_ncm_gihyeok_charge,
      ingest_aimm_ncm_gihyeok_oxygen_charge.
    intros -> -> d [H|H]; case_str_in; try discriminate;
      inversion H; reflexivity.
Qed.

Lemma column_charge_outcomes_witness :
  (exists d, ingest_aimm_ncm_gihyeok_charge "Co_10th_4.8" = Ok d)
  /\ (exists d, ingest_aimm_ncm_gihyeok_oxygen_charge "O_1st_4.3" = Ok d)
  /\ well_formed_charge (charge_display 2 3.0 "DC")
  /\ (exists d, ingest_aimm_ncm_gihyeok_oxygen_charge "Mn_2nd_3.0_4.8" = Ok d)
  /\ dict_get (charge_display 2 3.0 "DC") "voltage" = Some (PFloat 3.0).
Proof.
  split; [|split; [|split; [|split]]].
  - destruct (column_charge_outcomes "Co_10th_4.8") as ([_ H] & _).
    apply H. reflexivity.
  - destruct (column_charge_outcomes "O_1st_4.3") as (_ & [_ H] & _).
    apply H. reflexivity.
  - destruct (column_charge_outcomes "Mn_2nd_3.0_4.8") as (_ & _ & H & _).
    apply H. left. reflexivity.
  - destruct (column_charge_outcomes "Mn_2nd_3.0_4.8") as (_ & _ & _ & H & _).
    apply H. eexists. reflexivity.
  - destruct (column_charge_outcomes "Mn_2nd_3.0_4.8") as (_ & _ & _ & _ & H).
    apply (H eq_refl eq_refl). left. reflexivity.
Defined.

(** ** [get_experiment_params]: the first token *)

Lemma py_split_from_blank (s : string) :
  forallb is_space (list_ascii_of_string s) = true -> py_split_from "" s = [].
Proof.
  induction s as [|c s IH]; simpl; [reflexivity|].
  intros H. apply andb_true_iff in H as [-> H]. simpl. auto.
Qed.

Lemma py_split_from_tok (s : string) :
  forall tok, tok <> "" -> py_split_from tok s <> [].
Proof.
  induction s as [|c s IH]; intros tok Hne; simpl.
  - destruct (String.eqb_spec tok ""); [contradiction|discriminate].
  - destruct (is_space c).
    + destruct (String.eqb_spec tok ""); [contradiction|discriminate].
    + apply IH. destruct tok; discriminate.
Qed.

Lemma py_split_blank_iff (s : string) :
  py_split s = [] <-> forallb is_space (list_ascii_of_string s) = true.
Proof.
  split; [|apply py_split_from_blank].
  unfold py_split. induction s as [|c s IH]; simpl; [reflexivity|].
  destruct (is_space c) eqn:E; simpl; [exact IH|].
  intros H. exfalso. revert H. apply py_split_from_tok. discriminate.
Qed.

(** X7.  [get_experiment_params] raises [IndexError] exactly on the names
    that hold no token, the empty name and the names made of white space;
    on every other name it returns or raises the [KeyError] that carries the
    first token.  Its caller guards the call with [except KeyError] only, so
    a blank name is not skipped: the exception leaves the loop. *)
Theorem get_experiment_params_blank (name : string) :
  ((exists msg, get_experiment_params name = Raise (IndexError msg))
   <-> forallb is_space (list_ascii_of_string name) = true)
  /\ (forallb is_space (list_ascii_of_string name) = true ->
      except_KeyError_continue (get_experiment_params name)
      = Abort (IndexError "list index out of range"))
  /\ (forallb is_space (list_ascii_of_string name) = false ->
      exists k rest,
        py_split name = k :: rest
        /\ ((exists r, get_experiment_params name = Ok r)
            \/ get_experiment_params name = Raise (KeyError k))).
Proof.
  unfold get_experiment_params. split; [|split].
  - rewrite <- py_split_blank_iff. split.
    + intros [msg H]. destruct (py_split name) as [|k rest]; [reflexivity|].
      simpl in H. unfold dict_subscript in H.
      destruct (dict_get experiment_to_params_map k); discriminate.
    + intros ->. simpl. eauto.
  - intros H. apply py_split_blank_iff in H. now rewrite H.
  - intros H. destruct (py_split name) as [|k rest] eqn:E.
    + apply py_split_blank_iff in E. congruence.
    + exists k, rest. split; [reflexivity|]. simpl. unfold dict_subscript.
      destruct (dict_get experiment_to_params_map k); simpl; eauto.
Qed.

Lemma get_experiment_params_blank_witness :
  except_KeyError_continue (get_experiment_params "   ")
  = Abort (IndexError "list index out of range")
  /\ (exists k rest,
         py_split " 7-7 x" = k :: rest
         /\ ((exists r, get_experiment_params " 7-7 x" = Ok r)
             \/ get_experiment_params " 7-7 x" = Raise (KeyError k))).
Proof.
  split.
  - destruct (get_experiment_params_blank "   ") as (_ & H & _).
    apply H. reflexivity.
  - destruct (get_experiment_params_blank " 7-7 x") as (_ & _ & H).
    apply H. reflexivity.
Defined.

(** X8.  Only the first token of the name counts: white space in front of
    it is ignored, and so is everything from the first white space after it
    on. *)
Theorem get_experiment_params_first_token (k rest : string) (c : ascii) :
  is_space c = true ->
  get_experiment_params (String c rest) = get_experiment_params rest
  /\ (k <> "" -> no_space k = true ->
      get_experiment_params (k ++ String c rest) = get_experiment_params k).
Proof.
  intros Hc. unfold get_experiment_params. split.
  - now rewrite (py_split_leading_space _ _ Hc).
  - intros Hne Hk. destruct (py_split_first k rest c Hne Hk Hc) as [-> ->].
    reflexivity.
Qed.

Lemma get_experiment_params_first_token_witness :
  get_experiment_params " 1-1" = get_experiment_params "1-1"
  /\ get_experiment_params ("5-2" ++ " NCM622 2nd cycle")
     = get_experiment_params "5-2".
Proof.
  split.
  - destruct (get_experiment_params_first_token "1-1" "1-1" " " eq_refl)
      as [H _].
    exact H.
  - destruct (get_experiment_params_first_token "5-2" "NCM622 2nd cycle" " "
                eq_refl) as [_ H].
    apply H; [discriminate | reflexivity].
Defined.

(** ** [get_experiment_params]: the entries *)

Lemma dict_get_Some_In {V : Type} (d : pydict V) (k : string) (v : V) :
  dict_get d k = Some v -> In (k, v) d.
Proof.
  induction d as [|[k' v'] d IH]; simpl; [discriminate|].
  destruct (String.eqb_spec k' k) as [->|Hne].
  - intros H. inversion H. auto.
  - auto.
Qed.

Lemma experiment_table_entries :
  Forall (fun kp =>
            In (sample (snd kp))
              ["BM_NCM622"; "BM_NCMA"; "BM_NCM712-Al"; "BM_NCM811"]
            /\ well_formed_charge (charge (snd kp)))
    experiment_to_params_map.
Proof.
  unfold experiment_to_params_map, py_dict. simpl.
  repeat (constructor; [split; [simpl; tauto | solve_well_formed]|]).
  constructor.
Qed.

(** X9.  Whatever name [get_experiment_params] returns on, the sample is one
    of BM_NCM622, BM_NCMA, BM_NCM712-Al, BM_NCM811 (no experiment is a
    BM_NCM712 one) and the charge is well formed. *)
Theorem get_experiment_params_well_formed (name s : string) (c : dict) :
  get_experiment_params name = Ok (s, c) ->
  In s ["BM_NCM622"; "BM_NCMA"; "BM_NCM712-Al"; "BM_NCM811"]
  /\ well_formed_charge c.
Proof.
  unfold get_experiment_params. intros H.
  destruct (py_split name) as [|k rest]; [discriminate|]. simpl in H.
  unfold dict_subscript in H.
  destruct (dict_get experiment_to_params_map k) as [p|] eqn:E;
    [|discriminate].
  simpl in H. inversion H; subst.
  apply dict_get_Some_In in E.
  pose proof experiment_table_entries as F. rewrite Forall_forall in F.
  apply (F _ E).
Qed.

Lemma get_experiment_params_well_formed_witness :
  In "BM_NCM811" ["BM_NCM622"; "BM_NCMA"; "BM_NCM712-Al"; "BM_NCM811"]
  /\ well_formed_charge (charge_display 10 3.0 "DC").
Proof.
  apply (get_experiment_params_well_formed "4-3 run 2"). reflexivity.
Defined.

(** ** [get_sample_charge]: what the result depends on *)

Lemma str_in_char_cons (a c : ascii) (s : string) :
  str_in (String a "") (String c s) = Ascii.eqb c a || str_in (String a "") s.
Proof.
  rewrite str_in_cons. f_equal. simpl.
  destruct (ascii_dec a c) as [->|Hne].
  - now rewrite prefix_nil, Ascii.eqb_refl.
  - symmetry. apply Ascii.eqb_neq. congruence.
Qed.

Lemma py_split_char_head (sep : ascii) (p rest : string) :
  str_in (String sep "") p = false ->
  py_split_char sep p = [p]
  /\ py_split_char sep (p ++ String sep rest) = p :: py_split_char sep rest.
Proof.
  induction p as [|c p IH]; intros H.
  - simpl. now rewrite Ascii.eqb_refl.
  - rewrite str_in_char_cons in H. apply orb_false_iff in H as [Hc Hp].
    destruct (IH Hp) as [E1 E2]. simpl. now rewrite Hc, E1, E2.
Qed.

Lemma py_split_char_map (f : ascii -> ascii) (sep : ascii) (s : string) :
  (forall c, Ascii.eqb (f c) sep = Ascii.eqb c sep) ->
  py_split_char sep (str_map f s) = map (str_map f) (py_split_char sep s).
Proof.
  intros Hf. induction s as [|c s IH]; simpl; [reflexivity|].
  rewrite Hf, IH. destruct (Ascii.eqb c sep); [reflexivity|].
  destruct (py_split_char sep s); reflexivity.
Qed.

Lemma ascii_upper_facts (c : ascii) :
  ascii_upper (ascii_upper c) = ascii_upper c
  /\ ascii_lower (ascii_upper c) = ascii_lower c
  /\ Ascii.eqb (ascii_upper c) "-" = Ascii.eqb c "-".
Proof.
  destruct c as [[] [] [] [] [] [] [] []]; repeat split; reflexivity.
Qed.

Lemma ascii_lower_facts (c : ascii) :
  ascii_upper (ascii_lower c) = ascii_upper c
  /\ ascii_lower (ascii_lower c) = ascii_lower c
  /\ Ascii.eqb (ascii_lower c) "-" = Ascii.eqb c "-".
Proof.
  destruct c as [[] [] [] [] [] [] [] []]; repeat split; reflexivity.
Qed.

Lemma str_map_map (f g : ascii -> ascii) (s : string) :
  str_map f (str_map g s) = str_map (fun c => f (g c)) s.
Proof. induction s; simpl; congruence. Qed.

Lemma str_map_ext (f g : ascii -> ascii) (s : string) :
  (forall c, f c = g c) -> str_map f s = str_map g s.
Proof. intros H. induction s; simpl; congruence. Qed.

Lemma capitalize_case (s : string) :
  capitalize (str_map ascii_upper s) = capitalize s
  /\ capitalize (str_map ascii_lower s) = capitalize s.
Proof.
  destruct s as [|c s]; [split; reflexivity|]. simpl. split.
  - rewrite str_map_map. f_equal; [apply ascii_upper_facts|].
    apply str_map_ext. intros a. apply ascii_upper_facts.
  - rewrite str_map_map. f_equal; [apply ascii_lower_facts|].
    apply str_map_ext. intros a. apply ascii_lower_facts.
Qed.

Lemma py_split_char_nonempty (sep : ascii) (s : string) :
  exists p ps, py_split_char sep s = p :: ps.
Proof.
  induction s as [|c s (p & ps & IH)]; simpl; [eauto|].
  destruct (Ascii.eqb c sep); [eauto|]. rewrite IH. eauto.
Qed.

Lemma get_sample_charge_of_token (name first : string) (rest : list string) :
  py_split_char "-" name = first :: rest ->
  get_sample_charge name
  = match first_key_with (capitalize first) file_to_sample_map,
          first_key_with (capitalize first) file_to_charge_map with
    | Some a, Some b => Ok (Some (a ++ "_" ++ b))
    | _, _ => Ok None
    end.
Proof. intros E. unfold get_sample_charge. now rewrite E. Qed.

(** X10.  [get_sample_charge] reads the name up to its first ['-'] only, and
    reads it without regard to the case of the ASCII letters. *)
Theorem get_sample_charge_token (name : string) :
  (forall rest, str_in "-" name = false ->
                get_sample_charge (name ++ "-" ++ rest) = get_sample_charge name)
  /\ get_sample_charge (str_map ascii_upper name) = get_sample_charge name
  /\ get_sample_charge (str_map ascii_lower name) = get_sample_charge name.
Proof.
  split; [|split].
  - intros rest H.
    destruct (py_split_char_head "-" name rest H) as [E1 E2].
    change (name ++ "-" ++ rest) with (name ++ String "-" rest).
    now rewrite (get_sample_charge_of_token _ _ _ E1),
      (get_sample_charge_of_token _ _ _ E2).
  - destruct (py_split_char_nonempty "-" name) as (p & ps & E).
    rewrite (get_sample_charge_of_token _ _ _ E).
    rewrite (get_sample_charge_of_token (str_map ascii_upper name)
               (str_map ascii_upper p) (map (str_map ascii_upper) ps)).
    + destruct (capitalize_case p) as [-> _]. reflexivity.
    + rewrite py_split_char_map, E; [reflexivity|].
      intros c. apply ascii_upper_facts.
  - destruct (py_split_char_nonempty "-" name) as (p & ps & E).
    rewrite (get_sample_charge_of_token _ _ _ E).
    rewrite (get_sample_charge_of_token (str_map ascii_lower name)
               (str_map ascii_lower p) (map (str_map ascii_lower) ps)).
    + destruct (capitalize_case p) as [_ ->]. reflexivity.
    + rewrite py_split_char_map, E; [reflexivity|].
      intros c. apply ascii_lower_facts.
Qed.

Lemma get_sample_charge_token_witness :
  get_sample_charge ("sigscan71295" ++ "-" ++ "0003-ch1")
  = get_sample_charge "sigscan71295".
Proof.
  destruct (get_sample_charge_token "sigscan71295") as (H & _).
  apply H. reflexivity.
Defined.

(** ** [get_sample_charge]: the two tables *)

Lemma list_in_In (x : string) (l : list string) :
  list_in x l = true <-> In x l.
Proof.
  unfold list_in. rewrite existsb_exists. split.
  - intros (y & Hy & E). apply String.eqb_eq in E. now subst.
  - intros H. exists x. split; [exact H | apply String.eqb_refl].
Qed.

Lemma first_key_with_found (fname : string) (items : pydict (list string)) :
  (exists key, first_key_with fname items = Some key)
  <-> In fname (List.concat (map snd items)).
Proof.
  induction items as [|[k v] items IH]; simpl.
  - split; [intros [key H]; discriminate | tauto].
  - rewrite in_app_iff, <- IH, <- list_in_In.
    destruct (list_in fname v); split; eauto.
    intros [H|H]; [discriminate | exact H].
Qed.

Lemma first_key_with_key (fname key : string) (items : pydict (list string)) :
  first_key_with fname items = Some key -> In key (dict_keys items).
Proof.
  induction items as [|[k v] items IH]; simpl; [discriminate|].
  destruct (list_in fname v); [intros H; inversion H; auto | auto].
Qed.

Lemma scans_of_both_tables (fname : string) :
  In fname (List.concat (map snd file_to_sample_map))
  <-> In fname (List.concat (map snd file_to_charge_map)).
Proof.
  assert (forall l1 l2,
             forallb (fun x => list_in x l2) l1 = true ->
             In fname l1 -> In fname l2) as Incl.
  { intros l1 l2 F H. rewrite forallb_forall in F.
    apply list_in_In, F, H. }
  split; apply Incl; vm_compute; reflexivity.
Qed.

(** X11.  The sample table and the charge table list the same 40 scans, so
    for every name the two lookups of [get_sample_charge] succeed or fail
    together: the function returns [None] exactly when the capitalised first
    token of the name is not one of the listed scans, and otherwise returns
    a sample key and a charge key joined by an underscore. *)
Theorem get_sample_charge_tables_agree (name first : string)
  (rest : list string) :
  py_split_char "-" name = first :: rest ->
  List.length (List.concat (map snd file_to_sample_map)) = 40
  /\ ((exists a, first_key_with (capitalize first) file_to_sample_map = Some a)
      <-> (exists b,
              first_key_with (capitalize first) file_to_charge_map = Some b))
  /\ (get_sample_charge name = Ok None
      <-> ~ In (capitalize first) (List.concat (map snd file_to_sample_map)))
  /\ (In (capitalize first) (List.concat (map snd file_to_sample_map)) ->
      exists a b,
        In a (dict_keys file_to_sample_map)
        /\ In b (dict_keys file_to_charge_map)
        /\ get_sample_charge name = Ok (Some (a ++ "_" ++ b))).
Proof.
  intros E. split; [reflexivity|].
  rewrite (get_sample_charge_of_token _ _ _ E).
  split; [now rewrite !first_key_with_found, scans_of_both_tables|].
  split.
  - rewrite <- first_key_with_found. split.
    + intros H [a Ha]. rewrite Ha in H.
      assert (exists b, first_key_with (capitalize first) file_to_charge_map
                        = Some b) as [b Hb].
      { rewrite first_key_with_found, <- scans_of_both_tables,
          <- first_key_with_found. eauto. }
      rewrite Hb in H. discriminate.
    + intros H.
      destruct (first_key_with (capitalize first) file_to_sample_map);
        [exfalso; eauto | reflexivity].
  - intros H.
    assert (exists b, first_key_with (capitalize first) file_to_charge_map
                      = Some b) as [b Hb].
    { rewrite first_key_with_found, <- scans_of_both_tables. exact H. }
    apply first_key_with_found in H as [a Ha].
    exists a, b. rewrite Ha, Hb.
    eauto using first_key_with_key.
Qed.

Lemma get_sample_charge_tables_agree_witness :
  (get_sample_charge "sigscan71296-2" = Ok None
   <-> ~ In (capitalize "sigscan71296")
           (List.concat (map snd file_to_sample_map)))
  /\ (exists a b,
         In a (dict_keys file_to_sample_map)
         /\ In b (dict_keys file_to_charge_map)
         /\ get_sample_charge "sigscan71296-2" = Ok (Some (a ++ "_" ++ b))).
Proof.
  destruct (get_sample_charge_tables_agree "sigscan71296-2" "sigscan71296"
              ["2"] eq_refl) as (_ & _ & H1 & H2).
  split; [exact H1|]. apply H2. vm_compute. tauto.
Defined.

(** ** [get_sample_charge] followed by [parse_filename] *)

Lemma parse_filename_of_sample_charge (a b : string) :
  In a (dict_keys file_to_sample_map) ->
  In b (dict_keys file_to_charge_map) ->
  exists d,
    parse_filename (a ++ "_" ++ b)
    = Ok (if String.eqb a "BM_NCM712" then "BM_NCM712-Al" else a, Some d)
    /\ well_formed_charge d.
Proof.
  intros Ha Hb. vm_compute in Ha, Hb.
  destruct Ha as [<-|[<-|[<-|[<-|[<-|[]]]]]];
    destruct Hb as [<-|[<-|[<-|[<-|[<-|[<-|[<-|[<-|[]]]]]]]]];
    eexists; (split; [reflexivity | solve_well_formed]).
Qed.

(** X12.  The classification step of [ingest_aimm_ncm_gihyeok_sigscan].
    When [get_sample_charge] finds the scan, [parse_filename] never fails on
    the string it built and returns a well-formed charge; the sample it
    returns is the sample key of the table, except that the scans listed
    under BM_NCM712 are classified as BM_NCM712-Al, since the string holds
    ["712"] without ["712_Al_free"].  When [get_sample_charge] returns
    [None], [parse_filename] raises [TypeError], which the guard
    [except KeyError] does not catch. *)
Theorem sigscan_classification (stem : string) :
  (forall p,
      get_sample_charge stem = Ok (Some p) ->
      exists a b d,
        p = a ++ "_" ++ b
        /\ In a (dict_keys file_to_sample_map)
        /\ In b (dict_keys file_to_charge_map)
        /\ ingest_aimm_ncm_gihyeok_sigscan_params stem
           = Ok (if String.eqb a "BM_NCM712" then "BM_NCM712-Al" else a,
                 Some d)
        /\ well_formed_charge d)
  /\ (get_sample_charge stem = Ok None ->
      except_KeyError_continue (ingest_aimm_ncm_gihyeok_sigscan_params stem)
      = Abort (TypeError "argument of type 'NoneType' is not iterable")).
Proof.
  unfold ingest_aimm_ncm_gihyeok_sigscan_params. split.
  - intros p H. rewrite H. simpl.
    destruct (py_split_char_nonempty "-" stem) as (first & rest & E).
    rewrite (get_sample_charge_of_token _ _ _ E) in H.
    destruct (first_key_with (capitalize first) file_to_sample_map)
      as [a|] eqn:Ea; [|discriminate].
    destruct (first_key_with (capitalize first) file_to_charge_map)
      as [b|] eqn:Eb; [|discriminate].
    inversion H; subst.
    apply first_key_with_key in Ea, Eb.
    destruct (parse_filename_of_sample_charge a b Ea Eb) as (d & Hd & Hw).
    exists a, b, d. auto.
  - intros ->. reflexivity.
Qed.

Lemma sigscan_classification_witness :
  (exists a b d,
      "BM_NCM712_1st_43V" = a ++ "_" ++ b
      /\ In a (dict_keys file_to_sample_map)
      /\ In b (dict_keys file_to_charge_map)
      /\ ingest_aimm_ncm_gihyeok_sigscan_params "Sigscan71295-0001"
         = Ok (if String.eqb a "BM_NCM712" then "BM_NCM712-Al" else a, Some d)
      /\ well_formed_charge d)
  /\ except_KeyError_continue
       (ingest_aimm_ncm_gihyeok_sigscan_params "Sigscan70000-0001")
     = Abort (TypeError "argument of type 'NoneType' is not iterable").
Proof.
  split.
  - destruct (sigscan_classification "Sigscan71295-0001") as (H & _).
    apply H. reflexivity.
  - destruct (sigscan_classification "Sigscan70000-0001") as (_ & H).
    apply H. reflexivity.
Defined.

Example sigscan_BM_NCM712_as_Al :
  get_sample_charge "Sigscan71295-0001" = Ok (Some "BM_NCM712_1st_43V")
  /\ ingest_aimm_ncm_gihyeok_sigscan_params "Sigscan71295-0001"
     = Ok ("BM_NCM712-Al", Some (charge_display 1 4.3 "C")).
Proof. split; reflexivity. Qed.

(** ** The energy offset of [ingest_aimm_ncm_gihyeok_811] *)

(** X13.  On every file name [parse_filename_nslsii] classifies, the energy
    offset of [ingest_aimm_ncm_gihyeok_811] is computed without an exception:
    a pristine file gets no offset, a cycle 2 file gets -0.055, and every
    other file gets 0.176, the files without an ordinal marker, which default
    to cycle 1, among them. *)
Theorem energy_offset_of_classified (name s : string) (c : option dict) :
  parse_filename_nslsii name = Ok (s, c) ->
  ingest_aimm_ncm_gihyeok_811_energy_offset c
  = Ok (if str_in "pristine" name || str_in "Pristine" name then None
        else if negb (str_in "1st" name) && str_in "2nd" name
             then Some (-0.055)%float
             else Some 0.176%float).
Proof.
  intros H.
  destruct (parse_filename_nslsii_sample name) as [s0|e] eqn:Hs;
    [|unfold parse_filename_nslsii in H; rewrite Hs in H; discriminate].
  rewrite (parse_filename_nslsii_after_sample _ _ Hs) in H.
  destruct (str_in "pristine" name || str_in "Pristine" name).
  - inversion H; subst. reflexivity.
  - destruct (parse_filename_nslsii_voltage name) as [[v st]|]; [|discriminate].
    simpl in H. inversion H; subst.
    unfold parse_filename_nslsii_cycle.
    destruct (str_in "1st" name); [reflexivity|].
    destruct (str_in "2nd" name); [reflexivity|].
    destruct (str_in "10th" name); reflexivity.
Qed.

Lemma energy_offset_of_classified_witness :
  ingest_aimm_ncm_gihyeok_811_energy_offset (Some (charge_display 1 4.8 "C"))
  = Ok (Some 0.176%float).
Proof.
  apply (energy_offset_of_classified "BM_811_48C.txt" "BM_NCM811").
  reflexivity.
Defined.

(** ** [read_header] *)

Lemma rstrip_cons (c : ascii) (s : string) :
  rstrip (String c s)
  = match rstrip s with
    | EmptyString => if is_space c then EmptyString else String c EmptyString
    | r => String c r
    end.
Proof. reflexivity. Qed.

Lemma rstrip_cons_nonspace (c : ascii) (s : string) :
  is_space c = false -> rstrip (String c s) = String c (rstrip s).
Proof. intros H. rewrite rstrip_cons, H. now destruct (rstrip s). Qed.

(** A prefix that ends in a character other than white space survives. *)
Lemma rstrip_app_nonspace (p t : string) (c : ascii) :
  str_last p = Some c -> is_space c = false ->
  rstrip (p ++ t) = p ++ rstrip t.
Proof.
  intros Hl Hc. induction p as [|a p IH]; [discriminate|].
  destruct p as [|b p].
  - simpl in Hl. inversion Hl; subst. simpl append.
    now apply rstrip_cons_nonspace.
  - change (String a (String b p) ++ t) with (String a (String b p ++ t)).
    rewrite rstrip_cons, (IH Hl). reflexivity.
Qed.

Lemma rstrip_last (s : string) (c : ascii) :
  str_last (rstrip s) = Some c -> is_space c = false.
Proof.
  induction s as [|a s IH]; [discriminate|].
  rewrite rstrip_cons. destruct (rstrip s) as [|b r] eqn:E.
  - destruct (is_space a) eqn:Ea; [discriminate|].
    simpl. intros H. inversion H; subst. exact Ea.
  - exact IH.
Qed.

Lemma rstrip_blank (s : string) :
  rstrip s = "" <-> forallb is_space (list_ascii_of_string s) = true.
Proof.
  induction s as [|a s IH]; [simpl; tauto|].
  rewrite rstrip_cons. simpl. rewrite andb_true_iff, <- IH.
  destruct (rstrip s); destruct (is_space a); split; intros H;
    try discriminate; try tauto; destruct H; discriminate.
Qed.

Lemma rstrip_idempotent (s : string) : rstrip (rstrip s) = rstrip s.
Proof.
  induction s as [|a s IH]; [reflexivity|].
  rewrite rstrip_cons. destruct (rstrip s) as [|b r] eqn:E.
  - destruct (is_space a) eqn:Ea; [reflexivity|].
    now rewrite rstrip_cons_nonspace.
  - rewrite rstrip_cons, IH. reflexivity.
Qed.

(** Joining the fields of a split with the separator gives the string
    back. *)
Lemma py_split_char_concat (sep : ascii) (s : string) :
  String.concat (String sep "") (py_split_char sep s) = s.
Proof.
  induction s as [|c s IH]; [reflexivity|]. simpl py_split_char.
  destruct (py_split_char_nonempty sep s) as (p & ps & E).
  rewrite E in *. destruct (Ascii.eqb_spec c sep) as [->|Hne].
  - change (String.concat (String sep "") ("" :: p :: ps))
      with (String sep (String.concat (String sep "") (p :: ps))).
    now rewrite IH.
  - destruct ps as [|q ps]; simpl in *; now rewrite IH.
Qed.

Lemma py_split_char_fields (sep : ascii) (s : string) :
  Forall (fun field => str_in (String sep "") field = false)
    (py_split_char sep s).
Proof.
  induction s as [|c s IH]; [repeat constructor|]. simpl.
  destruct (Ascii.eqb c sep) eqn:E.
  - constructor; [reflexivity | exact IH].
  - destruct (py_split_char sep s) as [|p ps].
    + repeat constructor. now rewrite str_in_char_cons, E.
    + inversion IH; subst. constructor; [|assumption].
      rewrite str_in_char_cons, E. assumption.
Qed.

Lemma py_split_char_app_head (sep : ascii) (p s : string) :
  str_in (String sep "") p = false ->
  exists h t, py_split_char sep s = h :: t
              /\ py_split_char sep (p ++ s) = (p ++ h) :: t.
Proof.
  intros H. destruct (py_split_char_nonempty sep s) as (h & t & E).
  exists h, t. split; [exact E|].
  induction p as [|c p IH]; [exact E|].
  rewrite str_in_char_cons in H. apply orb_false_iff in H as [Hc Hp].
  simpl. now rewrite Hc, (IH Hp).
Qed.

Lemma str_last_app (s t : string) (c : ascii) :
  str_last t = Some c -> str_last (s ++ t) = Some c.
Proof.
  intros H. induction s as [|a s IH]; [exact H|]. simpl.
  destruct (s ++ t) eqn:E; [|exact IH].
  destruct s; [simpl in E; subst|]; discriminate.
Qed.

(** The last field of a split is empty only when the string is empty or
    ends in the separator. *)
Lemma py_split_char_last (sep : ascii) (s : string) :
  last (py_split_char sep s) "" = "" ->
  s = "" \/ str_last s = Some sep.
Proof.
  induction s as [|c s IH]; [auto|]. intros H. right.
  destruct (py_split_char_nonempty sep s) as (p & ps & E).
  simpl in H. rewrite E in *. destruct (Ascii.eqb_spec c sep) as [->|Hne].
  - change (last ("" :: p :: ps) "") with (last (p :: ps) "") in H.
    destruct (IH H) as [->|Hl]; [reflexivity|].
    change (String sep s) with (String sep "" ++ s). now apply str_last_app.
  - destruct ps as [|q ps]; [simpl in H; discriminate|].
    change (last (String c p :: q :: ps) "") with (last (q :: ps) "") in H.
    change (last (p :: q :: ps) "") with (last (q :: ps) "") in IH.
    destruct (IH H) as [->|Hl]; [discriminate|].
    change (String c s) with (String c "" ++ s). now apply str_last_app.
Qed.

Lemma read_header_skip (pre f : list string) :
  Forall (fun line => prefix "Time (s)" line = false) pre ->
  read_header (pre ++ f) = read_header f.
Proof.
  induction 1 as [|line pre Hl _ IH]; [reflexivity|].
  simpl. now rewrite Hl.
Qed.

(** X14.  [read_header] answers with the first line that starts with
    ["Time (s)"]: the lines before it are skipped, the line is stripped of
    trailing white space and cut at the tabs, and the iteration stops right
    behind it.  When no line starts so, the result is [None] (not the empty
    string [header] is initialised with) and the lines are used up. *)
Theorem read_header_first_match (f : list string) :
  (fst (read_header f) = None
   <-> Forall (fun line => prefix "Time (s)" line = false) f)
  /\ (fst (read_header f) = None -> snd (read_header f) = [])
  /\ (forall pre line post,
         f = (pre ++ line :: post)%list ->
         Forall (fun l => prefix "Time (s)" l = false) pre ->
         prefix "Time (s)" line = true ->
         read_header f = (Some (py_split_char TAB (rstrip line)), post)).
Proof.
  split; [|split].
  - induction f as [|line f IH]; simpl; [split; auto|].
    destruct (prefix "Time (s)" line) eqn:E.
    + split; [discriminate|]. intros H. inversion H. congruence.
    + rewrite IH. split; [auto|]. intros H. now inversion H.
  - induction f as [|line f IH]; simpl; [reflexivity|].
    destruct (prefix "Time (s)" line); [discriminate | exact IH].
  - intros pre line post -> Hpre Hl. rewrite (read_header_skip _ _ Hpre).
    simpl. now rewrite Hl.
Qed.

Lemma read_header_first_match_witness :
  read_header (["# scan 12"; "Date: today"] ++ header_line :: [data_line])%list
  = (Some (py_split_char TAB (rstrip header_line)),
     [data_line]).
Proof.
  destruct (read_header_first_match
              (["# scan 12"; "Date: today"] ++ header_line :: [data_line])%list)
    as (_ & _ & H).
  apply (H ["# scan 12"; "Date: today"]); [reflexivity | | reflexivity].
  repeat constructor.
Defined.

(** X15.  A header [read_header] returns loses nothing of its line but the
    trailing white space: joined with tabs, its fields give the stripped
    line back.  No field holds a tab, the first field starts with
    ["Time (s)"], and the last field is not empty, so trailing tabs of the
    line never become empty column names. *)
Theorem read_header_fields (f rest header : list string) :
  read_header f = (Some header, rest) ->
  exists line,
    In line f
    /\ String.concat (String TAB "") header = rstrip line
    /\ Forall (fun field => str_in (String TAB "") field = false) header
    /\ (exists first others,
           header = first :: others /\ prefix "Time (s)" first = true)
    /\ last header "" <> "".
Proof.
  induction f as [|line f IH]; simpl; [discriminate|].
  destruct (prefix "Time (s)" line) eqn:E.
  - intros H. inversion H; subst. exists line.
    split; [auto|]. split; [apply py_split_char_concat|].
    split; [apply py_split_char_fields|].
    destruct (prefix_split _ _ E) as [b ->].
    assert (rstrip ("Time (s)" ++ b) = "Time (s)" ++ rstrip b) as R
        by (apply (rstrip_app_nonspace _ _ ")"); reflexivity).
    split.
    + rewrite R.
      destruct (py_split_char_app_head TAB "Time (s)" (rstrip b) eq_refl)
        as (h & t & _ & ->).
      exists ("Time (s)" ++ h), t. split; [reflexivity|].
      apply prefix_self_app.
    + intros L. apply py_split_char_last in L as [L|L].
      * rewrite R in L. discriminate.
      * apply rstrip_last in L. discriminate.
  - intros H. destruct (IH H) as (l & Hin & Hrest). exists l. auto.
Qed.

Lemma read_header_fields_witness :
  exists line,
    In line ["# scan 12"; header_line; data_line]
    /\ String.concat (String TAB "") ["Time (s)"; "Mono Energy"; "Counter 0"]
       = rstrip line
    /\ Forall (fun field => str_in (String TAB "") field = false)
         ["Time (s)"; "Mono Energy"; "Counter 0"]
    /\ (exists first others,
           ["Time (s)"; "Mono Energy"; "Counter 0"] = first :: others
           /\ prefix "Time (s)" first = true)
    /\ last ["Time (s)"; "Mono Energy"; "Counter 0"] "" <> "".
Proof.
  apply (read_header_fields
           ["# scan 12"; header_line; data_line]
           [data_line]).
  reflexivity.
Defined.

(** ** [read_eli_txt] *)

Lemma read_eli_txt_loop_step (line : string) (lines : list string)
  (metadata : pydict (pydict string)) :
  read_eli_txt_loop (line :: lines) metadata
  = match read_eli_txt_step line metadata with
    | Ok (Some metadata') => read_eli_txt_loop lines metadata'
    | Ok None => Ok metadata
    | Raise e => Raise e
    end.
Proof.
  unfold read_eli_txt_step. cbn [read_eli_txt_loop].
  destruct (str_subscript0 (rstrip line)) as [c|]; [|reflexivity].
  cbn [bind]. destruct (Ascii.eqb c "#"); [|reflexivity].
  destruct (str_in "Column" (str_drop 2 (rstrip line))); [reflexivity|].
  destruct (str_in ": " (str_drop 2 (rstrip line))); [|reflexivity].
  destruct (subscript0 (py_split_once ": " (str_drop 2 (rstrip line))))
    as [m0|]; [|reflexivity].
  cbn [bind]. destruct (subscript0 (py_split_char "." m0)) as [k0|];
    [|reflexivity].
  cbn [bind].
  destruct (subscript1 (py_split_once ": " (str_drop 2 (rstrip line))))
    as [m1|]; [|reflexivity].
  cbn [bind].
  destruct (dict_subscript
              (if negb (dict_mem metadata (py_lower k0))
               then dict_set metadata (py_lower k0) []
               else metadata) (py_lower k0)) as [group|]; [|reflexivity].
  cbn [bind]. destruct (subscript1 (py_split_char "." m0)); reflexivity.
Qed.

Lemma read_eli_txt_step_column (line : string)
  (metadata : pydict (pydict string)) :
  read_eli_txt_step line metadata = Ok None <-> is_column_line line = true.
Proof.
  unfold read_eli_txt_step, is_column_line.
  destruct (rstrip line) as [|c r] eqn:E; [cbn; split; discriminate|].
  cbn [str_subscript0 bind]. set (raw := str_drop 2 (String c r)).
  destruct (Ascii.eqb c "#"); cbn [andb]; [|split; discriminate].
  destruct (str_in "Column" raw); [split; reflexivity|].
  split; [|discriminate]. intros H.
  destruct (str_in ": " raw); [|discriminate].
  destruct (subscript0 (py_split_once ": " raw)) as [m0|]; [|discriminate].
  cbn [bind] in H.
  destruct (subscript0 (py_split_char "." m0)) as [k0|]; [|discriminate].
  cbn [bind] in H.
  destruct (subscript1 (py_split_once ": " raw)); [|discriminate].
  cbn [bind] in H.
  destruct (dict_subscript _ (py_lower k0)); [|discriminate].
  cbn [bind] in H.
  destruct (subscript1 (py_split_char "." m0)); discriminate.
Qed.

(** X16.  [read_eli_txt] reads nothing behind the first line that, stripped,
    starts with ['#'] and holds ["Column"] from its third character on: the
    result, a dictionary or an exception, is that of the lines in front of
    it, whatever follows. *)
Theorem read_eli_txt_stops_at_column (pre post : list string) (col : string) :
  is_column_line col = true ->
  read_eli_txt (pre ++ col :: post)%list = read_eli_txt pre.
Proof.
  intros Hcol. unfold read_eli_txt. generalize (@nil (string * pydict string)).
  induction pre as [|line pre IH]; intros m.
  - simpl app. rewrite read_eli_txt_loop_step.
    apply (read_eli_txt_step_column col m) in Hcol. now rewrite Hcol.
  - change ((line :: pre) ++ col :: post)%list
      with (line :: (pre ++ col :: post))%list.
    rewrite !read_eli_txt_loop_step.
    destruct (read_eli_txt_step line m) as [[m'|]|e]; auto.
Qed.

Lemma read_eli_txt_stops_at_column_witness :
  read_eli_txt (["# Facility.name: NSLS-II"]
                  ++ "# Column.1: energy" :: [""; "# Beamline.name: ISS"])%list
  = read_eli_txt ["# Facility.name: NSLS-II"].
Proof.
  apply read_eli_txt_stops_at_column. reflexivity.
Defined.

Section DictSet.
Context {V : Type}.

Lemma dict_get_set_same (d : pydict V) (k : string) (v : V) :
  dict_get (dict_set d k v) k = Some v.
Proof.
  induction d as [|[k' v'] d IH]; simpl.
  - now rewrite String.eqb_refl.
  - destruct (String.eqb k' k) eqn:E; simpl; rewrite E; auto.
Qed.

Lemma dict_get_set_other (d : pydict V) (k k' : string) (v : V) :
  k' <> k -> dict_get (dict_set d k v) k' = dict_get d k'.
Proof.
  intros Hne. induction d as [|[k0 v0] d IH]; simpl.
  - destruct (String.eqb_spec k k'); [congruence | reflexivity].
  - destruct (String.eqb_spec k0 k) as [->|Hk]; simpl.
    + destruct (String.eqb_spec k k'); [congruence | reflexivity].
    + destruct (String.eqb k0 k'); auto.
Qed.

Lemma dict_set_keys (d : pydict V) (k : string) (v : V) (Q : string -> Prop) :
  Forall Q (dict_keys d) -> Q k -> Forall Q (dict_keys (dict_set d k v)).
Proof.
  unfold dict_keys. intros H Hk. induction d as [|[k' v'] d IH]; simpl.
  - repeat constructor. exact Hk.
  - inversion H; subst. destruct (String.eqb k' k); simpl; constructor; auto.
Qed.

Lemma dict_set_values (d : pydict V) (k : string) (v : V) (R : V -> Prop) :
  Forall (fun kv => R (snd kv)) d -> R v ->
  Forall (fun kv => R (snd kv)) (dict_set d k v).
Proof.
  intros H Hv. induction d as [|[k' v'] d IH]; simpl.
  - repeat constructor. exact Hv.
  - inversion H; subst. destruct (String.eqb k' k); constructor; auto.
Qed.

Lemma dict_get_values (d : pydict V) (k : string) (v : V) (R : V -> Prop) :
  Forall (fun kv => R (snd kv)) d -> dict_get d k = Some v -> R v.
Proof.
  intros H E. apply dict_get_Some_In in E. rewrite Forall_forall in H.
  apply (H _ E).
Qed.
End DictSet.

(** The group the loop writes to is in the dictionary when it is looked up:
    the subscript of line 444 cannot fail. *)
Lemma dict_subscript_ensured (metadata : pydict (pydict string)) (k : string) :
  dict_subscript
    (if negb (dict_mem metadata k) then dict_set metadata k [] else metadata) k
  = Ok (match dict_get metadata k with Some g => g | None => [] end).
Proof.
  unfold dict_subscript, dict_mem.
  destruct (dict_get metadata k) as [g|] eqn:E; simpl.
  - now rewrite E.
  - now rewrite dict_get_set_same.
Qed.

Lemma read_eli_txt_step_raise (line : string)
  (metadata : pydict (pydict string)) (e : exn) :
  read_eli_txt_step line metadata = Raise e ->
  (rstrip line = "" /\ e = IndexError "string index out of range")
  \/ (rstrip line <> "" /\ e = IndexError "list index out of range").
Proof.
  unfold read_eli_txt_step.
  destruct (rstrip line) as [|c r] eqn:E.
  - cbn. intros H. inversion H. auto.
  - cbn [str_subscript0 bind]. set (raw := str_drop 2 (String c r)).
    intros H. right. split; [discriminate|].
    destruct (Ascii.eqb c "#"); [|discriminate].
    destruct (str_in "Column" raw); [discriminate|].
    destruct (str_in ": " raw); [|discriminate].
    destruct (py_split_once ": " raw) as [|m0 [|m1 ms]];
      cbn [subscript0 subscript1 bind] in H; try (now inversion H).
    + destruct (py_split_char "." m0) as [|k0 ks];
        cbn [subscript0 bind] in H; now inversion H.
    + destruct (py_split_char "." m0) as [|k0 [|k1 ks]];
        cbn [subscript0 bind] in H; try (now inversion H);
        rewrite dict_subscript_ensured in H; cbn [subscript1 bind] in H;
        now inversion H.
Qed.

Lemma read_eli_txt_step_blank (line : string)
  (metadata : pydict (pydict string)) :
  rstrip line = "" ->
  read_eli_txt_step line metadata
  = Raise (IndexError "string index out of range").
Proof. unfold read_eli_txt_step. now intros ->. Qed.

(** X17.  Every exception of [read_eli_txt] is an [IndexError]; in
    particular the subscript [metadata[keys[0].lower()]] of line 444 never
    raises [KeyError].  A line that is empty or all white space, such as a
    blank line of the file, makes the call raise [IndexError] unless a
    column line comes before it. *)
Theorem read_eli_txt_exceptions (lines : list string) :
  (forall e, read_eli_txt lines = Raise e -> exists msg, e = IndexError msg)
  /\ (forall pre blank post,
         lines = (pre ++ blank :: post)%list ->
         Forall (fun l => is_column_line l = false) pre ->
         rstrip blank = "" ->
         exists msg, read_eli_txt lines = Raise (IndexError msg)).
Proof.
  unfold read_eli_txt.
  assert (forall ls m e, read_eli_txt_loop ls m = Raise e ->
                         exists msg, e = IndexError msg) as OnlyIdx.
  { induction ls as [|line ls IH]; intros m e H; [discriminate|].
    rewrite read_eli_txt_loop_step in H.
    destruct (read_eli_txt_step line m) as [[m'|]|e'] eqn:S.
    - eauto.
    - discriminate.
    - inversion H; subst.
      destruct (read_eli_txt_step_raise _ _ _ S) as [[_ ->]|[_ ->]]; eauto. }
  split; [intros e; apply OnlyIdx|].
  intros pre blank post -> Hpre Hb.
  generalize (@nil (string * pydict string)).
  induction Hpre as [|line pre Hl _ IH]; intros m.
  - simpl app. rewrite read_eli_txt_loop_step,
      (read_eli_txt_step_blank _ _ Hb). eauto.
  - change ((line :: pre) ++ blank :: post)%list
      with (line :: (pre ++ blank :: post))%list.
    rewrite read_eli_txt_loop_step.
    destruct (read_eli_txt_step line m) as [[m'|]|e'] eqn:S.
    + apply IH.
    + apply read_eli_txt_step_column in S. congruence.
    + destruct (read_eli_txt_step_raise _ _ _ S) as [[_ ->]|[_ ->]]; eauto.
Qed.

Lemma read_eli_txt_exceptions_witness :
  exists msg,
    read_eli_txt ["# Facility.name: NSLS-II"; " "; "# Column.1: energy"]
    = Raise (IndexError msg).
Proof.
  destruct (read_eli_txt_exceptions
              ["# Facility.name: NSLS-II"; " "; "# Column.1: energy"])
    as (_ & H).
  apply (H ["# Facility.name: NSLS-II"] " " ["# Column.1: energy"]);
    [reflexivity | repeat constructor | reflexivity].
Defined.

Lemma py_lower_char_idempotent (c : ascii) :
  py_lower_char (py_lower_char c) = py_lower_char c.
Proof. destruct c as [[] [] [] [] [] [] [] []]; reflexivity. Qed.

Lemma py_lower_idempotent (s : string) : py_lower (py_lower s) = py_lower s.
Proof.
  unfold py_lower. induction s as [|c s IH]; simpl; [reflexivity|].
  now rewrite py_lower_char_idempotent, IH.
Qed.

Lemma read_eli_txt_step_lower (line : string)
  (metadata metadata' : pydict (pydict string)) :
  lower_case_keys metadata ->
  Forall (fun g => lower_case_keys (snd g)) metadata ->
  read_eli_txt_step line metadata = Ok (Some metadata') ->
  lower_case_keys metadata'
  /\ Forall (fun g => lower_case_keys (snd g)) metadata'.
Proof.
  unfold read_eli_txt_step. intros HK HG.
  destruct (str_subscript0 (rstrip line)) as [c|]; [|discriminate].
  cbn [bind]. set (raw := str_drop 2 (rstrip line)).
  destruct (Ascii.eqb c "#"); [|intros H; inversion H; subst; auto].
  destruct (str_in "Column" raw); [discriminate|].
  destruct (str_in ": " raw); [|intros H; inversion H; subst; auto].
  destruct (subscript0 (py_split_once ": " raw)) as [m0|]; [|discriminate].
  cbn [bind].
  destruct (subscript0 (py_split_char "." m0)) as [k0|]; [|discriminate].
  cbn [bind].
  destruct (subscript1 (py_split_once ": " raw)) as [m1|]; [|discriminate].
  cbn [bind]. rewrite dict_subscript_ensured. cbn [bind].
  destruct (subscript1 (py_split_char "." m0)) as [k1|]; [|discriminate].
  cbn [bind]. intros H. inversion H; subst. clear H.
  set (m := if negb (dict_mem metadata (py_lower k0))
            then dict_set metadata (py_lower k0) [] else metadata).
  assert (lower_case_keys m
          /\ Forall (fun g => lower_case_keys (snd g)) m) as [HK' HG'].
  { unfold m. destruct (negb (dict_mem metadata (py_lower k0))); [|auto].
    split.
    - apply dict_set_keys; [exact HK | apply py_lower_idempotent].
    - apply (dict_set_values _ _ _ lower_case_keys); [exact HG | constructor]. }
  split.
  - apply dict_set_keys; [exact HK' | apply py_lower_idempotent].
  - apply (dict_set_values _ _ _ lower_case_keys); [exact HG'|].
    apply dict_set_keys; [|apply py_lower_idempotent].
    destruct (dict_get metadata (py_lower k0)) as [g|] eqn:E; [|constructor].
    apply (dict_get_values _ _ _ lower_case_keys HG E).
Qed.

(** X18.  Every key of the dictionary [read_eli_txt] returns is lower case,
    the group keys and the field keys of every group: a group or field is
    found under the lower-case form of its name in the file and under no
    other spelling. *)
Theorem read_eli_txt_lower_case (lines : list string)
  (metadata : pydict (pydict string)) :
  read_eli_txt lines = Ok metadata ->
  lower_case_keys metadata
  /\ Forall (fun g => lower_case_keys (snd g)) metadata
  /\ (forall group field value,
         meta_get metadata group field = Some value ->
         py_lower group = group /\ py_lower field = field).
Proof.
  unfold read_eli_txt.
  assert (forall ls m m',
             lower_case_keys m ->
             Forall (fun g => lower_case_keys (snd g)) m ->
             read_eli_txt_loop ls m = Ok m' ->
             lower_case_keys m'
             /\ Forall (fun g => lower_case_keys (snd g)) m') as Inv.
  { induction ls as [|line ls IH]; intros m m' HK HG H.
    - inversion H; subst. auto.
    - rewrite read_eli_txt_loop_step in H.
      destruct (read_eli_txt_step line m) as [[m1|]|e] eqn:S.
      + destruct (read_eli_txt_step_lower _ _ _ HK HG S) as [HK1 HG1].
        apply (IH _ _ HK1 HG1 H).
      + inversion H; subst. auto.
      + discriminate. }
  intros H. destruct (Inv lines [] metadata) as [HK HG];
    [constructor | constructor | exact H |].
  split; [exact HK|]. split; [exact HG|].
  intros group field value G. unfold meta_get in G.
  destruct (dict_get metadata group) as [g|] eqn:Eg; [|discriminate].
  pose proof (dict_get_values _ _ _ lower_case_keys HG Eg) as Hg.
  apply dict_get_Some_In in Eg, G.
  unfold lower_case_keys in HK, Hg. rewrite Forall_forall in HK, Hg.
  split.
  - apply HK. unfold dict_keys. apply (in_map fst _ _ Eg).
  - apply Hg. unfold dict_keys. apply (in_map fst _ _ G).
Qed.

Lemma read_eli_txt_lower_case_witness :
  py_lower "facility" = "facility" /\ py_lower "name" = "name".
Proof.
  destruct (read_eli_txt_lower_case
              ["# Facility.Name: NSLS-II"; "# Column.1: energy"]
              [("facility", [("name", "NSLS-II")])] eq_refl) as (_ & _ & H).
  apply (H "facility" "name" "NSLS-II"). reflexivity.
Defined.

Lemma rstrip_app_blank (s ws : string) :
  forallb is_space (list_ascii_of_string ws) = true ->
  rstrip (s ++ ws) = rstrip s.
Proof.
  intros H. induction s as [|c s IH].
  - simpl. now apply rstrip_blank.
  - change (String c s ++ ws) with (String c (s ++ ws)).
    now rewrite !rstrip_cons, IH.
Qed.

Lemma append_nil_r (s : string) : s ++ "" = s.
Proof. induction s; simpl; congruence. Qed.

Lemma str_in_char_app (a : ascii) (s t : string) :
  str_in (String a "") (s ++ t)
  = str_in (String a "") s || str_in (String a "") t.
Proof.
  induction s as [|c s IH]; [reflexivity|].
  change (String c s ++ t) with (String c (s ++ t)).
  now rewrite !str_in_char_cons, IH, orb_assoc.
Qed.

Lemma py_split_once_colon (key value : string) :
  str_in ":" key = false ->
  py_split_once ": " (key ++ ": " ++ value) = [key; value].
Proof.
  induction key as [|c key IH]; intros H.
  - change ("" ++ ": " ++ value) with (String ":" (String " " value)).
    cbn [py_split_once].
    assert (prefix ": " (String ":" (String " " value)) = true) as ->
        by (destruct value; reflexivity).
    reflexivity.
  - rewrite str_in_char_cons in H. apply orb_false_iff in H as [Hc Hk].
    change (String c key ++ ": " ++ value)
      with (String c (key ++ ": " ++ value)).
    cbn [py_split_once]. rewrite (IH Hk).
    assert (prefix ": " (String c (key ++ ": " ++ value)) = false) as ->;
      [|reflexivity].
    destruct (prefix ": " (String c (key ++ ": " ++ value))) eqn:P;
      [|reflexivity].
    apply prefix_split in P as [b P]. injection P as -> _. discriminate.
Qed.

Lemma read_eli_txt_loop_app (pre post : list string) :
  Forall (fun l => is_column_line l = false) pre ->
  forall m,
    read_eli_txt_loop (pre ++ post) m
    = match read_eli_txt_loop pre m with
      | Ok m' => read_eli_txt_loop post m'
      | Raise e => Raise e
      end.
Proof.
  induction 1 as [|line pre Hl _ IH]; intros m; [reflexivity|].
  change ((line :: pre) ++ post)%list with (line :: (pre ++ post))%list.
  rewrite !read_eli_txt_loop_step.
  destruct (read_eli_txt_step line m) as [[m'|]|e] eqn:S; auto.
  apply read_eli_txt_step_column in S. congruence.
Qed.

(** One round on a well-formed entry line. *)
Lemma read_eli_txt_step_entry (group field value ws : string) (c : ascii)
  (metadata : pydict (pydict string)) :
  plain_key group = true ->
  plain_key field = true ->
  str_in "Column" (group ++ "." ++ field ++ ": " ++ value) = false ->
  str_last value = Some c -> is_space c = false ->
  forallb is_space (list_ascii_of_string ws) = true ->
  read_eli_txt_step (eli_entry group field value ++ ws) metadata
  = Ok (Some
          (dict_set
             (if negb (dict_mem metadata (py_lower group))
              then dict_set metadata (py_lower group) []
              else metadata)
             (py_lower group)
             (dict_set
                (match dict_get metadata (py_lower group) with
                 | Some g => g
                 | None => []
                 end)
                (py_lower field) value))).
Proof.
  unfold plain_key. intros HG HF HC Hl Hc Hws.
  apply andb_true_iff in HG as [HG1 HG2]. apply negb_true_iff in HG1, HG2.
  apply andb_true_iff in HF as [HF1 HF2]. apply negb_true_iff in HF1, HF2.
  unfold read_eli_txt_step.
  assert (rstrip (eli_entry group field value ++ ws)
          = eli_entry group field value) as ->.
  { rewrite (rstrip_app_blank _ _ Hws).
    rewrite <- (append_nil_r (eli_entry group field value)) at 1.
    rewrite (rstrip_app_nonspace _ "" c); [apply append_nil_r | | exact Hc].
    unfold eli_entry.
    repeat (apply str_last_app; try exact Hl). }
  unfold eli_entry at 1. cbn [append str_subscript0 bind Ascii.eqb Bool.eqb].
  change (str_drop 2 (eli_entry group field value))
    with (group ++ "." ++ field ++ ": " ++ value).
  rewrite HC.
  assert (group ++ "." ++ field ++ ": " ++ value
          = (group ++ "." ++ field) ++ ": " ++ value) as E
      by (now rewrite !append_assoc).
  assert (str_in ": " (group ++ "." ++ field ++ ": " ++ value) = true) as ->.
  { apply str_in_spec. exists (group ++ "." ++ field), value. exact E. }
  rewrite E, py_split_once_colon.
  2:{ rewrite !str_in_char_app, HG2, HF2. reflexivity. }
  cbn [subscript0 subscript1 bind].
  change (group ++ "." ++ field) with (group ++ String "." field).
  destruct (py_split_char_head "." group field HG1) as [_ ->].
  destruct (py_split_char_head "." field "" HF1) as [-> _].
  cbn [subscript0 subscript1 bind].
  rewrite dict_subscript_ensured. reflexivity.
Qed.

(** X19.  A metadata line ["# Group.Field: value"] that the loop reaches is
    stored under the lower-case keys: after it, [metadata[group][field]] is
    the value, whatever was stored there before, and no other entry has
    changed.  The line is as the files have it: group and field without
    ['.'] and [':'], a value that is not empty and does not end in white
    space, no ["Column"] in the line, and any white space (the line end)
    behind it. *)
Theorem read_eli_txt_entry (pre : list string) (group field value ws : string)
  (c : ascii) (metadata : pydict (pydict string)) :
  Forall (fun l => is_column_line l = false) pre ->
  read_eli_txt pre = Ok metadata ->
  plain_key group = true ->
  plain_key field = true ->
  str_in "Column" (group ++ "." ++ field ++ ": " ++ value) = false ->
  str_last value = Some c -> is_space c = false ->
  forallb is_space (list_ascii_of_string ws) = true ->
  exists metadata',
    read_eli_txt (pre ++ [eli_entry group field value ++ ws]) = Ok metadata'
    /\ meta_get metadata' (py_lower group) (py_lower field) = Some value
    /\ (forall g f,
           (g, f) <> (py_lower group, py_lower field) ->
           meta_get metadata' g f = meta_get metadata g f).
Proof.
  intros Hpre Hm HG HF HC Hl Hc Hws. unfold read_eli_txt in *.
  rewrite (read_eli_txt_loop_app _ _ Hpre), Hm, read_eli_txt_loop_step,
    (read_eli_txt_step_entry _ _ _ _ c _ HG HF HC Hl Hc Hws).
  eexists. split; [reflexivity|].
  set (m1 := if negb (dict_mem metadata (py_lower group))
             then dict_set metadata (py_lower group) [] else metadata).
  split.
  - unfold meta_get. now rewrite !dict_get_set_same.
  - intros g f Hne. unfold meta_get.
    destruct (String.eqb_spec g (py_lower group)) as [->|Hg].
    + rewrite dict_get_set_same.
      assert (f <> py_lower field) as Hf by congruence.
      rewrite (dict_get_set_other _ _ _ _ Hf).
      now destruct (dict_get metadata (py_lower group)).
    + rewrite (dict_get_set_other _ _ _ _ Hg). unfold m1.
      destruct (negb (dict_mem metadata (py_lower group))); [|reflexivity].
      now rewrite (dict_get_set_other _ _ _ _ Hg).
Qed.

Lemma read_eli_txt_entry_witness :
  exists metadata',
    read_eli_txt (["# Facility.name: NSLS-II"; "# Beamline.name: 8-ID"]
                    ++ [eli_entry "Beamline" "Name" "ISS" ++ " "])
    = Ok metadata'
    /\ meta_get metadata' (py_lower "Beamline") (py_lower "Name") = Some "ISS"
    /\ (forall g f,
           (g, f) <> (py_lower "Beamline", py_lower "Name") ->
           meta_get metadata' g f
           = meta_get [("facility", [("name", "NSLS-II")]);
                       ("beamline", [("name", "8-ID")])] g f).
Proof.
  apply (read_eli_txt_entry
           ["# Facility.name: NSLS-II"; "# Beamline.name: 8-ID"]
           "Beamline" "Name" "ISS" " " "S");
    try reflexivity.
  repeat constructor.
Defined.

(** ** The metadata of [ingest_aimm_ncm_eli] *)

(** X20.  What [ingest_aimm_ncm_eli] makes of the dictionary [read_eli_txt]
    returns.  Without a beamline group the first assignment raises
    [KeyError] for ["beamline"], and with a beamline group but no sample
    group the second raises it for ["sample"]; neither is inside the [try]
    of the loop.  With both groups the beamline name becomes ["ISS"] and the
    sample name the classified sample, whatever the file said, and every
    other entry is kept. *)
Theorem ingest_aimm_ncm_eli_meta_names (lines : list string)
  (sample_name : string) (meta : pydict (pydict string)) :
  read_eli_txt lines = Ok meta ->
  (dict_get meta "beamline" = None ->
   ingest_aimm_ncm_eli_meta lines sample_name = Raise (KeyError "beamline"))
  /\ (dict_get meta "beamline" <> None -> dict_get meta "sample" = None ->
      ingest_aimm_ncm_eli_meta lines sample_name = Raise (KeyError "sample"))
  /\ (dict_get meta "beamline" <> None -> dict_get meta "sample" <> None ->
      exists meta',
        ingest_aimm_ncm_eli_meta lines sample_name = Ok meta'
        /\ meta_get meta' "beamline" "name" = Some "ISS"
        /\ meta_get meta' "sample" "name" = Some sample_name
        /\ (forall g f,
               (g, f) <> ("beamline", "name") ->
               (g, f) <> ("sample", "name") ->
               meta_get meta' g f = meta_get meta g f)).
Proof.
  intros H. unfold ingest_aimm_ncm_eli_meta. rewrite H. cbn [bind].
  unfold dict_subscript. split; [|split].
  - now intros ->.
  - intros Hb Hs. destruct (dict_get meta "beamline") as [b|]; [|congruence].
    cbn [bind]. rewrite dict_get_set_other, Hs; [reflexivity | discriminate].
  - intros Hb Hs. destruct (dict_get meta "beamline") as [b|] eqn:Eb;
      [|congruence].
    destruct (dict_get meta "sample") as [s|] eqn:Es; [|congruence].
    cbn [bind]. rewrite dict_get_set_other, Es; [|discriminate].
    cbn [bind]. eexists. split; [reflexivity|]. unfold meta_get.
    split; [|split].
    + rewrite dict_get_set_other, !dict_get_set_same; [reflexivity|].
      discriminate.
    + now rewrite !dict_get_set_same.
    + intros g f H1 H2.
      destruct (String.eqb_spec g "sample") as [->|Hg1].
      * rewrite dict_get_set_same, Es.
        apply dict_get_set_other. congruence.
      * rewrite (dict_get_set_other _ _ _ _ Hg1).
        destruct (String.eqb_spec g "beamline") as [->|Hg2].
        -- rewrite dict_get_set_same, Eb.
           apply dict_get_set_other. congruence.
        -- now rewrite (dict_get_set_other _ _ _ _ Hg2).
Qed.

Lemma ingest_aimm_ncm_eli_meta_names_witness :
  ingest_aimm_ncm_eli_meta ["# Facility.name: NSLS-II"] "BM_NCMA"
  = Raise (KeyError "beamline")
  /\ ingest_aimm_ncm_eli_meta ["# Beamline.name: 8-ID"] "BM_NCMA"
     = Raise (KeyError "sample")
  /\ (exists meta',
         ingest_aimm_ncm_eli_meta
           ["# Beamline.name: 8-ID"; "# Sample.name: 1-1"; "# Sample.comment: x"]
           "BM_NCMA"
         = Ok meta'
         /\ meta_get meta' "beamline" "name" = Some "ISS"
         /\ meta_get meta' "sample" "name" = Some "BM_NCMA"
         /\ (forall g f,
                (g, f) <> ("beamline", "name") ->
                (g, f) <> ("sample", "name") ->
                meta_get meta' g f
                = meta_get [("beamline", [("name", "8-ID")]);
                            ("sample", [("name", "1-1"); ("comment", "x")])]
                    g f)).
Proof.
  split; [|split].
  - destruct (ingest_aimm_ncm_eli_meta_names ["# Facility.name: NSLS-II"]
                "BM_NCMA" _ eq_refl) as (H & _).
    apply H. reflexivity.
  - destruct (ingest_aimm_ncm_eli_meta_names ["# Beamline.name: 8-ID"]
                "BM_NCMA" _ eq_refl) as (_ & H & _).
    apply H; [discriminate | reflexivity].
  - destruct (ingest_aimm_ncm_eli_meta_names
                ["# Beamline.name: 8-ID"; "# Sample.name: 1-1";
                 "# Sample.comment: x"] "BM_NCMA" _ eq_refl) as (_ & _ & H).
    apply H; discriminate.
Defined.

(** ** [read_aimm_ncm_vasp] *)

Section VaspFacts.
Context {V : Type}.

Lemma dict_set_fresh {W : Type} (d : pydict W) (k : string) (v : W) :
  ~ In k (dict_keys d) -> dict_set d k v = (d ++ [(k, v)])%list.
Proof.
  induction d as [|[k' v'] d IH]; simpl; [reflexivity|].
  intros H. destruct (String.eqb_spec k' k) as [->|Hne]; [tauto|].
  rewrite IH; [reflexivity | tauto].
Qed.

Lemma dict_keys_app {W : Type} (d1 d2 : pydict W) :
  dict_keys (d1 ++ d2)%list = (dict_keys d1 ++ dict_keys d2)%list.
Proof. apply map_app. Qed.

Lemma dict_get_app_fresh {W : Type} (d : pydict W) (k k' : string) (v : W) :
  dict_get (d ++ [(k, v)])%list k'
  = match dict_get d k' with
    | Some w => Some w
    | None => if String.eqb k k' then Some v else None
    end.
Proof.
  induction d as [|[k0 v0] d IH]; simpl; [reflexivity|].
  destruct (String.eqb k0 k'); [reflexivity | exact IH].
Qed.

(** The loop, run on items whose keys are new to the accumulators and all
    have an intensity, appends one entry per item. *)
Lemma read_aimm_ncm_vasp_loop_spec (intensity : pydict V) (fname : string) :
  forall (items : list (string * V)) data meta,
    NoDup (dict_keys data ++ dict_keys items) ->
    dict_keys meta = dict_keys data ->
    forallb (fun k => dict_mem intensity k) (dict_keys items) = true ->
    exists data' meta',
      read_aimm_ncm_vasp_loop items intensity fname data meta
      = Ok (data', meta')
      /\ dict_keys data' = (dict_keys data ++ dict_keys items)%list
      /\ dict_keys meta' = dict_keys data'
      /\ (forall k,
             dict_get data' k
             = match dict_get data k with
               | Some w => Some w
               | None =>
                   match dict_get items k, dict_get intensity k with
                   | Some e, Some i => Some [("energy", e); ("mutrans", i)]
                   | _, _ => None
                   end
               end)
      /\ (forall k,
             dict_get meta' k
             = match dict_get meta k with
               | Some w => Some w
               | None =>
                   match dict_get items k with
                   | Some _ => Some (vasp_meta fname)
                   | None => None
                   end
               end).
Proof.
  induction items as [|[key values] items IH]; intros data meta ND HK HI.
  - exists data, meta. simpl. rewrite app_nil_r. repeat split; auto.
    + intros k. now destruct (dict_get data k).
    + intros k. now destruct (dict_get meta k).
  - simpl in HI. apply andb_true_iff in HI as [Hkey HI].
    unfold dict_mem in Hkey.
    destruct (dict_get intensity key) as [i|] eqn:Ei; [|discriminate].
    cbn [read_aimm_ncm_vasp_loop]. unfold dict_subscript. rewrite Ei.
    cbn [bind].
    assert (~ In key (dict_keys data)) as Hfresh.
    { intros Hin. simpl in ND. apply NoDup_remove_2 in ND.
      apply ND, in_or_app. auto. }
    assert (~ In key (dict_keys meta)) as Hfresh' by (now rewrite HK).
    rewrite (dict_set_fresh data _ _ Hfresh), (dict_set_fresh meta _ _ Hfresh').
    destruct (IH (data ++ [(key, py_dict [("energy", values); ("mutrans", i)])])%list
                (meta ++ [(key, vasp_meta fname)])%list)
      as (data' & meta' & -> & K1 & K2 & G1 & G2).
    + rewrite dict_keys_app. simpl. rewrite <- app_assoc. exact ND.
    + now rewrite !dict_keys_app, HK.
    + exact HI.
    + exists data', meta'. split; [reflexivity|].
      split; [rewrite K1, dict_keys_app; simpl; now rewrite <- app_assoc|].
      split; [exact K2|]. split.
      * intros k. rewrite G1, dict_get_app_fresh. simpl.
        destruct (dict_get data k) as [w|]; [reflexivity|].
        destruct (String.eqb_spec key k) as [->|Hne]; [|reflexivity].
        now rewrite Ei.
      * intros k. rewrite G2, dict_get_app_fresh. simpl.
        destruct (dict_get meta k) as [w|]; [reflexivity|].
        destruct (String.eqb key k); [reflexivity|].
        reflexivity.
Qed.

(** X21.  [read_aimm_ncm_vasp] on a loaded file whose energy and intensity
    tables have the same keys (each key once, as in every dict): it returns
    without an exception, the subscript [file_data["intensity"][key]] never
    fails; the data and the metadata have the keys of the energy table, in
    its order; the data of a key pairs its energy with its intensity and
    the metadata of every key is the same record with the file name. *)
Theorem read_aimm_ncm_vasp_same_keys (fname : string)
  (file_data : pydict (pydict V)) (energy intensity : pydict V) :
  dict_get file_data "energy" = Some energy ->
  dict_get file_data "intensity" = Some intensity ->
  NoDup (dict_keys energy) ->
  keys_view_eq energy intensity = true ->
  exists data meta,
    read_aimm_ncm_vasp fname file_data = Ok (data, meta)
    /\ dict_keys data = dict_keys energy
    /\ dict_keys meta = dict_keys energy
    /\ (forall k e,
           dict_get energy k = Some e ->
           exists i,
             dict_get intensity k = Some i
             /\ dict_get data k = Some [("energy", e); ("mutrans", i)]
             /\ dict_get meta k = Some (vasp_meta fname)).
Proof.
  intros He Hi ND HK. unfold read_aimm_ncm_vasp, dict_subscript.
  rewrite He, Hi. cbn [bind]. rewrite HK.
  unfold keys_view_eq in HK. apply andb_true_iff in HK as [_ HK].
  destruct (read_aimm_ncm_vasp_loop_spec intensity fname energy [] [])
    as (data & meta & -> & K1 & K2 & G1 & G2); [exact ND | reflexivity | exact HK|].
  exists data, meta. split; [reflexivity|]. split; [exact K1|].
  split; [now rewrite K2|].
  intros k e Hk.
  assert (dict_mem intensity k = true) as Hm.
  { rewrite forallb_forall in HK. apply HK.
    apply dict_get_Some_In in Hk. unfold dict_keys.
    apply (in_map fst _ _ Hk). }
  unfold dict_mem in Hm.
  destruct (dict_get intensity k) as [i|] eqn:Ei; [|discriminate].
  exists i. split; [reflexivity|]. rewrite G1, G2. simpl.
  now rewrite Hk, Ei.
Qed.

(** X22.  When the key views of the two tables differ, in size or by a key
    of the energy table that the intensity table lacks, [read_aimm_ncm_vasp]
    returns two empty dictionaries and raises nothing; and it raises
    [KeyError] when the file has no energy table, or an energy table and no
    intensity table. *)
Theorem read_aimm_ncm_vasp_mismatch (fname : string)
  (file_data : pydict (pydict V)) :
  (dict_get file_data "energy" = None ->
   read_aimm_ncm_vasp fname file_data = Raise (KeyError "energy"))
  /\ (dict_get file_data "energy" <> None ->
      dict_get file_data "intensity" = None ->
      read_aimm_ncm_vasp fname file_data = Raise (KeyError "intensity"))
  /\ (forall energy intensity,
         dict_get file_data "energy" = Some energy ->
         dict_get file_data "intensity" = Some intensity ->
         List.length energy <> List.length intensity
         \/ (exists k, In k (dict_keys energy)
                       /\ dict_get intensity k = None) ->
         read_aimm_ncm_vasp fname file_data = Ok ([], [])).
Proof.
  unfold read_aimm_ncm_vasp, dict_subscript. split; [|split].
  - now intros ->.
  - intros He ->. now destruct (dict_get file_data "energy").
  - intros energy intensity -> -> H. cbn [bind].
    assert (keys_view_eq energy intensity = false) as ->; [|reflexivity].
    unfold keys_view_eq. apply andb_false_iff.
    destruct H as [H|(k & Hk & Hn)].
    + left. now apply Nat.eqb_neq.
    + right. destruct (forallb _ (dict_keys energy)) eqn:F; [|reflexivity].
      rewrite forallb_forall in F. specialize (F _ Hk).
      unfold dict_mem in F. rewrite Hn in F. discriminate.
Qed.
End VaspFacts.

Lemma read_aimm_ncm_vasp_same_keys_witness :
  exists data meta,
    read_aimm_ncm_vasp "xas_nmc_vasp.json"
      [("energy", [("s1", [1%Z; 2%Z]); ("s2", [3%Z])]);
       ("intensity", [("s2", [30%Z]); ("s1", [10%Z; 20%Z])])]
    = Ok (data, meta)
    /\ dict_keys data = ["s1"; "s2"]
    /\ dict_keys meta = ["s1"; "s2"]
    /\ (forall k e,
           dict_get [("s1", [1%Z; 2%Z]); ("s2", [3%Z])] k = Some e ->
           exists i,
             dict_get [("s2", [30%Z]); ("s1", [10%Z; 20%Z])] k = Some i
             /\ dict_get data k = Some [("energy", e); ("mutrans", i)]
             /\ dict_get meta k = Some (vasp_meta "xas_nmc_vasp.json")).
Proof.
  apply (read_aimm_ncm_vasp_same_keys "xas_nmc_vasp.json"
           [("energy", [("s1", [1%Z; 2%Z]); ("s2", [3%Z])]);
            ("intensity", [("s2", [30%Z]); ("s1", [10%Z; 20%Z])])]
           [("s1", [1%Z; 2%Z]); ("s2", [3%Z])]
           [("s2", [30%Z]); ("s1", [10%Z; 20%Z])]);
    try reflexivity.
  repeat constructor; simpl; intuition discriminate.
Defined.

Lemma read_aimm_ncm_vasp_mismatch_witness :
  read_aimm_ncm_vasp "xas_nmc_vasp.json"
    [("intensity", [("s1", [10%Z])])]
  = Raise (KeyError "energy")
  /\ read_aimm_ncm_vasp "xas_nmc_vasp.json"
       [("energy", [("s1", [1%Z])]); ("intensity", [("s2", [10%Z])])]
     = Ok ([], []).
Proof.
  split.
  - destruct (read_aimm_ncm_vasp_mismatch "xas_nmc_vasp.json"
                [("intensity", [("s1", [10%Z])])]) as (H & _).
    apply H. reflexivity.
  - destruct (read_aimm_ncm_vasp_mismatch "xas_nmc_vasp.json"
                [("energy", [("s1", [1%Z])]); ("intensity", [("s2", [10%Z])])])
      as (_ & _ & H).
    apply (H [("s1", [1%Z])] [("s2", [10%Z])]); try reflexivity.
    right. exists "s1". split; [left; reflexivity | reflexivity].
Defined.
